(** * Photonicat PMU framing, correlation and dispatch engine

    A shallow embedding of drivers/mfd/photonicat-pmu.c together with the
    wire structures of include/linux/mfd/photonicat-pmu.h, and of the
    parts of its callers (watchdog, clock, temperature sensor, power supply
    and power-off drivers) that talk to it.

    Integers of the C code are [Z] with the wrap-around of their C type
    written out; bytes are [Z] in [0, 256); byte buffers are [list Z].
    The driver state, the request objects that [pmu->reply] points to and
    the serial transport are fields of one [world] record that every
    function threads explicitly. *)

From Stdlib Require Import ZArith List Bool Lia.
From stdpp Require Import base tactics option list gmap.

Local Open Scope Z_scope.

(** ** Constants *)

Definition PCAT_ADDR_CPU : Z := 0x01.
Definition PCAT_ADDR_PMU : Z := 0x81.
Definition PCAT_ADDR_CPU_ALL : Z := 0x80.
Definition PCAT_ADDR_PMU_ALL : Z := 0xFE.
Definition PCAT_ADDR_ALL : Z := 0xFF.

Definition PCAT_MAGIC_HEAD : Z := 0xA5.
Definition PCAT_MAGIC_END : Z := 0x5A.

Definition PCAT_CMD_HEARTBEAT : Z := 0x01.
Definition PCAT_CMD_HEARTBEAT_ACK : Z := 0x02.
Definition PCAT_CMD_STATUS_REPORT : Z := 0x07.

(** Values of the kernel headers the driver includes. *)
Definition U16_MAX : Z := 65535.
Definition EAGAIN : Z := 11.
Definition EBADMSG : Z := 74.
Definition ETIMEDOUT : Z := 110.
Definition NOTIFY_DONE : Z := 0.
Definition NOTIFY_STOP_MASK : Z := 0x8000.

(** sizeof of the two packed wire structures, and of [pmu->buffer]. *)
Definition sizeof_head : Z := 9.
Definition sizeof_foot : Z := 4.
Definition sizeof_buffer : Z := 8192.

(** ** Integer conversions *)

Definition to_u8 (v : Z) : Z := v mod 256.
Definition to_u16 (v : Z) : Z := v mod 65536.
Definition to_size_t (v : Z) : Z := v mod 2 ^ 64.

(** [atomic_t] holds a 32-bit signed int that wraps. *)
Definition to_int (v : Z) : Z := (v + 2 ^ 31) mod 2 ^ 32 - 2 ^ 31.

(** ** Byte buffers *)

(** [data[i]]; the driver checks lengths before every read, the model reads
    0 outside the list. *)
Definition byte_at (data : list Z) (i : Z) : Z := nth (Z.to_nat i) data 0.

(** A little-endian [u16] field of a packed structure. *)
Definition u16_at (data : list Z) (i : Z) : Z :=
  to_u8 (byte_at data i) + 256 * to_u8 (byte_at data (i + 1)).

Definition u16_bytes (v : Z) : list Z := [to_u8 v; to_u8 (v / 256)].

(** The [n] bytes at [data + off]. *)
Definition bytes_at (data : list Z) (off n : Z) : list Z :=
  take (Z.to_nat n) (drop (Z.to_nat off) data).

(** [memcpy(dst + off, src, n)] on a buffer of fixed size: the bytes
    [off .. off + n) of [dst] are replaced, the size of [dst] stays. Every
    call of the driver is within bounds when [n <= len - off]; the model
    never writes past the end of [dst]. *)
Fixpoint memcpy_from (i : Z) (dst : list Z) (off : Z) (src : list Z) (n : Z)
    : list Z :=
  match dst with
  | [] => []
  | x :: rest =>
      (if (off <=? i) && (i <? off + n) then byte_at src (i - off) else x)
        :: memcpy_from (i + 1) rest off src n
  end.

Definition memcpy (dst : list Z) (off : Z) (src : list Z) (n : Z) : list Z :=
  memcpy_from 0 dst off src n.

(** [memset(dst, 0, len)]: the first [len] bytes of [dst] become 0. *)
Definition memset0 (dst : list Z) (len : Z) : list Z :=
  imap (fun i x => if Z.of_nat i <? len then 0 else x) dst.

(** Fresh zeroed memory of [n] bytes. *)
Definition zeros (n : Z) : list Z := replicate (Z.to_nat n) 0.

(** ** crc16 *)

(** Modelled from the spec: [crc16] of lib/crc16.c is not among the sources.
    The spec has a table-driven CRC16 that is fed incrementally, the result
    of one call being the seed of the next. The table taken here is the
    one of the polynomial x^16 + x^15 + x^2 + 1 in reflected form
    (0xA001); no proof below looks at its entries. *)
Fixpoint crc16_bits (n : nat) (c : Z) : Z :=
  match n with
  | O => c
  | S n' =>
      crc16_bits n'
        (if Z.testbit c 0 then Z.lxor (Z.shiftr c 1) 0xA001 else Z.shiftr c 1)
  end.

Definition crc16_table (i : Z) : Z := crc16_bits 8 i.

Definition crc16_byte (crc data : Z) : Z :=
  to_u16 (Z.lxor (Z.shiftr crc 8) (crc16_table (Z.land (Z.lxor crc data) 0xff))).

Definition crc16 (crc : Z) (buffer : list Z) : Z :=
  fold_left crc16_byte buffer crc.

(** ** Wire structures (include/linux/mfd/photonicat-pmu.h) *)

Record pcat_data_head := mk_head {
  head_magic_head : Z;   (* u8 *)
  head_source : Z;       (* u8 *)
  head_dest : Z;         (* u8 *)
  head_frame_id : Z;     (* u16 *)
  head_length : Z;       (* u16 *)
  head_command : Z;      (* u16 *)
}.

Record pcat_data_foot := mk_foot {
  foot_need_ack : Z;     (* u8 *)
  foot_crc16 : Z;        (* u16 *)
  foot_magic_end : Z;    (* u8 *)
}.

(** [struct pcat_data]: the view of one received frame. The C structure
    holds pointers into the receive buffer; the model holds what they
    point to. [d_data] is never NULL in the driver. *)
Record pcat_data := mk_data {
  d_head : pcat_data_head;
  d_foot : pcat_data_foot;
  d_data : list Z;
  d_size : Z;
}.

(** The bytes of a packed head and foot, as the casts of [&head] and [&foot]
    to a byte pointer read them on the little-endian host. *)
Definition head_bytes (h : pcat_data_head) : list Z :=
  [to_u8 (head_magic_head h); to_u8 (head_source h); to_u8 (head_dest h)]
    ++ u16_bytes (head_frame_id h)
    ++ u16_bytes (head_length h)
    ++ u16_bytes (head_command h).

Definition foot_bytes (f : pcat_data_foot) : list Z :=
  [to_u8 (foot_need_ack f)] ++ u16_bytes (foot_crc16 f) ++ [to_u8 (foot_magic_end f)].

(** The casts of [data] to a head pointer and of [data + off] to a foot
    pointer. *)
Definition head_of_bytes (data : list Z) : pcat_data_head :=
  {| head_magic_head := to_u8 (byte_at data 0);
     head_source := to_u8 (byte_at data 1);
     head_dest := to_u8 (byte_at data 2);
     head_frame_id := u16_at data 3;
     head_length := u16_at data 5;
     head_command := u16_at data 7 |}.

Definition foot_of_bytes (data : list Z) (off : Z) : pcat_data_foot :=
  {| foot_need_ack := to_u8 (byte_at data off);
     foot_crc16 := u16_at data (off + 1);
     foot_magic_end := to_u8 (byte_at data (off + 3)) |}.

(** ** Driver state *)

(** [struct pcat_request]. [req_received] is the [done] counter of the
    completion [received]; [reply_data] is [None] for a NULL pointer and
    otherwise the contents of the buffer it points to. *)
Record pcat_request := mk_request {
  req_frame_id : Z;                 (* u16 frame_id *)
  req_received : Z;                 (* received.done *)
  req_cmd : Z;                      (* u16 request.cmd *)
  req_want : Z;                     (* u16 request.want *)
  req_data : list Z;                (* request.data *)
  req_size : Z;                     (* request.size *)
  reply_head : pcat_data_head;      (* reply.head *)
  reply_foot : pcat_data_foot;      (* reply.foot *)
  reply_data : option (list Z);     (* reply.data *)
  reply_size : Z;                   (* reply.size *)
}.

Definition zero_head : pcat_data_head := mk_head 0 0 0 0 0 0.
Definition zero_foot : pcat_data_foot := mk_foot 0 0 0.

(** A request of all zero bytes. *)
Definition zero_request : pcat_request :=
  mk_request 0 0 0 0 [] 0 zero_head zero_foot None 0.

(** A subscriber: the [notifier_call] of a [notifier_block], given the
    command code and the frame. Only its return value reaches the engine.
    What a subscriber writes into its own state is not part of [world]:
    [w_notified] records every call of the chain, and the state of a
    subscriber is what its callback makes of those calls (see
    [pcat_rtc_notified]). *)
Definition notifier_block : Type := Z -> pcat_data -> Z.

(** [struct pcat_pmu], without the locks and the device pointers. *)
Record pcat_pmu := mk_pmu {
  pmu_frame : Z;                          (* atomic_t frame *)
  pmu_buffer : list Z;                    (* char buffer[8192] *)
  pmu_length : Z;                         (* size_t length *)
  pmu_reply : option Z;                   (* struct pcat_request *reply *)
  pmu_notifier_list : list notifier_block;
}.

(** The driver state with its surroundings: the memory holding request
    objects (by address), the serial transport, the allocator and the
    record of what was handed to the subscriber chain.

    [w_tx] is every byte the transport accepted, oldest first.
    [w_tx_ret] scripts the coming calls of [serdev_device_write_buf]: a
    negative entry makes the next call fail with that code, any other
    entry and the empty script let it succeed.
    [w_kzalloc] scripts the coming allocations: [true] makes the next one
    fail, the empty script lets all succeed.
    [w_rx] scripts the receive path, which is a thread of its own, at the
    points where it can cut into a caller: one entry for each sleep in
    [wait_for_completion_timeout] and one for the time between the end of
    a wait that timed out and what the caller does next, each holding the
    buffers that [pcat_pmu_receive_buf] is called with there. *)
Record world := mk_world {
  w_pmu : pcat_pmu;
  w_requests : gmap Z pcat_request;
  w_tx : list Z;
  w_tx_ret : list Z;
  w_kzalloc : list bool;
  w_rx : list (list (list Z));
  w_notified : list (Z * pcat_data);
}.

Definition set_pmu (f : pcat_pmu -> pcat_pmu) (w : world) : world :=
  mk_world (f (w_pmu w)) (w_requests w) (w_tx w) (w_tx_ret w) (w_kzalloc w)
    (w_rx w) (w_notified w).

Definition set_frame (v : Z) (m : pcat_pmu) : pcat_pmu :=
  mk_pmu v (pmu_buffer m) (pmu_length m) (pmu_reply m) (pmu_notifier_list m).
Definition set_buffer (v : list Z) (m : pcat_pmu) : pcat_pmu :=
  mk_pmu (pmu_frame m) v (pmu_length m) (pmu_reply m) (pmu_notifier_list m).
Definition set_length (v : Z) (m : pcat_pmu) : pcat_pmu :=
  mk_pmu (pmu_frame m) (pmu_buffer m) v (pmu_reply m) (pmu_notifier_list m).
Definition set_reply (v : option Z) (m : pcat_pmu) : pcat_pmu :=
  mk_pmu (pmu_frame m) (pmu_buffer m) (pmu_length m) v (pmu_notifier_list m).

(** The request object at address [p]. Reading an address that holds no
    request is undefined in C; the model reads an all-zero request. *)
Definition req_at (w : world) (p : Z) : pcat_request :=
  default zero_request (w_requests w !! p).

(** A store through a request pointer. *)
Definition upd_req (p : Z) (f : pcat_request -> pcat_request) (w : world) : world :=
  mk_world (w_pmu w) (<[p := f (req_at w p)]> (w_requests w)) (w_tx w)
    (w_tx_ret w) (w_kzalloc w) (w_rx w) (w_notified w).

Definition set_req_frame_id (v : Z) (r : pcat_request) : pcat_request :=
  mk_request v (req_received r) (req_cmd r) (req_want r) (req_data r)
    (req_size r) (reply_head r) (reply_foot r) (reply_data r) (reply_size r).
Definition set_req_received (v : Z) (r : pcat_request) : pcat_request :=
  mk_request (req_frame_id r) v (req_cmd r) (req_want r) (req_data r)
    (req_size r) (reply_head r) (reply_foot r) (reply_data r) (reply_size r).
Definition set_req_want (v : Z) (r : pcat_request) : pcat_request :=
  mk_request (req_frame_id r) (req_received r) (req_cmd r) v (req_data r)
    (req_size r) (reply_head r) (reply_foot r) (reply_data r) (reply_size r).
Definition set_reply_head_foot (h : pcat_data_head) (f : pcat_data_foot)
    (r : pcat_request) : pcat_request :=
  mk_request (req_frame_id r) (req_received r) (req_cmd r) (req_want r)
    (req_data r) (req_size r) h f (reply_data r) (reply_size r).
Definition set_reply_data (d : option (list Z)) (r : pcat_request) : pcat_request :=
  mk_request (req_frame_id r) (req_received r) (req_cmd r) (req_want r)
    (req_data r) (req_size r) (reply_head r) (reply_foot r) d (reply_size r).
Definition set_reply_size (s : Z) (r : pcat_request) : pcat_request :=
  mk_request (req_frame_id r) (req_received r) (req_cmd r) (req_want r)
    (req_data r) (req_size r) (reply_head r) (reply_foot r) (reply_data r) s.

(** [memset(reply, 0, sizeof(request->reply))]. *)
Definition zero_reply (r : pcat_request) : pcat_request :=
  mk_request (req_frame_id r) (req_received r) (req_cmd r) (req_want r)
    (req_data r) (req_size r) zero_head zero_foot None 0.

(** ** Kernel primitives *)

(** Modelled from the spec: the completion of kernel/sched/completion.c is
    not among the sources. The spec has a one-shot completion signal:
    [complete] fires it, [completion_done] tells whether it has fired and a
    successful wait consumes it. *)
Definition init_completion (r : pcat_request) : pcat_request :=
  set_req_received 0 r.
Definition complete (r : pcat_request) : pcat_request :=
  set_req_received (req_received r + 1) r.
Definition completion_done (r : pcat_request) : bool :=
  negb (req_received r =? 0).

(** Modelled from the spec: [atomic_inc_return] is not among the sources.
    The spec has a monotonic id generator; the counter is an [atomic_t],
    incremented and returned. *)
Definition atomic_inc_return_frame (w : world) : Z * world :=
  let v := to_int (pmu_frame (w_pmu w) + 1) in
  (v, set_pmu (set_frame v) w).

(** Modelled from the spec: [serdev_device_write_buf] is not among the
    sources. The spec has an external byte transport whose write either
    fails, which is reported at once, or sends the bytes: a call fails
    with the scripted negative code and sends nothing, or takes the whole
    buffer and returns its size. *)
Definition serdev_device_write_buf (w : world) (buf : list Z) : Z * world :=
  let ok :=
    (Z.of_nat (length buf),
     mk_world (w_pmu w) (w_requests w) (w_tx w ++ buf) (tl (w_tx_ret w))
       (w_kzalloc w) (w_rx w) (w_notified w)) in
  match w_tx_ret w with
  | r :: rest =>
      if r <? 0
      then (r, mk_world (w_pmu w) (w_requests w) (w_tx w) rest (w_kzalloc w)
                 (w_rx w) (w_notified w))
      else ok
  | [] => ok
  end.

(** Modelled from the spec: [devm_kzalloc] is not among the sources. The
    spec has the receive path copy the payload into a buffer that passes
    to the caller; the allocation gives NULL or [n] zero bytes. *)
Definition devm_kzalloc (w : world) (n : Z) : option (list Z) * world :=
  let w' := mk_world (w_pmu w) (w_requests w) (w_tx w) (w_tx_ret w)
              (tl (w_kzalloc w)) (w_rx w) (w_notified w) in
  match w_kzalloc w with
  | true :: _ => (None, w')
  | _ => (Some (zeros n), w')
  end.

(** Modelled from the spec: [blocking_notifier_call_chain] of
    kernel/notifier.c is not among the sources. The spec has an ordered
    list of callbacks, each given the command code and the frame and
    returning NOTIFY_DONE when it does not claim the frame; the walk does
    not end at a callback that claims it. The value of the chain is the
    value of the last callback run, NOTIFY_DONE for an empty chain; a
    value with the stop bit ends the walk. *)
Fixpoint notifier_call_chain (nl : list notifier_block) (ret : Z)
    (val : Z) (v : pcat_data) : Z :=
  match nl with
  | [] => ret
  | nb :: rest =>
      let r := nb val v in
      if Z.land r NOTIFY_STOP_MASK =? 0
      then notifier_call_chain rest r val v
      else r
  end.

Definition blocking_notifier_call_chain (w : world) (val : Z) (v : pcat_data)
    : Z * world :=
  (notifier_call_chain (pmu_notifier_list (w_pmu w)) NOTIFY_DONE val v,
   mk_world (w_pmu w) (w_requests w) (w_tx w) (w_tx_ret w) (w_kzalloc w)
     (w_rx w) (w_notified w ++ [(val, v)])).

(** ** Encoding: pcat_pmu_raw_write *)

(** The head that [pcat_pmu_raw_write] fills in. *)
Definition raw_write_head (frame_id cmd len : Z) : pcat_data_head :=
  {| head_magic_head := PCAT_MAGIC_HEAD;
     head_source := PCAT_ADDR_CPU;
     head_dest := PCAT_ADDR_PMU;
     head_frame_id := to_u16 frame_id;
     head_length := to_u16 (len + sizeof_foot - 1);
     head_command := to_u16 cmd |}.

(** The foot that [pcat_pmu_raw_write] computes for a head and a body: the
    CRC runs over the head without its first byte, then the body, then the
    need_ack byte of the foot. *)
Definition raw_write_foot (head : pcat_data_head) (body : list Z)
    (need_ack : bool) : pcat_data_foot :=
  let ack := Z.b2z need_ack in
  let c1 := crc16 0xFFFF (bytes_at (head_bytes head) 1 (sizeof_head - 1)) in
  let c2 := crc16 c1 body in
  let c3 := crc16 c2 [ack] in
  {| foot_need_ack := ack; foot_crc16 := c3; foot_magic_end := PCAT_MAGIC_END |}.

Definition pcat_pmu_raw_write (w : world) (frame_id cmd : Z) (need_ack : bool)
    (data : list Z) (len : Z) : Z * world :=
  let head := raw_write_head frame_id cmd len in
  let '(ret, w1) := serdev_device_write_buf w (head_bytes head) in
  if ret <? 0 then (ret, w1) else
  let body := bytes_at data 0 len in
  let '(ret, w2) := serdev_device_write_buf w1 body in
  if ret <? 0 then (ret, w2) else
  let foot := raw_write_foot head body need_ack in
  serdev_device_write_buf w2 (foot_bytes foot).

(** The bytes of one frame on the wire: head, body, foot. *)
Definition frame_bytes (head : pcat_data_head) (body : list Z)
    (need_ack : bool) : list Z :=
  head_bytes head ++ body ++ foot_bytes (raw_write_foot head body need_ack).

Definition pcat_pmu_send (w : world) (cmd : Z) (data : list Z) (len : Z)
    : Z * world :=
  let '(v, w1) := atomic_inc_return_frame w in
  let frame_id := to_u16 v in
  pcat_pmu_raw_write w1 frame_id cmd false data len.

(** ** Decoding: the checks of pcat_process_data *)

(** The outcome of the checks that [pcat_process_data] runs on the bytes
    it is given, one constructor per exit of the C function, in the order
    of the code, and [CheckOk] with the frame when all of them pass. *)
Inductive pcat_check :=
| CheckHeadTooSmall
| CheckBadHeadMagic
| CheckUnknownSource
| CheckNotDest
| CheckInvalidLength
| CheckDataTooSmall
| CheckBadFootMagic
| CheckCrcMismatch
| CheckOk (frame : pcat_data).

Definition pcat_process_data_check (data : list Z) (len : Z) : pcat_check :=
  if len <? sizeof_head then CheckHeadTooSmall else
  let head := head_of_bytes data in
  if negb (head_magic_head head =? PCAT_MAGIC_HEAD) then CheckBadHeadMagic else
  if negb (head_source head =? PCAT_ADDR_PMU) then CheckUnknownSource else
  if negb (head_dest head =? PCAT_ADDR_CPU)
     && negb (head_dest head =? PCAT_ADDR_CPU_ALL)
     && negb (head_dest head =? PCAT_ADDR_ALL) then CheckNotDest else
  if (head_length head <? sizeof_foot - 1)
     || (head_length head >=? U16_MAX - 4) then CheckInvalidLength else
  let data_size := sizeof_head + head_length head + 1 in
  if data_size >? len then CheckDataTooSmall else
  let size := head_length head + 1 - sizeof_foot in
  let foot := foot_of_bytes data (size + sizeof_head) in
  if negb (foot_magic_end foot =? PCAT_MAGIC_END) then CheckBadFootMagic else
  let crc16_calc := crc16 0xFFFF (bytes_at data 1 (head_length head + 6)) in
  if negb (foot_crc16 foot =? crc16_calc) then CheckCrcMismatch else
  CheckOk {| d_head := head; d_foot := foot;
             d_data := bytes_at data sizeof_head size; d_size := size |}.

(** The value [pcat_process_data] returns at each failed check. *)
Definition check_ret (c : pcat_check) : Z :=
  match c with
  | CheckHeadTooSmall | CheckDataTooSmall => - EAGAIN
  | CheckBadHeadMagic | CheckInvalidLength
  | CheckBadFootMagic | CheckCrcMismatch => - EBADMSG
  | CheckUnknownSource | CheckNotDest => 0
  | CheckOk _ => 0
  end.

(** ** Correlation: pcat_process_reply *)

Definition pcat_process_reply (w : world) (p : pcat_data) : bool * world :=
  match pmu_reply (w_pmu w) with
  | None => (false, w)
  | Some rp =>
      if negb (req_frame_id (req_at w rp) =? head_frame_id (d_head p))
      then (false, w) else
      let w1 :=
        if req_want (req_at w rp) =? 0
        then upd_req rp (fun r => set_req_want (to_u16 (req_cmd r + 1)) r) w
        else w in
      if negb (req_want (req_at w1 rp) =? head_command (d_head p))
      then (false, w1) else
      if completion_done (req_at w1 rp) then (false, w1) else
      let w2 := upd_req rp (set_reply_head_foot (d_head p) (d_foot p)) w1 in
      let w3 :=
        if 0 <? d_size p then
          let '(buf, w') := devm_kzalloc w2 (d_size p + 1) in
          let w'' := upd_req rp (set_reply_data buf) w' in
          match reply_data (req_at w'' rp) with
          | Some b =>
              upd_req rp
                (fun r => set_reply_size (d_size p)
                            (set_reply_data (Some (memcpy b 0 (d_data p) (d_size p))) r))
                w''
          | None => w''
          end
        else w2 in
      let w4 := upd_req rp complete w3 in
      (true, set_pmu (set_reply None) w4)
  end.

(** ** Dispatch: pcat_process_data *)

Definition pcat_process_data (w : world) (data : list Z) (len : Z) : Z * world :=
  match pcat_process_data_check data len with
  | CheckOk frame =>
      let '(processed, w1) := pcat_process_reply w frame in
      if processed then (0, w1) else
      let '(ret, w2) :=
        blocking_notifier_call_chain w1 (head_command (d_head frame)) frame in
      if (ret =? NOTIFY_DONE) && negb (foot_need_ack (d_foot frame) =? 0)
      then
        let '(_, w3) :=
          pcat_pmu_raw_write w2 (head_frame_id (d_head frame))
            (head_command (d_head frame) + 1) false [] 0 in
        (0, w3)
      else (0, w2)
  | c => (check_ret c, w)
  end.

(** ** Reassembly: pcat_pmu_receive_buf *)

(** The first half of [pcat_pmu_receive_buf]: the new length is capped at
    the size of the buffer and the bytes that fit are copied behind the
    ones already stored. The result is the number of bytes taken. *)
Definition pcat_pmu_receive_buf_copy (w : world) (buf : list Z) : Z * world :=
  let size := Z.of_nat (length buf) in
  let length0 := pmu_length (w_pmu w) in
  let new_len := to_size_t (length0 + size) in
  let '(new_len, processed) :=
    if new_len >? sizeof_buffer
    then (sizeof_buffer, to_size_t (sizeof_buffer - length0))
    else (new_len, size) in
  (processed,
   set_pmu (fun m => set_length new_len
                       (set_buffer (memcpy (pmu_buffer m) length0 buf processed) m))
     w).

Definition pcat_pmu_receive_buf (w : world) (buf : list Z) : Z * world :=
  let size := Z.of_nat (length buf) in
  if size <=? 0 then (0, w) else
  let '(processed, w1) := pcat_pmu_receive_buf_copy w buf in
  let '(ret, w2) :=
    pcat_process_data w1 (pmu_buffer (w_pmu w1)) (pmu_length (w_pmu w1)) in
  if negb (ret =? - EAGAIN)
  then (processed, set_pmu (set_length 0) w2)
  else (processed, w2).

(** ** Requests: pcat_pmu_execute and its callers *)

(** The receive path cutting into a caller: the transport hands the
    buffers of the next entry of [w_rx] to [pcat_pmu_receive_buf], one
    after the other. *)
Definition rx_deliver (w : world) : world :=
  let w0 := mk_world (w_pmu w) (w_requests w) (w_tx w) (w_tx_ret w)
              (w_kzalloc w) (tl (w_rx w)) (w_notified w) in
  fold_left (fun x buf => snd (pcat_pmu_receive_buf x buf)) (hd [] (w_rx w)) w0.

(** Modelled from the spec: [wait_for_completion_timeout] of
    kernel/sched/completion.c is not among the sources. A completion that
    has fired already is consumed at once, without a sleep. Otherwise the
    caller sleeps for at most one second while the receive path runs; the
    result is 0 when the completion has not fired by then, and otherwise
    positive, the completion being consumed. The receive path does not
    stop when the sleep ends: what it does between a timeout and the
    caller's next step is in [pcat_pmu_execute_loop]. *)
Definition wait_for_completion_timeout (w : world) (p : Z) : Z * world :=
  if completion_done (req_at w p)
  then (1, upd_req p (fun r => set_req_received (req_received r - 1) r) w)
  else
    let w1 := rx_deliver w in
    if completion_done (req_at w1 p)
    then (1, upd_req p (fun r => set_req_received (req_received r - 1) r) w1)
    else (0, w1).

(** The prologue of [pcat_pmu_execute]: the completion and the reply are
    reset, a frame id is drawn if the request has none, the request
    becomes the pending one and the expected reply defaults to cmd + 1. *)
Definition pcat_pmu_execute_begin (w : world) (p : Z) : world :=
  let w1 := upd_req p (fun r => zero_reply (init_completion r)) w in
  let w2 :=
    if req_frame_id (req_at w1 p) =? 0
    then let '(v, w') := atomic_inc_return_frame w1 in
         upd_req p (set_req_frame_id (to_u16 v)) w'
    else w1 in
  let w3 := set_pmu (set_reply (Some p)) w2 in
  if req_want (req_at w3 p) =? 0
  then upd_req p (fun r => set_req_want (to_u16 (req_cmd r + 1)) r) w3
  else w3.

(** The [fail] label of [pcat_pmu_execute]. *)
Definition pcat_pmu_execute_fail (ret : Z) (w : world) : Z * world :=
  (ret, set_pmu (set_reply None) w).

(** The [while (1)] loop of [pcat_pmu_execute]. [fuel] bounds the number
    of passes the model runs; [None] means it ran out.

    Nothing keeps the receive path from running between the return of a
    wait that timed out and the caller's next step, the next write or the
    [fail] label: the reply lock is not held there. The model lets it run
    there once more ([w3]); a reply that lands then completes the request
    although the wait has reported a timeout. What arrives between the
    registration of the request and its first wait is taken to arrive
    during that wait. *)
Fixpoint pcat_pmu_execute_loop (fuel : nat) (retries : Z) (w : world) (p : Z)
    : option (Z * world) :=
  match fuel with
  | O => None
  | S fuel' =>
      let request := req_at w p in
      let '(ret, w1) :=
        pcat_pmu_raw_write w (req_frame_id request) (req_cmd request) true
          (req_data request) (req_size request) in
      if ret <? 0 then Some (pcat_pmu_execute_fail ret w1) else
      let '(remaining, w2) := wait_for_completion_timeout w1 p in
      if remaining =? 0 then
        let w3 := rx_deliver w2 in
        if retries <? 3
        then pcat_pmu_execute_loop fuel' (retries + 1) w3 p
        else Some (pcat_pmu_execute_fail (- ETIMEDOUT) w3)
      else Some (0, w2)
  end.

(** [pcat_pmu_execute(request)], the request living at address [p]. *)
Definition pcat_pmu_execute (fuel : nat) (w : world) (p : Z)
    : option (Z * world) :=
  pcat_pmu_execute_loop fuel 0 (pcat_pmu_execute_begin w p) p.

(** A local [struct pcat_request] with the designated initializers of the
    callers, stored at the stack address [p]. *)
Definition local_request (p : Z) (cmd : Z) (data : list Z) (size : Z)
    (w : world) : world :=
  upd_req p (fun _ => mk_request 0 0 (to_u16 cmd) 0 data size zero_head
                        zero_foot None 0) w.

Definition pcat_pmu_write_data (fuel : nat) (w : world) (p : Z) (cmd : Z)
    (data : list Z) (size : Z) : option (Z * world) :=
  pcat_pmu_execute fuel (local_request p cmd data size w) p.

(** [pcat_pmu_read_string]: the result carries the final contents of the
    buffer [str]. The reply buffer is released with [devm_kfree] before
    the return; the model leaves the request object as the exchange left
    it. *)
Definition pcat_pmu_read_string (fuel : nat) (w : world) (p : Z) (cmd : Z)
    (str : list Z) (len : Z) : option (Z * list Z * world) :=
  let w0 := local_request p cmd [] 0 w in
  let str0 := memset0 str len in
  match pcat_pmu_execute fuel w0 p with
  | None => None
  | Some (ret, w1) =>
      match reply_data (req_at w1 p) with
      | Some d =>
          let n := Z.min (to_size_t (len - 1)) (reply_size (req_at w1 p)) in
          Some (ret, memcpy str0 0 d n, w1)
      | None => Some (ret, str0, w1)
      end
  end.

Definition pcat_pmu_write_u8 (fuel : nat) (w : world) (p : Z) (cmd : Z) (v : Z)
    : option (Z * world) :=
  pcat_pmu_write_data fuel w p cmd [to_u8 v] 1.

(** The state [pcat_pmu_probe] sets up with [devm_kzalloc]: everything
    zero, no subscriber yet. The transport and the allocator never fail
    and nothing is received. *)
Definition probe_pmu : pcat_pmu :=
  mk_pmu 0 (zeros sizeof_buffer) 0 None [].

Definition probe_world : world :=
  mk_world probe_pmu ∅ [] [] [] [] [].

(** ** Vocabulary of the statements *)

(** The destinations the host accepts: its own address and the two
    broadcast addresses that include it. *)
Definition accepted_dest (d : Z) : Prop :=
  d = PCAT_ADDR_CPU \/ d = PCAT_ADDR_CPU_ALL \/ d = PCAT_ADDR_ALL.

(** The head [h] with other addresses, as the other end of the link
    sends it. *)
Definition readdress (src dst : Z) (h : pcat_data_head) : pcat_data_head :=
  mk_head (head_magic_head h) src dst (head_frame_id h) (head_length h)
    (head_command h).

(** The reply command a request waits for: [want], or cmd + 1 while
    [want] is still 0. *)
Definition expected_reply (r : pcat_request) : Z :=
  if req_want r =? 0 then to_u16 (req_cmd r + 1) else req_want r.

(** The checks whose failure makes [pcat_process_data] return -EBADMSG. *)
Definition malformed (c : pcat_check) : Prop :=
  c = CheckBadHeadMagic \/ c = CheckInvalidLength
  \/ c = CheckBadFootMagic \/ c = CheckCrcMismatch.

(** The checks whose failure makes it return -EAGAIN. *)
Definition need_more (c : pcat_check) : Prop :=
  c = CheckHeadTooSmall \/ c = CheckDataTooSmall.

(** The driver's own invariant on the reassembly buffer. *)
Definition buffer_ok (w : world) : Prop :=
  length (pmu_buffer (w_pmu w)) = Z.to_nat sizeof_buffer
  /\ 0 <= pmu_length (w_pmu w) <= sizeof_buffer.

(** The acknowledgment that [pcat_process_data] sends for a frame. *)
Definition ack_head (frame : pcat_data) : pcat_data_head :=
  mk_head PCAT_MAGIC_HEAD PCAT_ADDR_CPU PCAT_ADDR_PMU
    (head_frame_id (d_head frame)) 3
    (to_u16 (head_command (d_head frame) + 1)).

(** The fields of [struct pcat_pmu] other than the pending-request slot. *)
Definition pmu_rest (m : pcat_pmu) : Z * list Z * Z * list notifier_block :=
  (pmu_frame m, pmu_buffer m, pmu_length m, pmu_notifier_list m).

(** The part of a request that the receive path never writes. *)
Definition req_static (r : pcat_request) : Z * Z * list Z * Z :=
  (req_frame_id r, req_cmd r, req_data r, req_size r).

(** A request that is registered and waiting: it is the pending one, its
    completion has not fired and no reply buffer is attached. *)
Definition pending (w : world) (p : Z) : Prop :=
  pmu_reply (w_pmu w) = Some p
  /\ req_received (req_at w p) = 0
  /\ reply_data (req_at w p) = None.

(** The two states of a request between registration and the end of its
    wait: still waiting, or completed and out of the slot. *)
Definition waiting_or_done (w : world) (p : Z) : Prop :=
  pending w p
  \/ (pmu_reply (w_pmu w) = None /\ completion_done (req_at w p) = true).

(** The transport takes [bytes]. *)
Definition tx_append (bytes : list Z) (w : world) : world :=
  mk_world (w_pmu w) (w_requests w) (w_tx w ++ bytes) (w_tx_ret w)
    (w_kzalloc w) (w_rx w) (w_notified w).

(** The frame that [pcat_pmu_execute] writes for a request. *)
Definition request_frame (r : pcat_request) : list Z :=
  frame_bytes (raw_write_head (req_frame_id r) (req_cmd r) (req_size r))
    (bytes_at (req_data r) 0 (req_size r)) true.

(** One pass of the loop of [pcat_pmu_execute] that ends in a timeout:
    the frame goes out, then the receive path handles what arrives
    during the wait and what arrives between the timeout and the caller's
    next step. *)
Definition execute_round (frame : list Z) (w : world) : world :=
  rx_deliver (rx_deliver (tx_append frame w)).

(** ** Example states and frames *)

(** A hardware-version request pending at address 100, with frame id 1. *)
Definition pending_world : world :=
  pcat_pmu_execute_begin (local_request 100 0x03 [] 0 probe_world) 100.

(** The PMU's answer to it, and a status report that asks for an
    acknowledgment. *)
Definition version_reply_head : pcat_data_head :=
  mk_head PCAT_MAGIC_HEAD PCAT_ADDR_PMU PCAT_ADDR_CPU 1 6 0x04.
Definition version_reply : pcat_data :=
  mk_data version_reply_head
    (raw_write_foot version_reply_head [65; 66; 67] false) [65; 66; 67] 3.
Definition status_head : pcat_data_head :=
  mk_head PCAT_MAGIC_HEAD PCAT_ADDR_PMU PCAT_ADDR_CPU 0x0102 3
    PCAT_CMD_STATUS_REPORT.
Definition status_frame : pcat_data :=
  mk_data status_head (raw_write_foot status_head [] true) [] 0.
Definition status_bytes : list Z := frame_bytes status_head [] true.

(** The reply above with a wrong CRC. *)
Definition bad_crc_bytes : list Z :=
  head_bytes version_reply_head ++ [65; 66; 67] ++ [0; 0; 0; PCAT_MAGIC_END].

(** A buffer that holds the head of a frame announcing 32767 bytes and is
    two bytes short of full. *)
Definition stuck_head : list Z := [0xA5; 0x81; 0x01; 0; 0; 0xFF; 0x7F; 0x07; 0].
Definition nearly_full_world : world :=
  mk_world (mk_pmu 0 (stuck_head ++ zeros 8183) 8190 None []) ∅ [] [] [] [] [].

(** A link on which a status report arrives while a caller waits, but
    never the reply it waits for. *)
Definition noisy_world : world :=
  mk_world probe_pmu ∅ [] [] [] [[status_bytes]] [].

(** A link on which the reply to the request arrives during the second
    wait. *)
Definition version_world : world :=
  mk_world probe_pmu ∅ [] [] [] [[]; []; [frame_bytes version_reply_head [65; 66; 67] false]] [].

(** A link on which the reply to the request arrives when the fourth and
    last wait has timed out, before the caller reaches the [fail] label. *)
Definition late_world : world :=
  mk_world probe_pmu ∅ [] [] []
    [[]; []; []; []; []; []; [];
     [frame_bytes version_reply_head [65; 66; 67] false]] [].

(** A state with one subscriber that claims every frame (NOTIFY_OK). *)
Definition claiming_world : world :=
  mk_world (mk_pmu 0 (zeros sizeof_buffer) 0 None [fun _ _ => 1]) ∅ [] [] [] [] [].

(** A head as the PMU sends it to the host, in the ranges of its fields
    and with the length field that goes with a body of [n] bytes. *)
Definition pmu_head_for (h : pcat_data_head) (n : Z) : Prop :=
  head_magic_head h = PCAT_MAGIC_HEAD
  /\ head_source h = PCAT_ADDR_PMU
  /\ accepted_dest (head_dest h)
  /\ 0 <= head_frame_id h < 65536
  /\ 0 <= head_command h < 65536
  /\ head_length h = n + 3
  /\ 0 <= n < U16_MAX - 7.

(** The world with its reassembly buffer replaced. *)
Definition with_buffer (b : list Z) (l : Z) (w : world) : world :=
  set_pmu (fun m => set_length l (set_buffer b m)) w.

(** Two worlds that differ at most in the reassembly buffer. *)
Definition same_but_buffer (w1 w2 : world) : Prop :=
  with_buffer [] 0 w1 = with_buffer [] 0 w2.

(** The bytes that the reassembly buffer holds. *)
Definition stored (w : world) : list Z :=
  take (Z.to_nat (pmu_length (w_pmu w))) (pmu_buffer (w_pmu w)).

(** A full buffer that starts with the head of a frame announcing 32767
    bytes. *)
Definition wedged_world : world :=
  mk_world (mk_pmu 0 (stuck_head ++ zeros 8183) 8192 None []) ∅ [] [] [] [] [].

(** The reply part that [pcat_process_reply] leaves in a request it
    completes with [frame]: the payload goes into a fresh buffer of one
    byte more than the payload when there is a payload and the allocation
    gives memory. *)
Definition stored_reply (alloc_fails : bool) (frame : pcat_data)
    (r : pcat_request) : option (list Z) * Z :=
  if 0 <? d_size frame then
    if alloc_fails then (None, reply_size r)
    else (Some (memcpy (zeros (d_size frame + 1)) 0 (d_data frame) (d_size frame)),
          d_size frame)
  else (reply_data r, reply_size r).

(** A request between its registration by [pcat_pmu_execute] and the end
    of the wait: it has the frame id [f] and either is pending and expects
    the reply command [c], or has been completed, once, with a frame of
    that id and command, and is out of the slot. *)
Definition in_exchange (p f c : Z) (slot : option Z) (r : pcat_request) : Prop :=
  req_frame_id r = f
  /\ ((slot = Some p /\ req_received r = 0 /\ expected_reply r = c)
      \/ (slot = None /\ req_received r = 1 /\ req_want r = c
          /\ head_frame_id (reply_head r) = f
          /\ head_command (reply_head r) = c)).

(** The frame id a request has once [pcat_pmu_execute] has registered it:
    its own, or the next value of the counter when it has none. *)
Definition execute_frame_id (w : world) (p : Z) : Z :=
  if req_frame_id (req_at w p) =? 0
  then to_u16 (to_int (pmu_frame (w_pmu w) + 1))
  else req_frame_id (req_at w p).

(** A link on which the reply to the request arrives during the first
    wait. *)
Definition prompt_world : world :=
  mk_world probe_pmu ∅ [] [] [] [[frame_bytes version_reply_head [65; 66; 67] false]] [].

(** * The callers of the engine *)

(** ** drivers/watchdog/photonicat-wdt.c *)







(** ** The status report and its subscribers *)

Definition PCAT_CMD_DATE_TIME_SYNC : Z := 0x09.
Definition PCAT_CMD_PMU_REQUEST_SHUTDOWN : Z := 0x0D.
Definition EOPNOTSUPP : Z := 95.

(** [struct pcat_data_cmd_date_time], packed: seven bytes. *)
Record pcat_data_cmd_date_time := mk_date_time {
  dt_year : Z;     (* u16 *)
  dt_month : Z;    (* u8 *)
  dt_day : Z;      (* u8 *)
  dt_hour : Z;     (* u8 *)
  dt_minute : Z;   (* u8 *)
  dt_second : Z;   (* u8 *)
}.

Definition date_time_bytes (t : pcat_data_cmd_date_time) : list Z :=
  u16_bytes (dt_year t)
  ++ [to_u8 (dt_month t); to_u8 (dt_day t); to_u8 (dt_hour t);
      to_u8 (dt_minute t); to_u8 (dt_second t)].

(** The date and time read through a pointer to the structure at
    [data + off]. *)
Definition date_time_at (data : list Z) (off : Z) : pcat_data_cmd_date_time :=
  {| dt_year := u16_at data off;
     dt_month := to_u8 (byte_at data (off + 2));
     dt_day := to_u8 (byte_at data (off + 3));
     dt_hour := to_u8 (byte_at data (off + 4));
     dt_minute := to_u8 (byte_at data (off + 5));
     dt_second := to_u8 (byte_at data (off + 6)) |}.

(** The fields of [struct pcat_data_cmd_status], packed in 18 bytes, read
    through [frame->data]: the two voltages at 0 and 2, the time at 8, the
    temperature at 17. None of the subscribers looks at [frame->size]; past
    the end of a shorter payload the C code reads what follows it in the
    reassembly buffer, which [frame->data] points into. The model has the
    payload alone and reads 0 there: it gives the values that the C code
    reads only for a payload of at least 18 bytes, and the statements
    about these values are about such payloads. *)
Definition status_battery_microvolt (data : list Z) : Z := u16_at data 0.
Definition status_charger_microvolt (data : list Z) : Z := u16_at data 2.
Definition status_time (data : list Z) : pcat_data_cmd_date_time :=
  date_time_at data 8.
Definition status_temp (data : list Z) : Z := to_u8 (byte_at data 17).

(** *** drivers/rtc/rtc-photonicat.c *)

(** The fields of [struct rtc_time], all [int]. *)
Record rtc_time := mk_rtc_time {
  tm_sec : Z; tm_min : Z; tm_hour : Z; tm_mday : Z; tm_mon : Z;
  tm_year : Z; tm_wday : Z; tm_yday : Z; tm_isdst : Z;
}.

Definition zero_rtc_time : rtc_time := mk_rtc_time 0 0 0 0 0 0 0 0 0.

(** [pcat_time_to_rtc_time]. [rtc_year_days] of drivers/rtc/lib.c is not
    among the sources and stays a parameter, given day, month and year.
    The arithmetic is that of [int], division and remainder truncating. *)
Definition pcat_time_to_rtc_time (rtc_year_days : Z -> Z -> Z -> Z)
    (time : pcat_data_cmd_date_time) (tm : rtc_time) : bool * rtc_time :=
  if (dt_second time >=? 60) || (dt_minute time >=? 60)
     || (dt_hour time >=? 24)
     || (dt_day time <=? 0) || (dt_day time >? 31)
     || (dt_month time <=? 0) || (dt_month time >? 12)
     || (dt_year time <? 1900) || (dt_year time >? 9999)
  then (false, tm)
  else
    let mday := dt_day time in
    let mon := dt_month time - 1 in
    let yday := to_int (rtc_year_days mday mon (dt_year time)) in
    let wday :=
      Z.rem (to_int (dt_year time * (Z.rem 365 7)
                     + Z.quot (dt_year time - 1) 4
                     - Z.quot (dt_year time - 1) 100
                     + Z.quot (dt_year time - 1) 400
                     + yday)) 7 in
    (true,
     mk_rtc_time (dt_second time) (dt_minute time) (dt_hour time) mday mon
       (dt_year time - 1900) wday yday (tm_isdst tm)).

(** [pcat_time_from_rtc_time]: the [int] fields are stored into the
    narrower fields of the wire structure. *)
Definition pcat_time_from_rtc_time (tm : rtc_time) : pcat_data_cmd_date_time :=
  {| dt_year := to_u16 (tm_year tm + 1900);
     dt_month := to_u8 (tm_mon tm + 1);
     dt_day := to_u8 (tm_mday tm);
     dt_hour := to_u8 (tm_hour tm);
     dt_minute := to_u8 (tm_min tm);
     dt_second := to_u8 (tm_sec tm) |}.

(** [struct pcat_rtc]: the last time seen and the completion. *)
Record pcat_rtc := mk_rtc {
  rtc_time_seen : pcat_data_cmd_date_time;
  rtc_initial_report : Z;
}.


Definition pcat_rtc_notify (rtc : pcat_rtc) (action : Z) (frame : pcat_data)
    : Z * pcat_rtc :=
  if negb (action =? PCAT_CMD_STATUS_REPORT) then (NOTIFY_DONE, rtc) else
  (NOTIFY_DONE,
   mk_rtc (status_time (d_data frame)) (rtc_initial_report rtc + 1)).

(** The clock after [pcat_rtc_notify] has been called with each of
    [calls], oldest first. *)
Definition pcat_rtc_notified (rtc : pcat_rtc) (calls : list (Z * pcat_data))
    : pcat_rtc :=
  fold_left (fun r c => snd (pcat_rtc_notify r (fst c) (snd c))) calls rtc.

(** [pcat_rtc_set_time], the request living at the stack address [p]; the
    result carries the clock as the call leaves it.

    [rtc->time] is shared with [pcat_rtc_notify], which the receive path
    runs while the exchange is under way: the block of the clock is on
    the chain from probe on, before the clock can be set. Every frame
    that the exchange adds to [w_notified] has therefore been through
    [pcat_rtc_notify] when [pcat_pmu_write_data] returns; this takes the
    blocks ahead of the clock's not to stop the walk, which none of the
    repository's does. The store of the time that was sent comes last,
    and only after a success. *)
Definition pcat_rtc_set_time (fuel : nat) (w : world) (p : Z) (rtc : pcat_rtc)
    (tm : rtc_time) : option (Z * pcat_rtc * world) :=
  let time := pcat_time_from_rtc_time tm in
  match pcat_pmu_write_data fuel w p PCAT_CMD_DATE_TIME_SYNC
          (date_time_bytes time) 7 with
  | None => None
  | Some (ret, w') =>
      let calls := drop (length (w_notified w)) (w_notified w') in
      let rtc1 := pcat_rtc_notified rtc calls in
      if negb (ret =? 0) then Some (ret, rtc1, w')
      else Some (0, mk_rtc time (rtc_initial_report rtc1), w')
  end.

(** *** drivers/hwmon/photonicat-hwmon.c *)

(** Values of include/linux/hwmon.h. *)
Definition hwmon_temp : Z := 1.
Definition hwmon_temp_input : Z := 1.

(** [struct pcat_hwmon]: the temperature, an [int], and the completion. *)
Record pcat_hwmon := mk_hwmon {
  hwmon_temperature : Z;
  hwmon_initial_report : Z;
}.

(** [pcat_hwmon_read]: the result and [*val]. *)
Definition pcat_hwmon_read (hwmon : pcat_hwmon) (type attr : Z) (val : Z)
    : Z * Z :=
  if type =? hwmon_temp then
    if attr =? hwmon_temp_input
    then (0, to_int (hwmon_temperature hwmon * 1000))
    else (- EOPNOTSUPP, val)
  else (- EOPNOTSUPP, val).

Definition pcat_hwmon_notify (hwmon : pcat_hwmon) (action : Z)
    (frame : pcat_data) : Z * pcat_hwmon :=
  if negb (action =? PCAT_CMD_STATUS_REPORT) then (NOTIFY_DONE, hwmon) else
  (NOTIFY_DONE,
   mk_hwmon (status_temp (d_data frame) - 40) (hwmon_initial_report hwmon + 1)).

(** *** drivers/power/supply/photonicat-supply.c *)

(** [struct pcat_supply]: the two voltages, [u16], and the completion. *)
Record pcat_supply := mk_supply {
  bat_microvolt : Z;
  chg_microvolt : Z;
  supply_initial_report : Z;
}.

Definition pcat_supply_notify (supply : pcat_supply) (action : Z)
    (frame : pcat_data) : Z * pcat_supply :=
  if negb (action =? PCAT_CMD_STATUS_REPORT) then (NOTIFY_DONE, supply) else
  (NOTIFY_DONE,
   mk_supply (status_battery_microvolt (d_data frame))
     (status_charger_microvolt (d_data frame))
     (supply_initial_report supply + 1)).

(** *** drivers/power/reset/photonicat-poweroff.c *)

(** [pcat_poweroff_notify]: the state is whether [orderly_poweroff] has
    been called; the reason only goes into the log. *)
Definition pcat_poweroff_notify (powering_off : bool) (action : Z)
    (frame : pcat_data) : Z * bool :=
  if negb (action =? PCAT_CMD_PMU_REQUEST_SHUTDOWN)
  then (NOTIFY_DONE, powering_off)
  else (NOTIFY_DONE, true).

(** The [notifier_call] that the engine sees of a subscriber in a given
    state. *)
Inductive repo_subscriber : notifier_block -> Prop :=
| sub_rtc (rtc : pcat_rtc) :
    repo_subscriber (fun action frame => fst (pcat_rtc_notify rtc action frame))
| sub_hwmon (hwmon : pcat_hwmon) :
    repo_subscriber (fun action frame => fst (pcat_hwmon_notify hwmon action frame))
| sub_supply (supply : pcat_supply) :
    repo_subscriber (fun action frame => fst (pcat_supply_notify supply action frame))
| sub_poweroff (st : bool) :
    repo_subscriber (fun action frame => fst (pcat_poweroff_notify st action frame)).

(** A time within the ranges of a calendar date, as [rtc_valid_tm] has
    them for the fields the driver converts. *)
Definition tm_in_range (tm : rtc_time) : Prop :=
  0 <= tm_sec tm < 60 /\ 0 <= tm_min tm < 60 /\ 0 <= tm_hour tm < 24
  /\ 1 <= tm_mday tm <= 31 /\ 0 <= tm_mon tm < 12
  /\ 0 <= tm_year tm <= 8099.

(** The six fields of [struct rtc_time] that both conversions handle. *)
Definition tm_fields (tm : rtc_time) : list Z :=
  [tm_sec tm; tm_min tm; tm_hour tm; tm_mday tm; tm_mon tm; tm_year tm].

(** A wire time whose fields fit their types. *)
Definition date_time_wf (t : pcat_data_cmd_date_time) : Prop :=
  0 <= dt_year t < 65536 /\ 0 <= dt_month t < 256 /\ 0 <= dt_day t < 256
  /\ 0 <= dt_hour t < 256 /\ 0 <= dt_minute t < 256 /\ 0 <= dt_second t < 256.

(** The state after probe with the four subscribers registered, each in
    its initial state. *)
Definition subscribed_world : world :=
  mk_world
    (mk_pmu 0 (zeros sizeof_buffer) 0 None
       [(fun action frame =>
           fst (pcat_rtc_notify (mk_rtc (mk_date_time 0 0 0 0 0 0) 0) action frame));
        (fun action frame =>
           fst (pcat_hwmon_notify (mk_hwmon 0 0) action frame));
        (fun action frame =>
           fst (pcat_supply_notify (mk_supply 0 0 0) action frame));
        (fun action frame =>
           fst (pcat_poweroff_notify false action frame))])
    ∅ [] [] [] [] [].

(** A status report carrying the time 2024-02-29 23:59:58, and a link on
    which it arrives while a caller waits, but never a reply. *)
Definition clock_report_head : pcat_data_head :=
  mk_head PCAT_MAGIC_HEAD PCAT_ADDR_PMU PCAT_ADDR_CPU 0x0102 21
    PCAT_CMD_STATUS_REPORT.
Definition clock_report_body : list Z :=
  [0; 0; 0; 0; 0; 0; 0; 0; 0xE8; 0x07; 2; 29; 23; 59; 58; 0; 0; 65].
Definition reporting_world : world :=
  mk_world probe_pmu ∅ [] [] []
    [[frame_bytes clock_report_head clock_report_body true]] [].

(** The 256 values of a byte. *)
Definition all_bytes : list Z := seqZ 0 256.

(** * Proofs *)

(** ** Bytes and integers *)

Lemma to_u8_range v : 0 <= to_u8 v < 256.
Proof. unfold to_u8. apply Z.mod_pos_bound. lia. Qed.

Lemma to_u16_range v : 0 <= to_u16 v < 65536.
Proof. unfold to_u16. apply Z.mod_pos_bound. lia. Qed.

Lemma to_u8_small v : 0 <= v < 256 -> to_u8 v = v.
Proof. intros. unfold to_u8. apply Z.mod_small. lia. Qed.

Lemma to_u16_small v : 0 <= v < 65536 -> to_u16 v = v.
Proof. intros. unfold to_u16. apply Z.mod_small. lia. Qed.

Lemma u16_join v :
  to_u8 (to_u8 v) + 256 * to_u8 (to_u8 (v / 256)) = to_u16 v.
Proof.
  unfold to_u8, to_u16. rewrite !Z.mod_mod by lia.
  Z.to_euclidean_division_equations. lia.
Qed.

Lemma byte_at_app_l l1 l2 i :
  0 <= i < Z.of_nat (length l1) -> byte_at (l1 ++ l2) i = byte_at l1 i.
Proof. intros. unfold byte_at. apply app_nth1. lia. Qed.

Lemma byte_at_app_r l1 l2 i :
  Z.of_nat (length l1) <= i ->
  byte_at (l1 ++ l2) i = byte_at l2 (i - Z.of_nat (length l1)).
Proof.
  intros. unfold byte_at. rewrite app_nth2 by lia. f_equal. lia.
Qed.

Lemma head_bytes_length h : length (head_bytes h) = 9%nat.
Proof. reflexivity. Qed.

Lemma foot_bytes_length f : length (foot_bytes f) = 4%nat.
Proof. reflexivity. Qed.

Ltac is_nat_lit v :=
  lazymatch v with
  | O => idtac
  | S ?n => is_nat_lit n
  end.

Ltac norm_to_nat :=
  repeat match goal with
         | |- context [Z.to_nat ?e] =>
             let v := eval vm_compute in (Z.to_nat e) in
             is_nat_lit v; change (Z.to_nat e) with v
         end.

Lemma byte_at_app_r' l1 l2 k :
  0 <= k -> byte_at (l1 ++ l2) (Z.of_nat (length l1) + k) = byte_at l2 k.
Proof. intros. rewrite byte_at_app_r by lia. f_equal. lia. Qed.

Lemma head_of_head_bytes h l :
  head_of_bytes (head_bytes h ++ l) =
  mk_head (to_u8 (head_magic_head h)) (to_u8 (head_source h))
    (to_u8 (head_dest h)) (to_u16 (head_frame_id h))
    (to_u16 (head_length h)) (to_u16 (head_command h)).
Proof.
  unfold head_of_bytes, u16_at, byte_at, head_bytes, u16_bytes.
  norm_to_nat. cbn [app nth].
  rewrite !u16_join. f_equal; unfold to_u8; apply Z.mod_mod; lia.
Qed.

Lemma crc16_app c a b : crc16 c (a ++ b) = crc16 (crc16 c a) b.
Proof. unfold crc16. apply fold_left_app. Qed.

(** The table and the fold on the usual test vector, the ASCII digits
    1 to 9: 0xBB3D from seed 0 and 0x4B37 from seed 0xFFFF. *)
Example crc16_table_1 : crc16_table 1 = 0xC0C1.
Proof. reflexivity. Qed.

Example crc16_digits_seed_0 :
  crc16 0 [49; 50; 51; 52; 53; 54; 55; 56; 57] = 0xBB3D.
Proof. vm_compute. reflexivity. Qed.

Example crc16_digits_seed_ffff :
  crc16 0xFFFF [49; 50; 51; 52; 53; 54; 55; 56; 57] = 0x4B37.
Proof. vm_compute. reflexivity. Qed.

Lemma crc16_byte_range c d : 0 <= crc16_byte c d < 65536.
Proof. unfold crc16_byte. apply to_u16_range. Qed.

Lemma crc16_range c l : 0 <= c < 65536 -> 0 <= crc16 c l < 65536.
Proof.
  unfold crc16. revert c. induction l as [|x l IH]; intros c Hc; simpl.
  - exact Hc.
  - apply IH, crc16_byte_range.
Qed.

Lemma bytes_at_app_exact l1 l2 l3 :
  bytes_at (l1 ++ l2 ++ l3) (Z.of_nat (length l1)) (Z.of_nat (length l2)) = l2.
Proof.
  unfold bytes_at. rewrite !Nat2Z.id.
  rewrite drop_app_length. apply take_app_length.
Qed.


Lemma foot_of_foot_bytes l1 f l2 off :
  off = Z.of_nat (length l1) ->
  foot_of_bytes (l1 ++ foot_bytes f ++ l2) off =
  mk_foot (to_u8 (foot_need_ack f)) (to_u16 (foot_crc16 f))
    (to_u8 (foot_magic_end f)).
Proof.
  intros ->. unfold foot_of_bytes, u16_at.
  replace (Z.of_nat (length l1) + 1 + 1) with (Z.of_nat (length l1) + 2) by lia.
  rewrite <- (Z.add_0_r (Z.of_nat (length l1))) at 1.
  rewrite !byte_at_app_r' by lia.
  unfold byte_at, foot_bytes, u16_bytes. norm_to_nat. cbn [app nth].
  rewrite u16_join. f_equal; unfold to_u8; apply Z.mod_mod; lia.
Qed.

Lemma raw_write_foot_norm head body need_ack :
  let f := raw_write_foot head body need_ack in
  mk_foot (to_u8 (foot_need_ack f)) (to_u16 (foot_crc16 f))
    (to_u8 (foot_magic_end f)) = f.
Proof.
  unfold raw_write_foot. cbn [foot_need_ack foot_crc16 foot_magic_end].
  f_equal.
  - destruct need_ack; reflexivity.
  - apply to_u16_small. rewrite <- !crc16_app. apply crc16_range. lia.
Qed.

(** The CRC that the receive path computes over a frame is the one the
    encoder stored in its foot. *)
Lemma frame_bytes_crc head body need_ack rest :
  crc16 0xFFFF (bytes_at (frame_bytes head body need_ack ++ rest) 1
                  (Z.of_nat (length body) + 9))
  = foot_crc16 (raw_write_foot head body need_ack).
Proof.
  unfold raw_write_foot. cbn [foot_crc16]. rewrite <- !crc16_app. f_equal.
  unfold frame_bytes, foot_bytes, raw_write_foot. cbn [foot_need_ack].
  unfold bytes_at, head_bytes, u16_bytes, sizeof_head. norm_to_nat.
  cbn [app drop take].
  replace (Z.to_nat (Z.of_nat (length body) + 9))
    with (8 + (length body + 1))%nat by lia.
  cbn [take Nat.add]. do 8 f_equal.
  rewrite <- !app_assoc. cbn [app].
  rewrite take_app_add'; [|reflexivity]. f_equal.
  destruct need_ack; reflexivity.
Qed.

Ltac zbool :=
  rewrite ?Z.geb_leb, ?Z.gtb_ltb;
  repeat match goal with
         | |- context [?a <? ?b] =>
             first [ replace (a <? b) with true by (symmetry; apply Z.ltb_lt; lia)
                   | replace (a <? b) with false by (symmetry; apply Z.ltb_ge; lia) ]
         | |- context [?a <=? ?b] =>
             first [ replace (a <=? b) with true by (symmetry; apply Z.leb_le; lia)
                   | replace (a <=? b) with false by (symmetry; apply Z.leb_gt; lia) ]
         | |- context [?a =? ?b] =>
             first [ replace (a =? b) with true by (symmetry; apply Z.eqb_eq; lia)
                   | replace (a =? b) with false by (symmetry; apply Z.eqb_neq; lia) ]
         end.

Lemma check_frame_bytes head body need_ack rest len :
  head_magic_head head = PCAT_MAGIC_HEAD ->
  head_source head = PCAT_ADDR_PMU ->
  accepted_dest (head_dest head) ->
  0 <= head_frame_id head < 65536 ->
  0 <= head_command head < 65536 ->
  head_length head = Z.of_nat (length body) + 3 ->
  Z.of_nat (length body) < U16_MAX - 7 ->
  Z.of_nat (length body) + 13 <= len ->
  pcat_process_data_check (frame_bytes head body need_ack ++ rest) len =
  CheckOk (mk_data head (raw_write_foot head body need_ack) body
             (Z.of_nat (length body))).
Proof.
  intros Hm Hs Hd Hid Hcmd Hlen Hsmall Hfit.
  assert (Hnorm : head_of_bytes (frame_bytes head body need_ack ++ rest) = head).
  { unfold frame_bytes. rewrite <- app_assoc. rewrite head_of_head_bytes.
    destruct head as [m s d i l c]; cbn in *; subst m s l.
    rewrite (to_u16_small i), (to_u16_small c) by lia.
    rewrite (to_u16_small (_ + 3)) by (unfold U16_MAX in *; lia).
    f_equal. destruct Hd as [-> | [-> | ->]]; reflexivity. }
  unfold pcat_process_data_check. rewrite Hnorm.
  unfold sizeof_head, sizeof_foot, U16_MAX in *.
  rewrite Hm, Hs, Hlen.
  assert (Hdest : negb (head_dest head =? PCAT_ADDR_CPU)
           && negb (head_dest head =? PCAT_ADDR_CPU_ALL)
           && negb (head_dest head =? PCAT_ADDR_ALL) = false)
    by (destruct Hd as [-> | [-> | ->]]; reflexivity).
  rewrite Hdest. unfold PCAT_MAGIC_HEAD, PCAT_ADDR_PMU. zbool. cbn [negb orb].
  assert (Hfoot : foot_of_bytes (frame_bytes head body need_ack ++ rest)
                    (Z.of_nat (length body) + 3 + 1 - 4 + 9)
                  = raw_write_foot head body need_ack).
  { unfold frame_bytes.
    replace ((head_bytes head ++ body ++ foot_bytes (raw_write_foot head body need_ack)) ++ rest)
      with ((head_bytes head ++ body) ++ foot_bytes (raw_write_foot head body need_ack) ++ rest)
      by (rewrite <- !app_assoc; reflexivity).
    rewrite foot_of_foot_bytes.
    - apply raw_write_foot_norm.
    - rewrite length_app, head_bytes_length. lia. }
  rewrite Hfoot.
  assert (Hcrc : crc16 65535 (bytes_at (frame_bytes head body need_ack ++ rest) 1
                                (Z.of_nat (length body) + 3 + 6))
                 = foot_crc16 (raw_write_foot head body need_ack)).
  { replace (Z.of_nat (length body) + 3 + 6) with (Z.of_nat (length body) + 9) by lia.
    apply frame_bytes_crc. }
  rewrite Hcrc.
  replace (foot_magic_end (raw_write_foot head body need_ack) =? PCAT_MAGIC_END)
    with true by reflexivity.
  rewrite Z.eqb_refl. cbn [negb].
  do 2 f_equal.
  - unfold frame_bytes.
    replace (Z.of_nat (length body) + 3 + 1 - 4) with (Z.of_nat (length body)) by lia.
    rewrite <- !app_assoc.
    change 9 with (Z.of_nat (length (head_bytes head))).
    apply bytes_at_app_exact.
  - lia.
Qed.

(** ** The transport *)

Lemma tx_append_append a b w :
  tx_append b (tx_append a w) = tx_append (a ++ b) w.
Proof. unfold tx_append; cbn. by rewrite app_assoc. Qed.

Lemma serdev_write_ok w buf :
  w_tx_ret w = [] ->
  serdev_device_write_buf w buf = (Z.of_nat (length buf), tx_append buf w).
Proof.
  intros H. unfold serdev_device_write_buf, tx_append. by rewrite H.
Qed.

Lemma bytes_at_all data : bytes_at data 0 (Z.of_nat (length data)) = data.
Proof.
  unfold bytes_at. rewrite Nat2Z.id. change (Z.to_nat 0) with 0%nat.
  rewrite drop_0. apply firstn_all.
Qed.

Lemma raw_write_ok w frame_id cmd need_ack data len :
  w_tx_ret w = [] ->
  pcat_pmu_raw_write w frame_id cmd need_ack data len =
  (4, tx_append (frame_bytes (raw_write_head frame_id cmd len)
                   (bytes_at data 0 len) need_ack) w).
Proof.
  intros H. unfold pcat_pmu_raw_write.
  rewrite serdev_write_ok by done.
  replace (Z.of_nat (length (head_bytes (raw_write_head frame_id cmd len))) <? 0)
    with false by (symmetry; apply Z.ltb_ge; lia).
  rewrite serdev_write_ok by done.
  replace (Z.of_nat (length (bytes_at data 0 len)) <? 0)
    with false by (symmetry; apply Z.ltb_ge; lia).
  rewrite serdev_write_ok by done.
  rewrite !tx_append_append. reflexivity.
Qed.

(** ** Request memory *)

Lemma req_at_upd_req p f w : req_at (upd_req p f w) p = f (req_at w p).
Proof. unfold req_at at 1, upd_req; cbn. by rewrite lookup_insert_eq. Qed.

Lemma req_at_upd_req_ne p q f w :
  p <> q -> req_at (upd_req p f w) q = req_at w q.
Proof.
  intros Hne. unfold req_at, upd_req; cbn. by rewrite lookup_insert_ne.
Qed.

Lemma req_at_set_pmu f w p : req_at (set_pmu f w) p = req_at w p.
Proof. reflexivity. Qed.

(** ** What a write leaves alone *)

Lemma serdev_write_frame w buf :
  let w' := snd (serdev_device_write_buf w buf) in
  w_pmu w' = w_pmu w /\ w_requests w' = w_requests w
  /\ w_kzalloc w' = w_kzalloc w /\ w_rx w' = w_rx w
  /\ w_notified w' = w_notified w.
Proof.
  unfold serdev_device_write_buf.
  destruct (w_tx_ret w) as [|r rest]; cbn; [done|].
  destruct (r <? 0); cbn; done.
Qed.

Lemma raw_write_frame w frame_id cmd need_ack data len :
  let w' := snd (pcat_pmu_raw_write w frame_id cmd need_ack data len) in
  w_pmu w' = w_pmu w /\ w_requests w' = w_requests w
  /\ w_kzalloc w' = w_kzalloc w /\ w_rx w' = w_rx w
  /\ w_notified w' = w_notified w.
Proof.
  unfold pcat_pmu_raw_write.
  set (h := head_bytes _).
  pose proof (serdev_write_frame w h) as H1.
  destruct (serdev_device_write_buf w h) as [r1 w1]; cbn [snd] in H1.
  destruct (r1 <? 0); [exact H1|].
  set (b := bytes_at _ _ _).
  pose proof (serdev_write_frame w1 b) as H2.
  destruct (serdev_device_write_buf w1 b) as [r2 w2]; cbn [snd] in H2.
  destruct (r2 <? 0); [cbn [snd]; intuition congruence|].
  set (f := foot_bytes _).
  pose proof (serdev_write_frame w2 f) as H3.
  destruct (serdev_device_write_buf w2 f) as [r3 w3]; cbn [snd] in *.
  intuition congruence.
Qed.

Lemma raw_write_req_at w frame_id cmd need_ack data len p :
  req_at (snd (pcat_pmu_raw_write w frame_id cmd need_ack data len)) p
  = req_at w p.
Proof.
  unfold req_at.
  by destruct (raw_write_frame w frame_id cmd need_ack data len) as (_ & -> & _).
Qed.

(** ** pcat_process_reply *)

(** The three outcomes of [pcat_process_reply] when a request is pending. *)
Lemma process_reply_cases w frame rp :
  pmu_reply (w_pmu w) = Some rp ->
  let request := req_at w rp in
  let w1 := if req_want request =? 0
            then upd_req rp (fun r => set_req_want (to_u16 (req_cmd r + 1)) r) w
            else w in
  (req_frame_id request <> head_frame_id (d_head frame)
   /\ pcat_process_reply w frame = (false, w))
  \/ (req_frame_id request = head_frame_id (d_head frame)
      /\ (expected_reply request <> head_command (d_head frame)
          \/ completion_done request = true)
      /\ pcat_process_reply w frame = (false, w1))
  \/ (req_frame_id request = head_frame_id (d_head frame)
      /\ expected_reply request = head_command (d_head frame)
      /\ completion_done request = false
      /\ exists w', pcat_process_reply w frame = (true, w')
           /\ pmu_reply (w_pmu w') = None
           /\ req_received (req_at w' rp) = req_received request + 1
           /\ reply_head (req_at w' rp) = d_head frame
           /\ reply_foot (req_at w' rp) = d_foot frame
           /\ w_tx w' = w_tx w /\ w_tx_ret w' = w_tx_ret w
           /\ w_notified w' = w_notified w).
Proof.
  intros Hrp request w1.
  assert (Hw1 : req_want (req_at w1 rp) = expected_reply request
                /\ req_received (req_at w1 rp) = req_received request
                /\ pmu_reply (w_pmu w1) = Some rp).
  { unfold w1, expected_reply. fold request.
    destruct (req_want request =? 0) eqn:E.
    - rewrite req_at_upd_req. cbn. fold request. done.
    - done. }
  destruct Hw1 as (Hwant & Hdone & Hrp1).
  unfold pcat_process_reply. rewrite Hrp. fold request.
  destruct (req_frame_id request =? head_frame_id (d_head frame)) eqn:Eid;
    cbn [negb].
  2:{ left. apply Z.eqb_neq in Eid. done. }
  apply Z.eqb_eq in Eid. right. fold w1.
  rewrite Hwant.
  destruct (expected_reply request =? head_command (d_head frame)) eqn:Ecmd;
    cbn [negb].
  2:{ left. apply Z.eqb_neq in Ecmd. auto. }
  apply Z.eqb_eq in Ecmd.
  assert (Hcd : completion_done (req_at w1 rp) = completion_done request)
    by (unfold completion_done; by rewrite Hdone).
  rewrite Hcd.
  destruct (completion_done request) eqn:Edone.
  { left. auto. }
  right. repeat (split; [done|]).
  eexists. split; [reflexivity|].
  cbn [w_pmu set_pmu pmu_reply set_reply].
  split; [reflexivity|].
  rewrite req_at_set_pmu, !req_at_upd_req.
  destruct (0 <? d_size frame).
  - destruct (devm_kzalloc _ _) as [buf wk] eqn:Ek.
    assert (Hk : w_requests wk = <[rp := set_reply_head_foot (d_head frame) (d_foot frame) (req_at w1 rp)]> (w_requests w1)
                 /\ w_tx wk = w_tx w1 /\ w_tx_ret wk = w_tx_ret w1
                 /\ w_notified wk = w_notified w1).
    { unfold devm_kzalloc in Ek. cbn in Ek.
      destruct (w_kzalloc w1) as [|[] ?]; inversion Ek; subst; cbn; done. }
    destruct Hk as (Hreq & Htx & Hret & Hnot).
    assert (Hat : req_at wk rp = set_reply_head_foot (d_head frame) (d_foot frame) (req_at w1 rp)).
    { unfold req_at at 1. rewrite Hreq, lookup_insert_eq. reflexivity. }
    rewrite req_at_upd_req. cbn [reply_data set_reply_data].
    assert (Hw1tx : w_tx w1 = w_tx w /\ w_tx_ret w1 = w_tx_ret w
                    /\ w_notified w1 = w_notified w).
    { unfold w1. destruct (req_want request =? 0); done. }
    destruct buf as [b|].
    + rewrite !req_at_upd_req. cbn. rewrite Hat. cbn.
      rewrite Htx, Hret, Hnot. intuition congruence.
    + rewrite !req_at_upd_req. cbn. rewrite Hat. cbn.
      rewrite Htx, Hret, Hnot. intuition congruence.
  - rewrite !req_at_upd_req. cbn.
    assert (Hw1tx : w_tx w1 = w_tx w /\ w_tx_ret w1 = w_tx_ret w
                    /\ w_notified w1 = w_notified w).
    { unfold w1. destruct (req_want request =? 0); done. }
    intuition congruence.
Qed.

(** A frame that does not complete the pending request leaves the world
    as it is, up to the default of [want]. *)
Lemma process_reply_false w frame w1 :
  pcat_process_reply w frame = (false, w1) ->
  w1 = w
  \/ exists rp, pmu_reply (w_pmu w) = Some rp
       /\ w1 = upd_req rp (fun r => set_req_want (to_u16 (req_cmd r + 1)) r) w.
Proof.
  unfold pcat_process_reply.
  destruct (pmu_reply (w_pmu w)) as [rp|] eqn:Hrp; [|intros [= <-]; by left].
  destruct (negb _); [intros [= <-]; by left|].
  destruct (req_want (req_at w rp) =? 0).
  - destruct (negb _); [intros [= <-]; right; eauto|].
    destruct (completion_done _); [intros [= <-]; right; eauto|].
    intros [=].
  - destruct (negb _); [intros [= <-]; by left|].
    destruct (completion_done _); [intros [= <-]; by left|].
    intros [=].
Qed.

Lemma u16_at_range data i : 0 <= u16_at data i < 65536.
Proof.
  unfold u16_at.
  pose proof (to_u8_range (byte_at data i)).
  pose proof (to_u8_range (byte_at data (i + 1))). lia.
Qed.

(** What the checks establish about a frame they let through. *)
Lemma check_ok_inv data len frame :
  pcat_process_data_check data len = CheckOk frame ->
  d_head frame = head_of_bytes data
  /\ head_magic_head (d_head frame) = PCAT_MAGIC_HEAD
  /\ head_source (d_head frame) = PCAT_ADDR_PMU
  /\ 3 <= head_length (d_head frame) < U16_MAX - 4
  /\ sizeof_head + head_length (d_head frame) + 1 <= len
  /\ d_size frame = head_length (d_head frame) - 3
  /\ d_data frame = bytes_at data sizeof_head (d_size frame)
  /\ d_foot frame = foot_of_bytes data (d_size frame + sizeof_head)
  /\ foot_magic_end (d_foot frame) = PCAT_MAGIC_END
  /\ foot_crc16 (d_foot frame)
     = crc16 0xFFFF (bytes_at data 1 (head_length (d_head frame) + 6)).
Proof.
  unfold pcat_process_data_check.
  repeat match goal with
         | |- context [if ?c then _ else _] =>
             destruct c eqn:?; [intros [=]|]
         end.
  intros [= <-]. cbn [d_head d_foot d_data d_size].
  unfold sizeof_foot, sizeof_head, U16_MAX in *.
  repeat match goal with
         | H : negb _ = false |- _ => apply negb_false_iff in H
         | H : _ || _ = false |- _ => apply orb_false_iff in H; destruct H
         | H : (_ =? _) = true |- _ => apply Z.eqb_eq in H
         | H : (_ <? _) = false |- _ => apply Z.ltb_ge in H
         | H : (_ >=? _) = false |- _ => rewrite Z.geb_leb in H; apply Z.leb_gt in H
         | H : (_ >? _) = false |- _ => rewrite Z.gtb_ltb in H; apply Z.ltb_ge in H
         end.
  repeat split; try done; try lia.
  cbn [head_length head_of_bytes]. lia.
Qed.

Lemma u16_hi_range v : 0 <= v < 65536 -> 0 <= v / 256 < 256.
Proof. intros. Z.to_euclidean_division_equations. lia. Qed.

Lemma u16_lo_range v : 0 <= v mod 256 < 256.
Proof. apply Z.mod_pos_bound. lia. Qed.

(** ** Frames on the wire *)

(** C1, as the code has it: the heartbeat frame with an empty body and
    need_ack = false is the 13 bytes A5 01 81 id_lo id_hi 03 00 01 00 00
    crc_lo crc_hi 5A, the length field at offset 5 being 3; the receive
    path drops these bytes because their source is not the PMU, and the
    same frame sent by the PMU to the host decodes to command 0x01, an
    empty body and need_ack = 0. *)
Theorem heartbeat_frame (w : world) (frame_id : Z) :
  w_tx_ret w = [] ->
  0 <= frame_id < 65536 ->
  let id_lo := frame_id mod 256 in
  let id_hi := frame_id / 256 in
  let crc := crc16 0xFFFF [0x01; 0x81; id_lo; id_hi; 3; 0; 1; 0; 0] in
  let sent := [0xA5; 0x01; 0x81; id_lo; id_hi; 3; 0; 1; 0; 0;
               crc mod 256; crc / 256; 0x5A] in
  let crc' := crc16 0xFFFF [0x81; 0x01; id_lo; id_hi; 3; 0; 1; 0; 0] in
  let echoed := [0xA5; 0x81; 0x01; id_lo; id_hi; 3; 0; 1; 0; 0;
                 crc' mod 256; crc' / 256; 0x5A] in
  w_tx (snd (pcat_pmu_raw_write w frame_id PCAT_CMD_HEARTBEAT false [] 0))
    = w_tx w ++ sent
  /\ u16_at sent 5 = 3
  /\ pcat_process_data_check sent 13 = CheckUnknownSource
  /\ pcat_process_data_check echoed 13 =
       CheckOk (mk_data (mk_head 0xA5 0x81 0x01 frame_id 3 PCAT_CMD_HEARTBEAT)
                  (mk_foot 0 crc' 0x5A) [] 0).
Proof.
  intros Hret Hid id_lo id_hi crc sent crc' echoed.
  assert (Hlo : to_u8 (to_u16 frame_id) = id_lo).
  { unfold to_u8, to_u16, id_lo. rewrite (Z.mod_small frame_id) by lia. reflexivity. }
  assert (Hhi : to_u8 (to_u16 frame_id / 256) = id_hi).
  { unfold to_u8, to_u16, id_hi. rewrite (Z.mod_small frame_id) by lia.
    apply Z.mod_small, u16_hi_range. lia. }
  assert (Hcrc : 0 <= crc < 65536) by (apply crc16_range; lia).
  assert (Hcrc' : 0 <= crc' < 65536) by (apply crc16_range; lia).
  assert (Hsent : frame_bytes (raw_write_head frame_id PCAT_CMD_HEARTBEAT 0) [] false = sent).
  { unfold frame_bytes, raw_write_foot, raw_write_head, head_bytes, foot_bytes,
      u16_bytes, bytes_at.
    cbn [head_magic_head head_source head_dest head_frame_id head_length
         head_command foot_need_ack foot_crc16 foot_magic_end].
    rewrite Hlo, Hhi. norm_to_nat. cbn [app take drop Z.b2z].
    rewrite <- !crc16_app. cbn [app].
    change (crc16 65535 _) with crc.
    unfold sent. repeat f_equal.
    unfold to_u8. rewrite Z.mod_small; [reflexivity|].
    apply u16_hi_range. lia. }
  split; [|split; [|split]].
  - rewrite raw_write_ok by done. cbn [snd tx_append w_tx].
    change (bytes_at [] 0 0) with (@nil Z). by rewrite Hsent.
  - unfold sent, u16_at, byte_at. norm_to_nat. cbn [nth]. reflexivity.
  - unfold pcat_process_data_check, head_of_bytes, sent, byte_at.
    norm_to_nat. cbn [nth head_magic_head head_source]. reflexivity.
  - pose proof (check_frame_bytes
                  (mk_head 0xA5 0x81 0x01 frame_id 3 PCAT_CMD_HEARTBEAT) []
                  false [] 13) as Hc.
    cbn [head_magic_head head_source head_dest head_frame_id head_length
         head_command length] in Hc.
    rewrite app_nil_r in Hc.
    assert (He : frame_bytes (mk_head 0xA5 0x81 0x01 frame_id 3 PCAT_CMD_HEARTBEAT) [] false = echoed).
    { unfold frame_bytes, raw_write_foot, head_bytes, foot_bytes, u16_bytes, bytes_at.
      cbn [head_magic_head head_source head_dest head_frame_id head_length
           head_command foot_need_ack foot_crc16 foot_magic_end].
      fold id_hi. change (to_u8 frame_id) with id_lo.
      assert (Hh : to_u8 id_hi = id_hi).
      { apply to_u8_small, u16_hi_range. lia. }
      rewrite Hh. norm_to_nat. cbn [app take drop Z.b2z].
      rewrite <- !crc16_app. cbn [app].
      change (crc16 65535 _) with crc'.
      unfold echoed. repeat f_equal.
      unfold to_u8. rewrite Z.mod_small; [reflexivity|].
      apply u16_hi_range. lia. }
    rewrite He in Hc. rewrite Hc.
    + do 2 f_equal. unfold raw_write_foot. cbn [Z.b2z]. f_equal.
      unfold head_bytes, u16_bytes, bytes_at.
      cbn [head_magic_head head_source head_dest head_frame_id head_length
           head_command].
      fold id_hi. change (to_u8 frame_id) with id_lo.
      assert (Hh : to_u8 id_hi = id_hi).
      { apply to_u8_small, u16_hi_range. lia. }
      rewrite Hh. norm_to_nat. cbn [app take drop].
      rewrite <- !crc16_app. reflexivity.
    + reflexivity.
    + reflexivity.
    + left. reflexivity.
    + lia.
    + unfold PCAT_CMD_HEARTBEAT. lia.
    + reflexivity.
    + unfold U16_MAX. simpl. lia.
    + simpl. lia.
Qed.

Lemma heartbeat_frame_witness :
  w_tx_ret probe_world = [] /\ 0 <= 0x1234 < 65536 /\
  u16_at (w_tx (snd (pcat_pmu_raw_write probe_world 0x1234
                       PCAT_CMD_HEARTBEAT false [] 0))) 5 = 3.
Proof.
  split; [reflexivity|]. split; [lia|].
  destruct (heartbeat_frame probe_world 0x1234 eq_refl) as (Htx & Hlen & _);
    [lia|].
  rewrite Htx. exact Hlen.
Defined.

(** C1 as stated fails: the bytes that the encoder writes for a heartbeat
    frame carry 03 00 in the length field, not 02 00, and the receive path
    does not decode them. *)
Lemma heartbeat_claimed_bytes_wrong :
  ~ (exists crc_lo crc_hi,
        w_tx (snd (pcat_pmu_raw_write probe_world 0x1234
                     PCAT_CMD_HEARTBEAT false [] 0))
        = [0xA5; 0x01; 0x81; 0x34; 0x12; 0x02; 0x00; 0x01; 0x00; 0x00;
           crc_lo; crc_hi; 0x5A])
  /\ pcat_process_data_check
       (w_tx (snd (pcat_pmu_raw_write probe_world 0x1234
                     PCAT_CMD_HEARTBEAT false [] 0))) 13
     = CheckUnknownSource.
Proof.
  split.
  - intros (c1 & c2 & H). vm_compute in H. discriminate H.
  - vm_compute. reflexivity.
Qed.

(** C2, as the code has it: for every 16-bit frame id and command and
    every body shorter than U16_MAX - 7 bytes, the encoder writes head,
    body and foot; the receive path drops that frame as it stands, its
    source being the host; the same frame with the PMU as source and a
    destination the host accepts passes every check, and the decoded
    frame has the command and the body of the encoder and a stored CRC
    equal to the recomputed one. *)
Theorem raw_write_check_roundtrip (w : world) (frame_id cmd : Z)
    (need_ack : bool) (data : list Z) (len dest : Z) :
  w_tx_ret w = [] ->
  len = Z.of_nat (length data) ->
  len < U16_MAX - 7 ->
  0 <= frame_id < 65536 ->
  0 <= cmd < 65536 ->
  accepted_dest dest ->
  let head := raw_write_head frame_id cmd len in
  let sent := frame_bytes head data need_ack in
  let head' := readdress PCAT_ADDR_PMU dest head in
  let echoed := frame_bytes head' data need_ack in
  w_tx (snd (pcat_pmu_raw_write w frame_id cmd need_ack data len))
    = w_tx w ++ sent
  /\ pcat_process_data_check sent (len + 13) = CheckUnknownSource
  /\ exists foot,
       pcat_process_data_check echoed (len + 13)
         = CheckOk (mk_data head' foot data len)
       /\ head_command head' = cmd
       /\ foot_crc16 foot
            = crc16 0xFFFF (bytes_at echoed 1 (head_length head' + 6)).
Proof.
  intros Hret Hlen Hsmall Hid Hcmd Hdest. subst len.
  intros head sent head' echoed.
  unfold U16_MAX in Hsmall.
  assert (Hhl : head_length head' = Z.of_nat (length data) + 3).
  { cbn. unfold sizeof_foot. rewrite to_u16_small by lia. lia. }
  split; [|split].
  - rewrite raw_write_ok by done. cbn [snd tx_append w_tx].
    rewrite bytes_at_all. reflexivity.
  - unfold pcat_process_data_check, sent, frame_bytes.
    rewrite head_of_head_bytes. cbn [head_magic_head head_source raw_write_head].
    unfold sizeof_head. zbool. reflexivity.
  - exists (raw_write_foot head' data need_ack). split; [|split].
    + pose proof (check_frame_bytes head' data need_ack []
                    (Z.of_nat (length data) + 13)) as Hc.
      rewrite app_nil_r in Hc. unfold echoed. rewrite Hc; try done;
        try (cbn; apply to_u16_range); try (unfold U16_MAX; lia).
    + cbn. apply to_u16_small. lia.
    + rewrite Hhl.
      pose proof (frame_bytes_crc head' data need_ack []) as Hc.
      rewrite app_nil_r in Hc. fold echoed in Hc.
      replace (Z.of_nat (length data) + 3 + 6)
        with (Z.of_nat (length data) + 9) by lia.
      symmetry. exact Hc.
Qed.

Lemma raw_write_check_roundtrip_witness :
  w_tx_ret probe_world = [] /\ 2 = Z.of_nat (length [7; 8]) /\
  2 < U16_MAX - 7 /\ 0 <= 0x1234 < 65536 /\ 0 <= 0x07 < 65536 /\
  accepted_dest PCAT_ADDR_CPU /\
  exists foot,
    pcat_process_data_check
      (frame_bytes (readdress PCAT_ADDR_PMU PCAT_ADDR_CPU
                      (raw_write_head 0x1234 0x07 2)) [7; 8] true) (2 + 13)
    = CheckOk (mk_data (readdress PCAT_ADDR_PMU PCAT_ADDR_CPU
                          (raw_write_head 0x1234 0x07 2)) foot [7; 8] 2).
Proof.
  assert (H1 : w_tx_ret probe_world = []) by reflexivity.
  assert (H2 : 2 = Z.of_nat (length [7; 8])) by reflexivity.
  assert (H3 : 2 < U16_MAX - 7) by (unfold U16_MAX; lia).
  assert (H4 : 0 <= 0x1234 < 65536) by lia.
  assert (H5 : 0 <= 0x07 < 65536) by lia.
  assert (H6 : accepted_dest PCAT_ADDR_CPU) by (left; reflexivity).
  repeat (split; [assumption|]).
  destruct (raw_write_check_roundtrip probe_world 0x1234 0x07 true [7; 8] 2
              PCAT_ADDR_CPU H1 H2 H3 H4 H5 H6) as (_ & _ & foot & Hc & _).
  exists foot. exact Hc.
Defined.

(** C2 as stated fails twice: the receive path does not decode what the
    encoder wrote, and a body of U16_MAX - 7 bytes, which is below the
    bound of the claim, makes a length field that the receive path rejects
    even in a frame that comes from the PMU. *)
Lemma encoded_frame_not_decoded :
  pcat_process_data_check
    (w_tx (snd (pcat_pmu_raw_write probe_world 0x1234 0x07 true [7; 8] 2)))
    (2 + 13) = CheckUnknownSource
  /\ (65528 < U16_MAX - 6
      /\ pcat_process_data_check
           (frame_bytes (readdress PCAT_ADDR_PMU PCAT_ADDR_CPU
                           (raw_write_head 0x1234 0x07 65528))
              (repeat 0 (Z.to_nat 65528)) true) (65528 + 13)
         = CheckInvalidLength).
Proof.
  split; [vm_compute; reflexivity|].
  split; [unfold U16_MAX; lia|].
  vm_compute. reflexivity.
Qed.

(** ** Correlation and dispatch *)

Lemma to_u16_plus2_ne y : to_u16 (y + 2) <> y.
Proof.
  unfold to_u16. intros H.
  Z.to_euclidean_division_equations. lia.
Qed.

(** C4: with a request pending, a checked frame completes it exactly when
    the frame id is the request's, the command is the expected reply and
    the completion has not fired yet; completing fires the completion,
    stores head and foot and clears the slot. A frame with the request's id
    whose command is the expected reply plus 2 leaves the request pending
    and is handed to the subscriber chain. *)
Theorem reply_matches_iff (w : world) (frame : pcat_data) (rp : Z) :
  pmu_reply (w_pmu w) = Some rp ->
  let request := req_at w rp in
  let '(processed, w') := pcat_process_reply w frame in
  (processed = true <->
     req_frame_id request = head_frame_id (d_head frame)
     /\ expected_reply request = head_command (d_head frame)
     /\ completion_done request = false)
  /\ (processed = true ->
      pmu_reply (w_pmu w') = None
      /\ req_received (req_at w' rp) = req_received request + 1
      /\ reply_head (req_at w' rp) = d_head frame
      /\ reply_foot (req_at w' rp) = d_foot frame)
  /\ (processed = false ->
      pmu_reply (w_pmu w') = Some rp
      /\ req_received (req_at w' rp) = req_received request)
  /\ (forall data len,
        pcat_process_data_check data len = CheckOk frame ->
        req_frame_id request = head_frame_id (d_head frame) ->
        head_command (d_head frame) = to_u16 (expected_reply request + 2) ->
        let w'' := snd (pcat_process_data w data len) in
        pmu_reply (w_pmu w'') = Some rp
        /\ req_received (req_at w'' rp) = req_received request
        /\ w_notified w'' =
             w_notified w ++ [(head_command (d_head frame), frame)]).
Proof.
  intros Hrp request. subst request.
  assert (Hw1 : forall w1,
             w1 = (if req_want (req_at w rp) =? 0
                   then upd_req rp (fun r => set_req_want (to_u16 (req_cmd r + 1)) r) w
                   else w) ->
             pmu_reply (w_pmu w1) = Some rp
             /\ req_received (req_at w1 rp) = req_received (req_at w rp)
             /\ w_notified w1 = w_notified w).
  { intros w1 ->. destruct (req_want (req_at w rp) =? 0).
    - rewrite req_at_upd_req. cbn. done.
    - done. }
  pose proof (process_reply_cases w frame rp Hrp) as Hcases.
  cbv zeta in Hcases.
  destruct Hcases
    as [(Hid & Hpr) | [(Hid & Hno & Hpr) | (Hid & Hcmd & Hdone & w' & Hpr & Hw')]];
    rewrite Hpr.
  - split; [split; [done | intros (? & _); done]|].
    split; [done|]. split; [done|].
    intros data len Hc Hid'. done.
  - specialize (Hw1 _ eq_refl). destruct Hw1 as (H1 & H2 & H3).
    split.
    { split; [done|]. intros (_ & ? & ?). destruct Hno; congruence. }
    split; [done|]. split; [done|].
    intros data len Hc _ Hcmd w''.
    subst w''. unfold pcat_process_data. rewrite Hc, Hpr.
    unfold blocking_notifier_call_chain.
    match goal with
    | |- context [if ?c then _ else _] => destruct c
    end.
    + match goal with
      | |- context [pcat_pmu_raw_write ?a ?b ?c ?d ?e ?f] =>
          pose proof (raw_write_frame a b c d e f) as Hf;
          pose proof (raw_write_req_at a b c d e f rp) as Hr;
          destruct (pcat_pmu_raw_write a b c d e f) as [r3 w3]
      end.
      cbn [snd] in *. destruct Hf as (Hp & _ & _ & _ & Hn).
      rewrite Hp, Hr, Hn. cbn. rewrite H3. done.
    + cbn. rewrite H3. done.
  - destruct Hw' as (Hslot & Hrecv & Hh & Hf & _).
    split; [done|]. split; [done|]. split; [done|].
    intros data len Hc _ Hcmd'. rewrite Hcmd' in Hcmd.
    symmetry in Hcmd. by apply to_u16_plus2_ne in Hcmd.
Qed.

Lemma ack_frame_wire frame :
  0 <= head_frame_id (d_head frame) < 65536 ->
  let ack := frame_bytes (ack_head frame) [] false in
  length ack = 13%nat
  /\ u16_at ack 3 = head_frame_id (d_head frame)
  /\ u16_at ack 5 = 3
  /\ u16_at ack 7 = to_u16 (head_command (d_head frame) + 1)
  /\ byte_at ack 9 = 0.
Proof.
  intros Hid ack.
  assert (Hh : head_of_bytes ack = ack_head frame).
  { unfold ack, frame_bytes. rewrite head_of_head_bytes. unfold ack_head.
    cbn [head_magic_head head_source head_dest head_frame_id head_length
         head_command].
    rewrite (to_u16_small (head_frame_id _)) by done.
    f_equal. unfold to_u16. apply Z.mod_mod. lia. }
  split; [reflexivity|].
  split; [change (u16_at ack 3) with (head_frame_id (head_of_bytes ack)); by rewrite Hh|].
  split; [change (u16_at ack 5) with (head_length (head_of_bytes ack)); by rewrite Hh|].
  split; [change (u16_at ack 7) with (head_command (head_of_bytes ack)); by rewrite Hh|].
  reflexivity.
Qed.

(** The acknowledgment of a frame that nobody takes: the assumptions of
    C5 and C10. *)
Section AutoAck.

Variables (w : world) (data : list Z) (len : Z) (frame : pcat_data).

(** The bytes pass the checks, *)
Hypothesis Hcheck : pcat_process_data_check data len = CheckOk frame.
(** the frame completes no pending request, *)
Hypothesis Hunmatched : fst (pcat_process_reply w frame) = false.
(** no subscriber claims it, *)
Hypothesis Hunclaimed :
  notifier_call_chain (pmu_notifier_list (w_pmu w)) NOTIFY_DONE
    (head_command (d_head frame)) frame = NOTIFY_DONE.
(** it asks for an acknowledgment, *)
Hypothesis Hneed_ack : foot_need_ack (d_foot frame) <> 0.
(** and the transport takes what is written. *)
Hypothesis Hwrites : w_tx_ret w = [].

Lemma process_data_auto_ack :
  let w' := snd (pcat_process_data w data len) in
  w_tx w' = w_tx w ++ frame_bytes (ack_head frame) [] false
  /\ w_pmu w' = w_pmu w.
Proof.
  intros w'. subst w'.
  unfold pcat_process_data. rewrite Hcheck.
  destruct (pcat_process_reply w frame) as [b w1] eqn:Epr.
  cbn [fst] in Hunmatched. subst b.
  assert (Hw1 : w_pmu w1 = w_pmu w /\ w_tx w1 = w_tx w /\ w_tx_ret w1 = w_tx_ret w).
  { destruct (process_reply_false _ _ _ Epr) as [-> | (rp & _ & ->)]; done. }
  destruct Hw1 as (Hp & Htx & Hr).
  unfold blocking_notifier_call_chain. rewrite Hp, Hunclaimed.
  rewrite Z.eqb_refl.
  replace (foot_need_ack (d_foot frame) =? 0) with false
    by (symmetry; by apply Z.eqb_neq).
  cbn [negb andb].
  rewrite raw_write_ok by (cbn; congruence).
  cbn [snd tx_append w_tx w_pmu]. rewrite Htx. split; [|done].
  f_equal. unfold ack_head, raw_write_head, sizeof_foot.
  destruct (check_ok_inv _ _ _ Hcheck) as (Hh & _).
  rewrite (to_u16_small (head_frame_id _)).
  - reflexivity.
  - rewrite Hh. cbn. apply u16_at_range.
Qed.

(** C5: a checked frame with need_ack set that completes no pending
    request, the subscriber chain returning NOTIFY_DONE, puts exactly one
    frame on the wire: 13 bytes whose command is the received command plus
    one (as a 16-bit value), whose length field is 3, that of an empty
    body, and whose need_ack byte is 0. *)
Theorem unhandled_need_ack_is_acked :
  let C := head_command (d_head frame) in
  let ack := frame_bytes (ack_head frame) [] false in
  w_tx (snd (pcat_process_data w data len)) = w_tx w ++ ack
  /\ length ack = 13%nat
  /\ u16_at ack 7 = to_u16 (C + 1)
  /\ (C < U16_MAX -> u16_at ack 7 = C + 1)
  /\ u16_at ack 5 = 3
  /\ byte_at ack 9 = 0.
Proof.
  intros C ack.
  destruct process_data_auto_ack as (Htx & _).
  destruct (check_ok_inv _ _ _ Hcheck) as (Hh & _).
  assert (Hid : 0 <= head_frame_id (d_head frame) < 65536)
    by (rewrite Hh; apply u16_at_range).
  assert (HC : 0 <= C < 65536)
    by (unfold C; rewrite Hh; apply u16_at_range).
  destruct (ack_frame_wire frame Hid) as (Hl & _ & H5 & H7 & H9).
  repeat split; try done.
  intros Hlt. fold ack in H7. rewrite H7. fold C.
  apply to_u16_small. unfold U16_MAX in Hlt. lia.
Qed.

(** C10: the acknowledgment carries the frame id of the frame it answers
    and leaves the outgoing-frame counter alone, whereas [pcat_pmu_send]
    advances the counter and sends the new value as the frame id. *)
Theorem auto_ack_echoes_frame_id :
  let w' := snd (pcat_process_data w data len) in
  (exists ack, w_tx w' = w_tx w ++ ack
     /\ length ack = 13%nat
     /\ u16_at ack 3 = head_frame_id (d_head frame))
  /\ pmu_frame (w_pmu w') = pmu_frame (w_pmu w)
  /\ forall cmd body blen,
       let ws := snd (pcat_pmu_send w cmd body blen) in
       pmu_frame (w_pmu ws) = to_int (pmu_frame (w_pmu w) + 1)
       /\ exists sent, w_tx ws = w_tx w ++ sent
            /\ u16_at sent 3 = to_u16 (to_int (pmu_frame (w_pmu w) + 1)).
Proof.
  intros w'.
  destruct process_data_auto_ack as (Htx & Hpmu).
  destruct (check_ok_inv _ _ _ Hcheck) as (Hh & _).
  assert (Hid : 0 <= head_frame_id (d_head frame) < 65536)
    by (rewrite Hh; apply u16_at_range).
  destruct (ack_frame_wire frame Hid) as (Hl & H3 & _).
  split; [eexists; repeat split; [exact Htx | exact Hl | exact H3]|].
  split; [unfold w'; by rewrite Hpmu|].
  intros cmd body blen ws. subst ws.
  unfold pcat_pmu_send, atomic_inc_return_frame.
  rewrite raw_write_ok by done.
  cbn [snd tx_append w_tx w_pmu set_pmu set_frame pmu_frame].
  split; [reflexivity|].
  eexists. split; [reflexivity|].
  unfold frame_bytes.
  change (u16_at ?l 3) with (head_frame_id (head_of_bytes l)).
  rewrite head_of_head_bytes. cbn [head_frame_id raw_write_head].
  unfold to_u16. rewrite !Z.mod_mod by lia. reflexivity.
Qed.

End AutoAck.

(** Runs of the receive path: the status report is acknowledged with
    command 0x08 and its own frame id 0x0102 when nobody claims it, and
    not at all when a subscriber does; the reply to the pending request
    completes it. *)
Example status_report_acked :
  w_tx (snd (pcat_pmu_receive_buf probe_world status_bytes))
  = [0xA5; 0x01; 0x81; 0x02; 0x01; 3; 0; 0x08; 0; 0; 0x29; 0x1F; 0x5A].
Proof. vm_compute. reflexivity. Qed.

Example status_report_claimed :
  w_tx (snd (pcat_pmu_receive_buf claiming_world status_bytes)) = []
  /\ w_notified (snd (pcat_pmu_receive_buf claiming_world status_bytes))
     = [(PCAT_CMD_STATUS_REPORT, status_frame)].
Proof. split; vm_compute; reflexivity. Qed.

Example version_reply_completes :
  let w' := snd (pcat_pmu_receive_buf pending_world
                   (frame_bytes version_reply_head [65; 66; 67] false)) in
  pmu_reply (w_pmu w') = None
  /\ req_received (req_at w' 100) = 1
  /\ reply_data (req_at w' 100) = Some [65; 66; 67; 0]
  /\ reply_size (req_at w' 100) = 3.
Proof. repeat split; vm_compute; reflexivity. Qed.

Lemma reply_matches_iff_witness :
  pmu_reply (w_pmu pending_world) = Some 100
  /\ fst (pcat_process_reply pending_world version_reply) = true.
Proof.
  split; [reflexivity|].
  pose proof (reply_matches_iff pending_world version_reply 100 eq_refl) as H.
  cbv zeta in H.
  destruct (pcat_process_reply pending_world version_reply) as [b w'].
  destruct H as (Hiff & _). apply Hiff.
  vm_compute. repeat split.
Defined.

Lemma status_frame_hyps :
  pcat_process_data_check status_bytes 13 = CheckOk status_frame
  /\ fst (pcat_process_reply probe_world status_frame) = false
  /\ notifier_call_chain (pmu_notifier_list (w_pmu probe_world)) NOTIFY_DONE
       (head_command (d_head status_frame)) status_frame = NOTIFY_DONE
  /\ foot_need_ack (d_foot status_frame) <> 0
  /\ w_tx_ret probe_world = [].
Proof.
  split; [vm_compute; reflexivity|].
  split; [reflexivity|]. split; [reflexivity|].
  split; [vm_compute; discriminate|reflexivity].
Defined.

Lemma unhandled_need_ack_is_acked_witness :
  (pcat_process_data_check status_bytes 13 = CheckOk status_frame
   /\ fst (pcat_process_reply probe_world status_frame) = false
   /\ notifier_call_chain (pmu_notifier_list (w_pmu probe_world)) NOTIFY_DONE
        (head_command (d_head status_frame)) status_frame = NOTIFY_DONE
   /\ foot_need_ack (d_foot status_frame) <> 0
   /\ w_tx_ret probe_world = [])
  /\ w_tx (snd (pcat_process_data probe_world status_bytes 13))
     = w_tx probe_world ++ frame_bytes (ack_head status_frame) [] false.
Proof.
  split; [exact status_frame_hyps|].
  destruct status_frame_hyps as (H1 & H2 & H3 & H4 & H5).
  exact (proj1 (unhandled_need_ack_is_acked probe_world status_bytes 13
                  status_frame H1 H2 H3 H4 H5)).
Defined.

Lemma auto_ack_echoes_frame_id_witness :
  (pcat_process_data_check status_bytes 13 = CheckOk status_frame
   /\ fst (pcat_process_reply probe_world status_frame) = false
   /\ notifier_call_chain (pmu_notifier_list (w_pmu probe_world)) NOTIFY_DONE
        (head_command (d_head status_frame)) status_frame = NOTIFY_DONE
   /\ foot_need_ack (d_foot status_frame) <> 0
   /\ w_tx_ret probe_world = [])
  /\ pmu_frame (w_pmu (snd (pcat_process_data probe_world status_bytes 13)))
     = pmu_frame (w_pmu probe_world).
Proof.
  split; [exact status_frame_hyps|].
  destruct status_frame_hyps as (H1 & H2 & H3 & H4 & H5).
  exact (proj1 (proj2 (auto_ack_echoes_frame_id probe_world status_bytes 13
                         status_frame H1 H2 H3 H4 H5))).
Defined.

(** ** pcat_process_data and the buffer *)

Lemma devm_kzalloc_frame w n :
  let w' := snd (devm_kzalloc w n) in
  w_pmu w' = w_pmu w /\ w_requests w' = w_requests w /\ w_tx w' = w_tx w
  /\ w_tx_ret w' = w_tx_ret w /\ w_rx w' = w_rx w
  /\ w_notified w' = w_notified w.
Proof. unfold devm_kzalloc. destruct (w_kzalloc w) as [|[] ?]; cbn; done. Qed.

Lemma process_reply_pmu_rest w frame :
  pmu_rest (w_pmu (snd (pcat_process_reply w frame))) = pmu_rest (w_pmu w)
  /\ w_rx (snd (pcat_process_reply w frame)) = w_rx w.
Proof.
  destruct (pcat_process_reply w frame) as [[] w'] eqn:E; cbn [snd].
  - unfold pcat_process_reply in E.
    destruct (pmu_reply (w_pmu w)) as [rp|]; [|done].
    destruct (negb _); [done|].
    set (w1 := if req_want (req_at w rp) =? 0 then _ else _) in *.
    assert (H1 : w_pmu w1 = w_pmu w /\ w_rx w1 = w_rx w)
      by (unfold w1; destruct (_ =? _); done).
    destruct (negb _); [done|].
    destruct (completion_done _); [done|].
    destruct (0 <? d_size frame).
    + destruct (devm_kzalloc _ _) as [buf wk] eqn:Ek.
      pose proof (devm_kzalloc_frame
                    (upd_req rp (set_reply_head_foot (d_head frame) (d_foot frame)) w1)
                    (d_size frame + 1)) as Hk.
      rewrite Ek in Hk. cbn [snd] in Hk. destruct Hk as (Hp & _ & _ & _ & Hr & _).
      cbn in Hp, Hr.
      destruct (reply_data _); inversion E; subst; cbn;
        unfold pmu_rest; cbn; rewrite ?Hp, ?Hr; destruct H1 as [-> ->]; done.
    + inversion E; subst; cbn. unfold pmu_rest; cbn.
      destruct H1 as [-> ->]; done.
  - destruct (process_reply_false _ _ _ E) as [-> | (rp & _ & ->)]; done.
Qed.

Lemma process_data_pmu_rest w data len :
  pmu_rest (w_pmu (snd (pcat_process_data w data len))) = pmu_rest (w_pmu w)
  /\ w_rx (snd (pcat_process_data w data len)) = w_rx w.
Proof.
  unfold pcat_process_data.
  destruct (pcat_process_data_check data len) as [| | | | | | | |frame]; try done.
  pose proof (process_reply_pmu_rest w frame) as Hr.
  destruct (pcat_process_reply w frame) as [[] w1]; cbn [snd] in *; [done|].
  unfold blocking_notifier_call_chain.
  destruct (_ && _).
  - match goal with
    | |- context [pcat_pmu_raw_write ?a ?b ?c ?d ?e ?f] =>
        pose proof (raw_write_frame a b c d e f) as Hf;
        destruct (pcat_pmu_raw_write a b c d e f) as [r3 w3]
    end.
    cbn [snd] in *. destruct Hf as (Hp & _ & _ & Hrx & _).
    rewrite Hp, Hrx. done.
  - done.
Qed.

(** A frame that fails one of the four structural checks changes
    nothing. *)
Lemma process_data_malformed w data len :
  malformed (pcat_process_data_check data len) ->
  pcat_process_data w data len = (- EBADMSG, w).
Proof.
  unfold pcat_process_data.
  intros [H | [H | [H | H]]]; rewrite H; reflexivity.
Qed.

Lemma process_data_need_more w data len :
  need_more (pcat_process_data_check data len) ->
  pcat_process_data w data len = (- EAGAIN, w).
Proof.
  unfold pcat_process_data.
  intros [H | H]; rewrite H; reflexivity.
Qed.

Lemma process_data_ret w data len :
  fst (pcat_process_data w data len)
  = check_ret (pcat_process_data_check data len).
Proof.
  unfold pcat_process_data.
  destruct (pcat_process_data_check data len) as [| | | | | | | |frame]; try done.
  destruct (pcat_process_reply w frame) as [[] w1]; [done|].
  destruct (blocking_notifier_call_chain _ _ _) as [ret w2].
  destruct (_ && _); [|done].
  by destruct (pcat_pmu_raw_write _ _ _ _ _ _).
Qed.

Lemma check_ret_eagain c : check_ret c = - EAGAIN <-> need_more c.
Proof.
  unfold need_more. destruct c; cbn; split; intros H;
    try (by left); try (by right); try done;
    try (destruct H as [H | H]; discriminate H).
Qed.

Lemma check_ret_ebadmsg c : check_ret c = - EBADMSG <-> malformed c.
Proof.
  unfold malformed. destruct c; cbn; split; intros H; try done;
    try tauto; try (destruct H as [H | [H | [H | H]]]; discriminate H).
Qed.

(** C8: bytes that fail a structural check leave the pending-request slot
    and every request object as they were: nothing is written to the
    reply, the completion is not fired, and nothing is sent or handed to
    a subscriber; only the reassembly buffer is emptied. *)
Theorem malformed_input_leaves_request (w : world) (buf : list Z) :
  buf <> [] ->
  let w1 := snd (pcat_pmu_receive_buf_copy w buf) in
  malformed (pcat_process_data_check (pmu_buffer (w_pmu w1))
               (pmu_length (w_pmu w1))) ->
  pcat_process_data w1 (pmu_buffer (w_pmu w1)) (pmu_length (w_pmu w1))
    = (- EBADMSG, w1)
  /\ (let w' := snd (pcat_pmu_receive_buf w buf) in
      pmu_reply (w_pmu w') = pmu_reply (w_pmu w)
      /\ w_requests w' = w_requests w
      /\ (forall p, req_at w' p = req_at w p)
      /\ w_tx w' = w_tx w
      /\ w_notified w' = w_notified w
      /\ pmu_length (w_pmu w') = 0).
Proof.
  intros Hne w1 Hbad.
  pose proof (process_data_malformed w1 _ _ Hbad) as Hpd.
  split; [exact Hpd|].
  unfold pcat_pmu_receive_buf.
  replace (Z.of_nat (length buf) <=? 0) with false
    by (symmetry; apply Z.leb_gt; destruct buf; [done | cbn; lia]).
  subst w1.
  destruct (pcat_pmu_receive_buf_copy w buf) as [processed w1] eqn:Ecopy.
  cbn [snd] in *. rewrite Hpd.
  assert (Hw1 : pmu_reply (w_pmu w1) = pmu_reply (w_pmu w)
                /\ w_requests w1 = w_requests w /\ w_tx w1 = w_tx w
                /\ w_notified w1 = w_notified w).
  { unfold pcat_pmu_receive_buf_copy in Ecopy.
    destruct (_ >? _); inversion Ecopy; subst; cbn; done. }
  destruct Hw1 as (H1 & H2 & H3 & H4).
  replace (negb (- EBADMSG =? - EAGAIN)) with true by reflexivity.
  cbn [snd]. unfold req_at.
  cbn [set_pmu w_pmu w_requests w_tx w_notified set_length pmu_reply pmu_length].
  rewrite H1, H2, H3, H4. done.
Qed.

Lemma malformed_input_leaves_request_witness :
  bad_crc_bytes <> []
  /\ malformed (pcat_process_data_check
                  (pmu_buffer (w_pmu (snd (pcat_pmu_receive_buf_copy
                                             pending_world bad_crc_bytes))))
                  (pmu_length (w_pmu (snd (pcat_pmu_receive_buf_copy
                                             pending_world bad_crc_bytes)))))
  /\ req_at (snd (pcat_pmu_receive_buf pending_world bad_crc_bytes)) 100
     = req_at pending_world 100.
Proof.
  assert (H1 : bad_crc_bytes <> []) by discriminate.
  assert (H2 : malformed (pcat_process_data_check
                  (pmu_buffer (w_pmu (snd (pcat_pmu_receive_buf_copy
                                             pending_world bad_crc_bytes))))
                  (pmu_length (w_pmu (snd (pcat_pmu_receive_buf_copy
                                             pending_world bad_crc_bytes))))))
    by (right; right; right; vm_compute; reflexivity).
  split; [exact H1|]. split; [exact H2|].
  destruct (malformed_input_leaves_request pending_world bad_crc_bytes H1 H2)
    as (_ & _ & _ & Hreq & _).
  exact (Hreq 100).
Defined.

(** ** memcpy *)

Lemma memcpy_from_length dst off src n i :
  length (memcpy_from i dst off src n) = length dst.
Proof.
  revert i. induction dst as [|x dst IH]; intros i; cbn; [done|].
  by rewrite IH.
Qed.

Lemma memcpy_length dst off src n : length (memcpy dst off src n) = length dst.
Proof. apply memcpy_from_length. Qed.

Lemma memcpy_from_lookup dst off src n i (k : nat) :
  memcpy_from i dst off src n !! k =
  (fun x => if (off <=? i + Z.of_nat k) && (i + Z.of_nat k <? off + n)
            then byte_at src (i + Z.of_nat k - off) else x) <$> dst !! k.
Proof.
  revert i k. induction dst as [|x dst IH]; intros i k; [done|].
  destruct k as [|k]; cbn [memcpy_from lookup list_lookup].
  - cbn. by rewrite Z.add_0_r.
  - rewrite IH. cbn [lookup list_lookup].
    replace (i + 1 + Z.of_nat k) with (i + Z.of_nat (S k)) by lia.
    reflexivity.
Qed.

Lemma memcpy_lookup dst off src n (i : nat) :
  memcpy dst off src n !! i =
  (fun x => if (off <=? Z.of_nat i) && (Z.of_nat i <? off + n)
            then byte_at src (Z.of_nat i - off) else x) <$> dst !! i.
Proof. unfold memcpy. by rewrite memcpy_from_lookup. Qed.

Lemma byte_at_lookup (l : list Z) (i : nat) x :
  l !! i = Some x -> byte_at l (Z.of_nat i) = x.
Proof.
  intros H. unfold byte_at. rewrite Nat2Z.id.
  rewrite nth_lookup, H. reflexivity.
Qed.

(** Within bounds, [memcpy] keeps what lies before [off], puts the first
    [n] bytes of [src] there and keeps the rest. *)
Lemma memcpy_spec (dst src : list Z) (off n : nat) :
  (off + n <= length dst)%nat -> (n <= length src)%nat ->
  memcpy dst (Z.of_nat off) src (Z.of_nat n)
  = take off dst ++ take n src ++ drop (off + n) dst.
Proof.
  intros Hd Hs. apply list_eq. intros i. rewrite memcpy_lookup.
  destruct (decide (i < off)%nat) as [Hlt | Hge].
  - rewrite lookup_app_l by (rewrite length_take; lia).
    rewrite lookup_take_lt by lia.
    destruct (dst !! i) as [x|] eqn:E; cbn; [|done].
    replace (Z.of_nat off <=? Z.of_nat i) with false
      by (symmetry; apply Z.leb_gt; lia). done.
  - rewrite lookup_app_r by (rewrite length_take; lia).
    rewrite length_take, Nat.min_l by lia.
    destruct (decide (i < off + n)%nat) as [Hin | Hout].
    + rewrite lookup_app_l by (rewrite length_take; lia).
      rewrite lookup_take_lt by lia.
      destruct (lookup_lt_is_Some_2 dst i ltac:(lia)) as [x Hx].
      destruct (lookup_lt_is_Some_2 src (i - off) ltac:(lia)) as [y Hy].
      rewrite Hx, Hy. cbn.
      replace (Z.of_nat off <=? Z.of_nat i) with true
        by (symmetry; apply Z.leb_le; lia).
      replace (Z.of_nat i <? Z.of_nat off + Z.of_nat n) with true
        by (symmetry; apply Z.ltb_lt; lia).
      cbn. f_equal.
      replace (Z.of_nat i - Z.of_nat off) with (Z.of_nat (i - off)) by lia.
      by apply byte_at_lookup.
    + rewrite lookup_app_r by (rewrite length_take; lia).
      rewrite length_take, Nat.min_l by lia.
      rewrite lookup_drop.
      replace (off + n + (i - off - n))%nat with i by lia.
      destruct (dst !! i) as [x|]; cbn; [|done].
      replace (Z.of_nat i <? Z.of_nat off + Z.of_nat n) with false
        by (symmetry; apply Z.ltb_ge; lia).
      by rewrite andb_false_r.
Qed.

(** ** pcat_pmu_receive_buf *)

Lemma to_size_t_small v : 0 <= v < 2 ^ 64 -> to_size_t v = v.
Proof. intros. unfold to_size_t. apply Z.mod_small. lia. Qed.

(** What the copy does while the driver's invariant holds: the bytes
    stored so far stay, and as many of the new bytes as fit follow them. *)
Lemma receive_buf_copy_spec w buf :
  buffer_ok w ->
  Z.of_nat (length buf) < 2 ^ 63 ->
  let length0 := pmu_length (w_pmu w) in
  let processed := Z.min (Z.of_nat (length buf)) (sizeof_buffer - length0) in
  pcat_pmu_receive_buf_copy w buf =
  (processed,
   set_pmu (fun m =>
              set_length (length0 + processed)
                (set_buffer (take (Z.to_nat length0) (pmu_buffer m)
                             ++ take (Z.to_nat processed) buf
                             ++ drop (Z.to_nat (length0 + processed)) (pmu_buffer m))
                   m)) w).
Proof.
  intros [Hlen Hrange] Hsize length0 processed.
  unfold sizeof_buffer in *.
  unfold pcat_pmu_receive_buf_copy. fold length0.
  rewrite to_size_t_small by lia. unfold sizeof_buffer.
  assert (Hm : forall n, 0 <= n -> Z.of_nat (Z.to_nat length0) = length0
                          /\ Z.of_nat (Z.to_nat n) = n) by (intros; lia).
  destruct (length0 + Z.of_nat (length buf) >? 8192) eqn:E.
  - rewrite Z.gtb_ltb in E. apply Z.ltb_lt in E.
    rewrite to_size_t_small by lia.
    assert (Hp : processed = 8192 - length0) by (unfold processed; lia).
    rewrite Hp. f_equal. unfold set_pmu. f_equal.
    replace (length0 + (8192 - length0)) with 8192 by lia.
    f_equal. f_equal.
    rewrite <- (proj1 (Hm 0 ltac:(lia))) at 1.
    rewrite <- (Z2Nat.id (8192 - length0)) at 1 by lia.
    rewrite memcpy_spec by lia.
    do 3 f_equal. lia.
  - rewrite Z.gtb_ltb in E. apply Z.ltb_ge in E.
    assert (Hp : processed = Z.of_nat (length buf)) by (unfold processed; lia).
    rewrite Hp. f_equal. unfold set_pmu. f_equal. f_equal. f_equal.
    rewrite <- (proj1 (Hm 0 ltac:(lia))) at 1.
    rewrite memcpy_spec by lia.
    rewrite Nat2Z.id. do 3 f_equal. lia.
Qed.

Lemma receive_buf_result w buf :
  buf <> [] ->
  let '(processed, w1) := pcat_pmu_receive_buf_copy w buf in
  let c := pcat_process_data_check (pmu_buffer (w_pmu w1)) (pmu_length (w_pmu w1)) in
  let '(processed', w') := pcat_pmu_receive_buf w buf in
  processed' = processed
  /\ pmu_buffer (w_pmu w') = pmu_buffer (w_pmu w1)
  /\ (need_more c -> pmu_length (w_pmu w') = pmu_length (w_pmu w1))
  /\ (~ need_more c -> pmu_length (w_pmu w') = 0).
Proof.
  intros Hne. unfold pcat_pmu_receive_buf.
  replace (Z.of_nat (length buf) <=? 0) with false
    by (symmetry; apply Z.leb_gt; destruct buf; [done | cbn; lia]).
  destruct (pcat_pmu_receive_buf_copy w buf) as [processed w1].
  pose proof (process_data_ret w1 (pmu_buffer (w_pmu w1)) (pmu_length (w_pmu w1))) as Hret.
  pose proof (process_data_pmu_rest w1 (pmu_buffer (w_pmu w1)) (pmu_length (w_pmu w1))) as [Hrest _].
  destruct (pcat_process_data w1 _ _) as [ret w2]. cbn [fst snd] in *.
  unfold pmu_rest in Hrest. injection Hrest as Hf Hb Hl Hn.
  destruct (ret =? - EAGAIN) eqn:E; cbn [negb].
  - apply Z.eqb_eq in E. rewrite E in Hret. symmetry in Hret.
    apply check_ret_eagain in Hret.
    repeat split; try done.
  - apply Z.eqb_neq in E.
    cbn [set_pmu w_pmu set_length pmu_buffer pmu_length].
    repeat split; try done.
    intros Hnm. apply check_ret_eagain in Hnm. congruence.
Qed.

(** C6, as the code has it: after a feed the stored length is at most
    8192 and the buffer keeps its size; the feed takes the first
    min(size, 8192 - length) bytes of the input and stores them behind the
    bytes already held, which stay; what does not fit is the end of the
    input, and it is not stored. *)
Theorem receive_buf_bounded (w : world) (buf : list Z) :
  buffer_ok w ->
  Z.of_nat (length buf) < 2 ^ 63 ->
  let length0 := pmu_length (w_pmu w) in
  let '(processed, w') := pcat_pmu_receive_buf w buf in
  buffer_ok w'
  /\ pmu_length (w_pmu w') <= sizeof_buffer
  /\ processed = Z.min (Z.of_nat (length buf)) (sizeof_buffer - length0)
  /\ bytes_at (pmu_buffer (w_pmu w')) 0 (length0 + processed)
     = bytes_at (pmu_buffer (w_pmu w)) 0 length0
       ++ take (Z.to_nat processed) buf.
Proof.
  intros Hok Hsize length0.
  destruct buf as [|b buf'].
  { unfold pcat_pmu_receive_buf. change (Z.of_nat (length []) <=? 0) with true.
    cbv iota.
    subst length0. pose proof Hok as [Hl Hr]. unfold sizeof_buffer in *.
    split; [exact Hok|]. split; [lia|]. split; [cbn [length]; lia|].
    rewrite Z.add_0_r. cbn [take]. rewrite app_nil_r. reflexivity. }
  set (buf := b :: buf') in *.
  pose proof (receive_buf_result w buf ltac:(done)) as Hres.
  pose proof (receive_buf_copy_spec w buf Hok Hsize) as Hcopy.
  cbv zeta in Hcopy. fold length0 in Hcopy. rewrite Hcopy in Hres.
  set (processed := Z.min (Z.of_nat (length buf)) (sizeof_buffer - length0)) in *.
  destruct (pcat_pmu_receive_buf w buf) as [processed' w'].
  destruct Hres as (-> & Hb & Hkeep & Hclear).
  cbn [set_pmu w_pmu set_length set_buffer pmu_buffer pmu_length] in Hb, Hkeep, Hclear.
  destruct Hok as [Hl Hr]. fold length0 in Hr. unfold sizeof_buffer in *.
  assert (Hp : 0 <= processed <= 8192 - length0) by (unfold processed; lia).
  assert (Hpl : processed <= Z.of_nat (length buf)) by (unfold processed; lia).
  assert (Hlen' : length (pmu_buffer (w_pmu w')) = Z.to_nat 8192).
  { rewrite Hb, !length_app, !length_take, length_drop. lia. }
  assert (Hrange' : 0 <= pmu_length (w_pmu w') <= 8192).
  { match type of Hkeep with
    | need_more ?c -> _ => assert (Hdec : need_more c \/ ~ need_more c) by (unfold need_more; destruct c; intuition discriminate); destruct Hdec as [Hn | Hn]
    end.
    - rewrite (Hkeep Hn). lia.
    - rewrite (Hclear Hn). lia. }
  split; [split; [exact Hlen' | exact Hrange']|].
  split; [lia|]. split; [reflexivity|].
  rewrite Hb. unfold bytes_at. change (Z.to_nat 0) with 0%nat. rewrite !drop_0.
  rewrite app_assoc.
  replace (Z.to_nat (length0 + processed))
    with (length (take (Z.to_nat length0) (pmu_buffer (w_pmu w))
                  ++ take (Z.to_nat processed) buf))
    by (rewrite length_app, !length_take; lia).
  rewrite take_app_length. reflexivity.
Qed.

Lemma nearly_full_world_ok : buffer_ok nearly_full_world.
Proof. split; [vm_compute; reflexivity | cbn; unfold sizeof_buffer; lia]. Defined.

Lemma receive_buf_bounded_witness :
  buffer_ok nearly_full_world
  /\ Z.of_nat (length [1; 2; 3; 4]) < 2 ^ 63
  /\ fst (pcat_pmu_receive_buf nearly_full_world [1; 2; 3; 4]) = 2.
Proof.
  assert (H2 : Z.of_nat (length [1; 2; 3; 4]) < 2 ^ 63) by (cbn; lia).
  split; [exact nearly_full_world_ok|]. split; [exact H2|].
  pose proof (receive_buf_bounded nearly_full_world [1; 2; 3; 4]
                nearly_full_world_ok H2) as H.
  cbv zeta in H.
  destruct (pcat_pmu_receive_buf nearly_full_world [1; 2; 3; 4]) as [n w'].
  destruct H as (_ & _ & Hn & _). cbn [fst]. rewrite Hn. reflexivity.
Defined.

(** C6 as stated fails in its second half: with 8190 bytes stored, a feed
    of four bytes keeps all 8190 old bytes, stores the first two new ones
    and leaves out the last two; the buffer is not the newest 8192 bytes
    of the input. *)
Lemma overflow_keeps_oldest_bytes :
  fst (pcat_pmu_receive_buf nearly_full_world [1; 2; 3; 4]) = 2
  /\ pmu_length (w_pmu (snd (pcat_pmu_receive_buf nearly_full_world [1; 2; 3; 4])))
     = 8192
  /\ bytes_at (pmu_buffer (w_pmu (snd (pcat_pmu_receive_buf nearly_full_world
                                         [1; 2; 3; 4])))) 0 8192
     = bytes_at (pmu_buffer (w_pmu nearly_full_world)) 0 8190 ++ [1; 2]
  /\ bytes_at (pmu_buffer (w_pmu (snd (pcat_pmu_receive_buf nearly_full_world
                                         [1; 2; 3; 4])))) 0 8192
     <> drop 2 (bytes_at (pmu_buffer (w_pmu nearly_full_world)) 0 8190
                ++ [1; 2; 3; 4]).
Proof.
  split; [vm_compute; reflexivity|].
  split; [vm_compute; reflexivity|].
  split; [vm_compute; reflexivity|].
  intros H. apply (f_equal (fun l => byte_at l 0)) in H.
  vm_compute in H. discriminate H.
Qed.

(** C7: after a feed of at least one byte the buffer holds what the copy
    put there; its length stays as the copy left it exactly when the
    checks ask for more bytes (the return value -EAGAIN), and is reset to
    0 in every other case. *)
Theorem receive_buf_keeps_iff_need_more (w : world) (buf : list Z) :
  buf <> [] ->
  buffer_ok w ->
  Z.of_nat (length buf) < 2 ^ 63 ->
  let w1 := snd (pcat_pmu_receive_buf_copy w buf) in
  let c := pcat_process_data_check (pmu_buffer (w_pmu w1))
             (pmu_length (w_pmu w1)) in
  let ret := fst (pcat_process_data w1 (pmu_buffer (w_pmu w1))
                    (pmu_length (w_pmu w1))) in
  let w' := snd (pcat_pmu_receive_buf w buf) in
  (ret = - EAGAIN <-> need_more c)
  /\ pmu_buffer (w_pmu w') = pmu_buffer (w_pmu w1)
  /\ 0 < pmu_length (w_pmu w1)
  /\ (pmu_length (w_pmu w') = pmu_length (w_pmu w1) <-> need_more c)
  /\ (pmu_length (w_pmu w') = 0 <-> ~ need_more c).
Proof.
  intros Hne Hok Hsize w1 c ret w'.
  assert (Hret : ret = - EAGAIN <-> need_more c).
  { unfold ret. rewrite process_data_ret. apply check_ret_eagain. }
  pose proof (receive_buf_result w buf Hne) as Hres.
  pose proof (receive_buf_copy_spec w buf Hok Hsize) as Hcopy.
  cbv zeta in Hcopy.
  assert (Hpos : 0 < pmu_length (w_pmu w1)).
  { unfold w1. rewrite Hcopy.
    cbn [snd set_pmu w_pmu set_length pmu_length].
    destruct Hok as [_ Hr]. unfold sizeof_buffer in *.
    assert (0 < Z.of_nat (length buf)) by (destruct buf; [done | cbn; lia]).
    lia. }
  subst w1 w'.
  destruct (pcat_pmu_receive_buf_copy w buf) as [processed w1].
  destruct (pcat_pmu_receive_buf w buf) as [processed' w'].
  cbn [snd] in *. fold c in Hres.
  destruct Hres as (_ & Hb & Hkeep & Hclear).
  assert (Hdec : need_more c \/ ~ need_more c)
    by (unfold need_more; destruct c; intuition discriminate).
  split; [exact Hret|]. split; [exact Hb|]. split; [exact Hpos|].
  destruct Hdec as [Hn | Hn].
  - specialize (Hkeep Hn). split; split; try done. lia.
  - specialize (Hclear Hn). split; split; try done. lia.
Qed.

Lemma receive_buf_keeps_iff_need_more_witness :
  [1; 2; 3; 4] <> []
  /\ buffer_ok nearly_full_world
  /\ Z.of_nat (length [1; 2; 3; 4]) < 2 ^ 63
  /\ (pmu_length (w_pmu (snd (pcat_pmu_receive_buf nearly_full_world [1; 2; 3; 4])))
      = pmu_length (w_pmu (snd (pcat_pmu_receive_buf_copy nearly_full_world
                                  [1; 2; 3; 4])))
      <-> need_more (pcat_process_data_check
                       (pmu_buffer (w_pmu (snd (pcat_pmu_receive_buf_copy
                                                  nearly_full_world [1; 2; 3; 4]))))
                       (pmu_length (w_pmu (snd (pcat_pmu_receive_buf_copy
                                                  nearly_full_world [1; 2; 3; 4])))))).
Proof.
  assert (H1 : [1; 2; 3; 4] <> []) by discriminate.
  assert (H3 : Z.of_nat (length [1; 2; 3; 4]) < 2 ^ 63) by (cbn; lia).
  split; [exact H1|]. split; [exact nearly_full_world_ok|]. split; [exact H3|].
  exact (proj1 (proj2 (proj2 (proj2
           (receive_buf_keeps_iff_need_more nearly_full_world [1; 2; 3; 4]
              H1 nearly_full_world_ok H3))))).
Defined.

(** ** The receive path and the request objects *)

Lemma req_at_same_requests w w' q :
  w_requests w' = w_requests w -> req_at w' q = req_at w q.
Proof. unfold req_at. by intros ->. Qed.

Lemma req_static_upd p f w q :
  (forall r, req_static (f r) = req_static r) ->
  req_static (req_at (upd_req p f w) q) = req_static (req_at w q).
Proof.
  intros Hf. destruct (decide (p = q)) as [-> | Hne].
  - by rewrite req_at_upd_req.
  - by rewrite req_at_upd_req_ne.
Qed.

Lemma process_reply_static w frame q :
  req_static (req_at (snd (pcat_process_reply w frame)) q)
  = req_static (req_at w q)
  /\ w_tx_ret (snd (pcat_process_reply w frame)) = w_tx_ret w.
Proof.
  destruct (pcat_process_reply w frame) as [[] w'] eqn:E; cbn [snd].
  - unfold pcat_process_reply in E.
    destruct (pmu_reply (w_pmu w)) as [rp|]; [|done].
    destruct (negb _); [done|].
    set (w1 := if req_want (req_at w rp) =? 0 then _ else _) in *.
    assert (H1 : req_static (req_at w1 q) = req_static (req_at w q)
                  /\ w_tx_ret w1 = w_tx_ret w).
    { unfold w1. destruct (_ =? _); [|done].
      split; [|done]. apply req_static_upd. by intros []. }
    destruct H1 as [H1 H1'].
    destruct (negb _); [done|].
    destruct (completion_done _); [done|].
    destruct (0 <? d_size frame).
    + destruct (devm_kzalloc _ _) as [buf wk] eqn:Ek.
      pose proof (devm_kzalloc_frame
                    (upd_req rp (set_reply_head_foot (d_head frame) (d_foot frame)) w1)
                    (d_size frame + 1)) as Hk.
      rewrite Ek in Hk. cbn [snd] in Hk.
      destruct Hk as (_ & Hrq & _ & Hret & _).
      assert (Hk1 : req_static (req_at wk q) = req_static (req_at w q)).
      { rewrite (req_at_same_requests _ _ q Hrq), <- H1.
        apply req_static_upd. by intros []. }
      destruct (reply_data _); inversion E; subst; cbn [w_tx_ret set_pmu upd_req];
        (split; [|by rewrite Hret]); rewrite req_at_set_pmu;
        rewrite !req_static_upd by (by intros []); exact Hk1.
    + inversion E; subst. cbn [w_tx_ret set_pmu upd_req]. split; [|done].
      rewrite req_at_set_pmu. rewrite !req_static_upd by (by intros []).
      exact H1.
  - destruct (process_reply_false _ _ _ E) as [-> | (rp & _ & ->)]; [done|].
    split; [|done]. apply req_static_upd. by intros [].
Qed.

Lemma raw_write_tx_ret_nil w frame_id cmd need_ack data len :
  w_tx_ret w = [] ->
  w_tx_ret (snd (pcat_pmu_raw_write w frame_id cmd need_ack data len)) = [].
Proof. intros H. by rewrite raw_write_ok. Qed.

Lemma process_data_static w data len q :
  req_static (req_at (snd (pcat_process_data w data len)) q)
  = req_static (req_at w q)
  /\ (w_tx_ret w = [] -> w_tx_ret (snd (pcat_process_data w data len)) = []).
Proof.
  unfold pcat_process_data.
  destruct (pcat_process_data_check data len) as [| | | | | | | |frame]; try done.
  pose proof (process_reply_static w frame q) as [Hs Hr].
  destruct (pcat_process_reply w frame) as [[] w1]; cbn [snd] in *.
  { split; [done | congruence]. }
  unfold blocking_notifier_call_chain.
  destruct (_ && _); [|split; [done | cbn; congruence]].
  match goal with
  | |- context [pcat_pmu_raw_write ?a ?b ?c ?d ?e ?f] =>
      pose proof (raw_write_req_at a b c d e f q) as Hq;
      pose proof (raw_write_tx_ret_nil a b c d e f) as Hn;
      destruct (pcat_pmu_raw_write a b c d e f) as [r3 w3]
  end.
  cbn [snd] in *. split.
  - rewrite Hq. exact Hs.
  - intros H0. apply Hn. cbn. congruence.
Qed.

Lemma receive_buf_copy_frame w buf :
  let w1 := snd (pcat_pmu_receive_buf_copy w buf) in
  pmu_reply (w_pmu w1) = pmu_reply (w_pmu w)
  /\ pmu_notifier_list (w_pmu w1) = pmu_notifier_list (w_pmu w)
  /\ pmu_frame (w_pmu w1) = pmu_frame (w_pmu w)
  /\ w_requests w1 = w_requests w /\ w_tx w1 = w_tx w
  /\ w_tx_ret w1 = w_tx_ret w /\ w_kzalloc w1 = w_kzalloc w
  /\ w_rx w1 = w_rx w /\ w_notified w1 = w_notified w.
Proof.
  unfold pcat_pmu_receive_buf_copy. destruct (_ >? _); cbn; done.
Qed.

Lemma receive_buf_static w buf q :
  req_static (req_at (snd (pcat_pmu_receive_buf w buf)) q)
  = req_static (req_at w q)
  /\ (w_tx_ret w = [] -> w_tx_ret (snd (pcat_pmu_receive_buf w buf)) = [])
  /\ w_rx (snd (pcat_pmu_receive_buf w buf)) = w_rx w.
Proof.
  unfold pcat_pmu_receive_buf.
  destruct (_ <=? 0); [done|].
  pose proof (receive_buf_copy_frame w buf) as Hc.
  destruct (pcat_pmu_receive_buf_copy w buf) as [processed w1].
  cbn [snd] in Hc. destruct Hc as (_ & _ & _ & Hrq & _ & Hret & _ & Hrx & _).
  pose proof (process_data_static w1 (pmu_buffer (w_pmu w1)) (pmu_length (w_pmu w1)) q)
    as [Hs Hn].
  pose proof (process_data_pmu_rest w1 (pmu_buffer (w_pmu w1)) (pmu_length (w_pmu w1)))
    as [_ Hrx2].
  destruct (pcat_process_data w1 _ _) as [ret w2]. cbn [snd] in *.
  rewrite (req_at_same_requests _ _ q Hrq) in Hs.
  destruct (negb _); cbn [snd set_pmu w_tx_ret w_rx]; rewrite ?req_at_set_pmu;
    (split; [exact Hs|]); (split; [intros H0; apply Hn; congruence|]); congruence.
Qed.

Lemma rx_deliver_static w q :
  req_static (req_at (rx_deliver w) q) = req_static (req_at w q)
  /\ (w_tx_ret w = [] -> w_tx_ret (rx_deliver w) = [])
  /\ w_rx (rx_deliver w) = tl (w_rx w).
Proof.
  unfold rx_deliver.
  set (w0 := mk_world _ _ _ _ _ _ _).
  assert (H0 : req_static (req_at w0 q) = req_static (req_at w q)
               /\ (w_tx_ret w = [] -> w_tx_ret w0 = [])
               /\ w_rx w0 = tl (w_rx w)) by done.
  clearbody w0. revert w0 H0.
  induction (hd [] (w_rx w)) as [|buf feeds IH]; intros w0 H0; cbn [fold_left].
  - exact H0.
  - apply IH. destruct H0 as (Hs & Hn & Hrx).
    destruct (receive_buf_static w0 buf q) as (Hs' & Hn' & Hrx').
    split; [congruence|]. split; [auto | congruence].
Qed.

(** ** A request while the receive path runs *)

Lemma pending_same w w' p :
  w_pmu w' = w_pmu w -> w_requests w' = w_requests w ->
  pending w p -> pending w' p.
Proof.
  unfold pending. intros Hp Hr. rewrite (req_at_same_requests _ _ p Hr), Hp.
  done.
Qed.

Lemma process_reply_waiting w frame p :
  waiting_or_done w p -> waiting_or_done (snd (pcat_process_reply w frame)) p.
Proof.
  intros [(Hslot & Hrecv & Hdata) | (Hslot & Hdone)].
  - pose proof (process_reply_cases w frame p Hslot) as Hc. cbv zeta in Hc.
    destruct Hc as [(_ & ->) | [(_ & _ & ->) | (_ & _ & _ & w' & -> & Hs & Hr & _)]];
      cbn [snd].
    + left. done.
    + left. destruct (req_want (req_at w p) =? 0); [|done].
      unfold pending. rewrite req_at_upd_req. cbn. done.
    + right. split; [exact Hs|]. unfold completion_done. rewrite Hr, Hrecv.
      reflexivity.
  - right. unfold pcat_process_reply. rewrite Hslot. done.
Qed.

Lemma process_data_waiting w data len p :
  waiting_or_done w p -> waiting_or_done (snd (pcat_process_data w data len)) p.
Proof.
  intros Hw. unfold pcat_process_data.
  destruct (pcat_process_data_check data len) as [| | | | | | | |frame]; try done.
  pose proof (process_reply_waiting w frame p Hw) as H1.
  destruct (pcat_process_reply w frame) as [[] w1]; cbn [snd] in *; [done|].
  unfold blocking_notifier_call_chain.
  assert (H2 : forall w2, w_pmu w2 = w_pmu w1 -> w_requests w2 = w_requests w1 ->
                          waiting_or_done w2 p).
  { intros w2 Hp Hr. unfold waiting_or_done, pending in *.
    rewrite (req_at_same_requests _ _ p Hr), Hp. exact H1. }
  destruct (_ && _); [|by apply H2].
  match goal with
  | |- context [pcat_pmu_raw_write ?a ?b ?c ?d ?e ?f] =>
      pose proof (raw_write_frame a b c d e f) as Hf;
      destruct (pcat_pmu_raw_write a b c d e f) as [r3 w3]
  end.
  cbn [snd] in *. destruct Hf as (Hp & Hr & _). by apply H2.
Qed.

Lemma receive_buf_waiting w buf p :
  waiting_or_done w p -> waiting_or_done (snd (pcat_pmu_receive_buf w buf)) p.
Proof.
  intros Hw. unfold pcat_pmu_receive_buf.
  destruct (_ <=? 0); [done|].
  pose proof (receive_buf_copy_frame w buf) as Hc.
  destruct (pcat_pmu_receive_buf_copy w buf) as [processed w1].
  cbn [snd] in Hc. destruct Hc as (Hslot & _ & _ & Hrq & _).
  assert (H1 : waiting_or_done w1 p).
  { unfold waiting_or_done, pending in *.
    rewrite (req_at_same_requests _ _ p Hrq), Hslot. exact Hw. }
  pose proof (process_data_waiting w1 (pmu_buffer (w_pmu w1))
                (pmu_length (w_pmu w1)) p H1) as H2.
  destruct (pcat_process_data w1 _ _) as [ret w2]. cbn [snd] in *.
  destruct (negb _); cbn [snd]; [|exact H2].
  unfold waiting_or_done, pending in *. rewrite req_at_set_pmu. exact H2.
Qed.

Lemma rx_deliver_waiting w p :
  waiting_or_done w p -> waiting_or_done (rx_deliver w) p.
Proof.
  intros Hw. unfold rx_deliver.
  set (w0 := mk_world _ _ _ _ _ _ _).
  assert (H0 : waiting_or_done w0 p) by exact Hw.
  clearbody w0. revert w0 H0.
  induction (hd [] (w_rx w)) as [|buf feeds IH]; intros w0 H0; cbn [fold_left].
  - exact H0.
  - apply IH. by apply receive_buf_waiting.
Qed.

(** With the pending slot empty the receive path reaches no request. *)
Lemma process_data_idle w data len :
  pmu_reply (w_pmu w) = None ->
  pmu_reply (w_pmu (snd (pcat_process_data w data len))) = None
  /\ w_requests (snd (pcat_process_data w data len)) = w_requests w.
Proof.
  intros Hslot. unfold pcat_process_data.
  destruct (pcat_process_data_check data len) as [| | | | | | | |frame]; try done.
  unfold pcat_process_reply. rewrite Hslot.
  unfold blocking_notifier_call_chain.
  destruct (_ && _); [|done].
  match goal with
  | |- context [pcat_pmu_raw_write ?a ?b ?c ?d ?e ?f] =>
      pose proof (raw_write_frame a b c d e f) as Hf;
      destruct (pcat_pmu_raw_write a b c d e f) as [r3 w3]
  end.
  cbn [snd] in *. destruct Hf as (Hp & Hr & _). rewrite Hp, Hr. done.
Qed.

Lemma receive_buf_idle w buf :
  pmu_reply (w_pmu w) = None ->
  pmu_reply (w_pmu (snd (pcat_pmu_receive_buf w buf))) = None
  /\ w_requests (snd (pcat_pmu_receive_buf w buf)) = w_requests w.
Proof.
  intros Hslot. unfold pcat_pmu_receive_buf.
  destruct (_ <=? 0); [done|].
  pose proof (receive_buf_copy_frame w buf) as Hc.
  destruct (pcat_pmu_receive_buf_copy w buf) as [processed w1].
  cbn [snd] in Hc. destruct Hc as (Hs1 & _ & _ & Hrq & _).
  pose proof (process_data_idle w1 (pmu_buffer (w_pmu w1))
                (pmu_length (w_pmu w1)) ltac:(congruence)) as H2.
  destruct (pcat_process_data w1 _ _) as [ret w2]. cbn [snd] in *.
  destruct H2 as (H2 & H3).
  destruct (negb _); cbn [snd set_pmu w_pmu w_requests set_length pmu_reply];
    (split; [exact H2 | congruence]).
Qed.

Lemma rx_deliver_idle w :
  pmu_reply (w_pmu w) = None ->
  pmu_reply (w_pmu (rx_deliver w)) = None
  /\ w_requests (rx_deliver w) = w_requests w.
Proof.
  intros Hslot. unfold rx_deliver.
  set (w0 := mk_world _ _ _ _ _ _ _).
  assert (H0 : pmu_reply (w_pmu w0) = None /\ w_requests w0 = w_requests w)
    by done.
  clearbody w0. revert w0 H0.
  induction (hd [] (w_rx w)) as [|buf feeds IH]; intros w0 H0; cbn [fold_left].
  - exact H0.
  - apply IH. destruct H0 as (H0 & H1).
    destruct (receive_buf_idle w0 buf H0) as (H2 & H3).
    split; [exact H2 | congruence].
Qed.

(** A completion that has fired stays fired while the receive path runs. *)
Lemma rx_deliver_done w p :
  waiting_or_done w p ->
  completion_done (req_at w p) = true ->
  completion_done (req_at (rx_deliver w) p) = true.
Proof.
  intros [(_ & Hr & _) | (Hslot & Hd)] Hdone.
  - unfold completion_done in Hdone. rewrite Hr in Hdone. discriminate.
  - destruct (rx_deliver_idle w Hslot) as (_ & Hrq).
    by rewrite (req_at_same_requests _ _ p Hrq).
Qed.

Lemma waiting_not_done w p :
  waiting_or_done w p -> completion_done (req_at w p) = false -> pending w p.
Proof. intros [H | [_ H]] Hd; [exact H | congruence]. Qed.

(** ** pcat_pmu_execute *)

Lemma request_frame_static r r' :
  req_static r = req_static r' -> request_frame r = request_frame r'.
Proof.
  unfold req_static, request_frame. intros [= -> -> -> ->]. reflexivity.
Qed.

Lemma execute_round_static frame w q :
  req_static (req_at (execute_round frame w) q) = req_static (req_at w q)
  /\ (w_tx_ret w = [] -> w_tx_ret (execute_round frame w) = []).
Proof.
  unfold execute_round.
  destruct (rx_deliver_static (tx_append frame w) q) as (Hs & Hn & _).
  destruct (rx_deliver_static (rx_deliver (tx_append frame w)) q)
    as (Hs' & Hn' & _).
  split; [rewrite Hs'; exact Hs | intros H; apply Hn', Hn, H].
Qed.

Lemma execute_round_waiting frame w p :
  waiting_or_done w p -> waiting_or_done (execute_round frame w) p.
Proof.
  intros Hw. unfold execute_round. do 2 apply rx_deliver_waiting. exact Hw.
Qed.

Lemma iter_round_succ n frame w :
  Nat.iter n (execute_round frame) (execute_round frame w)
  = Nat.iter (S n) (execute_round frame) w.
Proof.
  symmetry. apply Nat.iter_succ_r.
Qed.

(** One pass of the loop that times out. *)
Lemma execute_loop_step fuel retries w p :
  w_tx_ret w = [] ->
  pending w p ->
  completion_done (req_at (execute_round (request_frame (req_at w p)) w) p) = false ->
  pcat_pmu_execute_loop (S fuel) retries w p =
  if retries <? 3
  then pcat_pmu_execute_loop fuel (retries + 1)
         (execute_round (request_frame (req_at w p)) w) p
  else Some (pcat_pmu_execute_fail (- ETIMEDOUT)
               (execute_round (request_frame (req_at w p)) w)).
Proof.
  intros Hret Hpend Hdone. cbn [pcat_pmu_execute_loop].
  rewrite raw_write_ok by done.
  change (4 <? 0) with false. cbv iota.
  fold (request_frame (req_at w p)).
  set (F := request_frame (req_at w p)) in *.
  assert (Hpend1 : pending (tx_append F w) p) by exact Hpend.
  unfold wait_for_completion_timeout.
  replace (completion_done (req_at (tx_append F w) p)) with false
    by (destruct Hpend1 as (_ & Hr & _); unfold completion_done;
        by rewrite Hr).
  pose proof (rx_deliver_waiting _ p (or_introl Hpend1)) as Hw1.
  destruct (completion_done (req_at (rx_deliver (tx_append F w)) p)) eqn:E1.
  { pose proof (rx_deliver_done _ p Hw1 E1) as H.
    unfold execute_round in Hdone. congruence. }
  change (0 =? 0) with true. cbv iota. reflexivity.
Qed.

Lemma execute_loop_timeouts p frame :
  forall n fuel retries w,
    (1 <= n <= 4)%nat -> (n <= fuel)%nat -> retries = 4 - Z.of_nat n ->
    w_tx_ret w = [] ->
    pending w p ->
    request_frame (req_at w p) = frame ->
    (forall k, (1 <= k <= n)%nat ->
               completion_done (req_at (Nat.iter k (execute_round frame) w) p) = false) ->
    pcat_pmu_execute_loop fuel retries w p
    = Some (- ETIMEDOUT,
            set_pmu (set_reply None) (Nat.iter n (execute_round frame) w)).
Proof.
  induction n as [|n IH];
    intros fuel retries w Hn Hfuel Hretries Hret Hpend Hframe Hdone; [lia|].
  destruct fuel as [|fuel]; [lia|].
  rewrite execute_loop_step;
    [|done|done|rewrite Hframe; apply (Hdone 1%nat); lia].
  rewrite Hframe.
  destruct n as [|n].
  - replace (retries <? 3) with false by (symmetry; apply Z.ltb_ge; lia).
    reflexivity.
  - replace (retries <? 3) with true by (symmetry; apply Z.ltb_lt; lia).
    destruct (execute_round_static frame w p) as [Hs Hn'].
    rewrite IH; try lia.
    + by rewrite iter_round_succ.
    + auto.
    + apply waiting_not_done.
      * apply execute_round_waiting. by left.
      * apply (Hdone 1%nat). lia.
    + rewrite <- Hframe at 2. apply request_frame_static. exact Hs.
    + intros k Hk. rewrite iter_round_succ. apply Hdone. lia.
Qed.

Lemma execute_begin_frame w p :
  let w0 := pcat_pmu_execute_begin w p in
  w_tx w0 = w_tx w /\ w_tx_ret w0 = w_tx_ret w /\ w_rx w0 = w_rx w
  /\ pending w0 p.
Proof.
  unfold pcat_pmu_execute_begin, pending.
  set (w1 := upd_req p _ w).
  assert (H1 : w_tx w1 = w_tx w /\ w_tx_ret w1 = w_tx_ret w /\ w_rx w1 = w_rx w
               /\ req_received (req_at w1 p) = 0
               /\ reply_data (req_at w1 p) = None).
  { unfold w1. rewrite req_at_upd_req. done. }
  clearbody w1.
  set (w2 := if req_frame_id (req_at w1 p) =? 0 then _ else w1).
  assert (H2 : w_tx w2 = w_tx w /\ w_tx_ret w2 = w_tx_ret w /\ w_rx w2 = w_rx w
               /\ req_received (req_at w2 p) = 0
               /\ reply_data (req_at w2 p) = None).
  { unfold w2. destruct (_ =? 0); [|done].
    cbn [atomic_inc_return_frame]. rewrite req_at_upd_req.
    cbn. unfold req_at in *. cbn. done. }
  clearbody w2.
  set (w3 := set_pmu (set_reply (Some p)) w2).
  destruct (req_want (req_at w3 p) =? 0).
  - rewrite req_at_upd_req. cbn. unfold w3. rewrite req_at_set_pmu. cbn.
    intuition congruence.
  - unfold w3. rewrite req_at_set_pmu. cbn. intuition congruence.
Qed.

Lemma rx_deliver_quiet w : w_rx w = [] -> rx_deliver w = w.
Proof.
  intros H. unfold rx_deliver. rewrite H. cbn. destruct w; cbn in *.
  by subst.
Qed.

Lemma iter_4 {A} (f : A -> A) (x : A) : Nat.iter 4 f x = f (f (f (f x))).
Proof. reflexivity. Qed.

Lemma w_tx_set_pmu f w : w_tx (set_pmu f w) = w_tx w.
Proof. reflexivity. Qed.

Lemma w_tx_tx_append bytes w : w_tx (tx_append bytes w) = w_tx w ++ bytes.
Proof. reflexivity. Qed.

Lemma w_rx_tx_append bytes w : w_rx (tx_append bytes w) = w_rx w.
Proof. reflexivity. Qed.

Lemma pmu_reply_set_reply v w : pmu_reply (w_pmu (set_pmu (set_reply v) w)) = v.
Proof. reflexivity. Qed.

(** C3: when every write succeeds and no reply completes the request (the
    completion has not fired when a wait ends, nor before the caller's
    next step, in each of the four passes), [pcat_pmu_execute] ends after
    exactly four passes, each of which puts the same frame (the request's
    frame id and command) on the wire and lets the receive path run; it
    then clears the pending-request slot and returns -ETIMEDOUT. More fuel does not
    make it try a fifth time. On a link that delivers nothing the wire
    gains that frame four times and nothing else. *)
Theorem execute_retry_bound (fuel : nat) (w : world) (p : Z) :
  (4 <= fuel)%nat ->
  w_tx_ret w = [] ->
  let w0 := pcat_pmu_execute_begin w p in
  let frame := request_frame (req_at w0 p) in
  (forall k, (1 <= k <= 4)%nat ->
     completion_done (req_at (Nat.iter k (execute_round frame) w0) p) = false) ->
  let w' := set_pmu (set_reply None) (Nat.iter 4 (execute_round frame) w0) in
  pcat_pmu_execute fuel w p = Some (- ETIMEDOUT, w')
  /\ pmu_reply (w_pmu w') = None
  /\ (w_rx w = [] -> w_tx w' = w_tx w ++ frame ++ frame ++ frame ++ frame).
Proof.
  intros Hfuel Hret w0 frame Hdone w'.
  destruct (execute_begin_frame w p) as (Htx & Hr & Hrx & Hpend).
  fold w0 in Htx, Hr, Hrx, Hpend.
  split; [|split].
  - unfold pcat_pmu_execute. fold w0.
    apply (execute_loop_timeouts p frame 4); try done; try lia. congruence.
  - apply pmu_reply_set_reply.
  - intros Hq. unfold w'. rewrite w_tx_set_pmu.
    assert (Hround : forall x, w_rx x = [] ->
                               execute_round frame x = tx_append frame x)
      by (intros x Hx; unfold execute_round;
          rewrite (rx_deliver_quiet (tx_append frame x)) by exact Hx;
          by apply rx_deliver_quiet).
    assert (Hq0 : w_rx w0 = []) by congruence.
    rewrite iter_4.
    rewrite (Hround w0) by exact Hq0.
    rewrite (Hround (tx_append frame w0))
      by (rewrite w_rx_tx_append; exact Hq0).
    rewrite (Hround (tx_append frame (tx_append frame w0)))
      by (rewrite !w_rx_tx_append; exact Hq0).
    rewrite (Hround (tx_append frame (tx_append frame (tx_append frame w0))))
      by (rewrite !w_rx_tx_append; exact Hq0).
    rewrite !w_tx_tx_append, Htx, <- !app_assoc. reflexivity.
Qed.

Lemma execute_retry_bound_witness :
  (4 <= 7)%nat
  /\ w_tx_ret (local_request 100 0x03 [] 0 noisy_world) = []
  /\ fst <$> pcat_pmu_execute 7 (local_request 100 0x03 [] 0 noisy_world) 100
     = Some (- ETIMEDOUT).
Proof.
  assert (H1 : (4 <= 7)%nat) by lia.
  assert (H2 : w_tx_ret (local_request 100 0x03 [] 0 noisy_world) = [])
    by reflexivity.
  split; [exact H1|]. split; [exact H2|].
  pose proof (execute_retry_bound 7 (local_request 100 0x03 [] 0 noisy_world)
                100 H1 H2) as H.
  cbv zeta in H.
  destruct H as (He & _).
  - intros k Hk.
    assert (Hc : k = 1%nat \/ k = 2%nat \/ k = 3%nat \/ k = 4%nat) by lia.
    destruct Hc as [-> | [-> | [-> | ->]]]; vm_compute; reflexivity.
  - rewrite He. reflexivity.
Defined.

(** [pcat_pmu_execute] returns within four passes, in every state. *)
Lemma execute_loop_returns p :
  forall fuel retries w,
    0 <= retries <= 3 -> (Z.to_nat (4 - retries) <= fuel)%nat ->
    exists ret w', pcat_pmu_execute_loop fuel retries w p = Some (ret, w').
Proof.
  induction fuel as [|fuel IH]; intros retries w Hr Hfuel; [lia|].
  cbn [pcat_pmu_execute_loop].
  destruct (pcat_pmu_raw_write w _ _ true _ _) as [r1 w1].
  destruct (r1 <? 0); [by eexists _, _|].
  destruct (wait_for_completion_timeout w1 p) as [remaining w2].
  destruct (remaining =? 0); [|by eexists _, _].
  destruct (retries <? 3) eqn:E3; [|by eexists _, _].
  apply Z.ltb_lt in E3. apply IH; lia.
Qed.

(** A request that [pcat_pmu_execute] gives up on without its completion
    having fired has no reply buffer. *)
Lemma execute_loop_unanswered p :
  forall fuel retries w ret w',
    waiting_or_done w p ->
    pcat_pmu_execute_loop fuel retries w p = Some (ret, w') ->
    ret <> 0 ->
    req_received (req_at w' p) = 0 ->
    reply_data (req_at w' p) = None.
Proof.
  induction fuel as [|fuel IH]; intros retries w ret w' Hw He Hret Hrecv;
    [done|].
  cbn [pcat_pmu_execute_loop] in He.
  match type of He with
  | context [pcat_pmu_raw_write ?a ?b ?c ?d ?e ?f] =>
      pose proof (raw_write_frame a b c d e f) as Hf;
      destruct (pcat_pmu_raw_write a b c d e f) as [r1 w1]
  end.
  cbn [snd] in Hf. destruct Hf as (Hp & Hrq & _).
  assert (Hw1 : waiting_or_done w1 p).
  { unfold waiting_or_done, pending in *.
    rewrite (req_at_same_requests _ _ p Hrq), Hp. exact Hw. }
  assert (Hfail : forall x,
             waiting_or_done x p ->
             req_received (req_at (set_pmu (set_reply None) x) p) = 0 ->
             reply_data (req_at (set_pmu (set_reply None) x) p) = None).
  { intros x Hx. rewrite req_at_set_pmu. intros H0.
    destruct Hx as [(_ & _ & Hd) | (_ & Hd)]; [exact Hd|].
    unfold completion_done in Hd. rewrite H0 in Hd. discriminate. }
  unfold pcat_pmu_execute_fail in He.
  destruct (r1 <? 0).
  { inversion He; subst. by apply Hfail. }
  unfold wait_for_completion_timeout in He.
  destruct (completion_done (req_at w1 p)).
  { change (1 =? 0) with false in He. cbv iota in He.
    inversion He; subst. done. }
  pose proof (rx_deliver_waiting w1 p Hw1) as Hw2.
  destruct (completion_done (req_at (rx_deliver w1) p)).
  { change (1 =? 0) with false in He. cbv iota in He.
    inversion He; subst. done. }
  change (0 =? 0) with true in He. cbv iota in He.
  pose proof (rx_deliver_waiting _ p Hw2) as Hw3.
  destruct (retries <? 3).
  - by apply (IH _ _ _ _ Hw3 He).
  - inversion He; subst. by apply Hfail.
Qed.

(** ** pcat_pmu_read_string *)

Lemma byte_at_zeros n i : byte_at (zeros n) i = 0.
Proof.
  unfold byte_at, zeros. rewrite nth_lookup.
  destruct (replicate (Z.to_nat n) 0 !! Z.to_nat i) as [x|] eqn:E; [|done].
  apply lookup_replicate in E. cbn. tauto.
Qed.

Lemma memset0_all str :
  memset0 str (Z.of_nat (length str)) = zeros (Z.of_nat (length str)).
Proof.
  unfold memset0, zeros. rewrite Nat2Z.id. apply list_eq. intros i.
  rewrite list_lookup_imap.
  destruct (str !! i) as [x|] eqn:E; cbn.
  - pose proof (lookup_lt_Some _ _ _ E) as Hlt.
    replace (Z.of_nat i <? Z.of_nat (length str)) with true
      by (symmetry; apply Z.ltb_lt; lia).
    symmetry. by apply lookup_replicate_2.
  - symmetry. apply lookup_replicate_None. apply lookup_ge_None in E. lia.
Qed.

Lemma byte_at_memcpy dst off src n i :
  0 <= i < Z.of_nat (length dst) ->
  byte_at (memcpy dst off src n) i =
  if (off <=? i) && (i <? off + n) then byte_at src (i - off)
  else byte_at dst i.
Proof.
  intros Hi. unfold byte_at at 1. rewrite nth_lookup, memcpy_lookup.
  destruct (lookup_lt_is_Some_2 dst (Z.to_nat i) ltac:(lia)) as [x Hx].
  rewrite Hx. cbn. rewrite Z2Nat.id by lia.
  destruct (_ && _); [reflexivity|].
  unfold byte_at. rewrite nth_lookup, Hx. reflexivity.
Qed.

Lemma length_zeros n : length (zeros n) = Z.to_nat n.
Proof. unfold zeros. apply length_replicate. Qed.

(** C9, as the code has it: with a buffer of len >= 1 bytes,
    [pcat_pmu_read_string] clears the buffer, runs the exchange and returns
    with the buffer still len bytes long and its last byte 0, whatever the
    exchange returns; when the request got a reply buffer, the first
    min(len - 1, reply size) bytes are the first bytes of that buffer and
    the rest is 0; when it got none the buffer is all zero, and it has
    none when the exchange fails without the completion of the request
    having fired. The copy looks at the reply buffer alone and not at the
    result of the exchange. *)
Theorem read_string_nul_terminated (fuel : nat) (w : world) (p cmd : Z)
    (str : list Z) (len : Z) :
  (4 <= fuel)%nat ->
  1 <= len < 2 ^ 64 ->
  len = Z.of_nat (length str) ->
  memset0 str len = zeros len
  /\ exists ret str' w',
       pcat_pmu_read_string fuel w p cmd str len = Some (ret, str', w')
       /\ length str' = length str
       /\ byte_at str' (len - 1) = 0
       /\ (forall d, reply_data (req_at w' p) = Some d ->
             let n := Z.min (len - 1) (reply_size (req_at w' p)) in
             forall i, 0 <= i < len ->
                       byte_at str' i = if i <? n then byte_at d i else 0)
       /\ (reply_data (req_at w' p) = None -> str' = zeros len)
       /\ (ret <> 0 -> req_received (req_at w' p) = 0 -> str' = zeros len).
Proof.
  intros Hfuel Hlen Hstr.
  assert (Hz : memset0 str len = zeros len) by (subst len; apply memset0_all).
  split; [exact Hz|].
  unfold pcat_pmu_read_string, pcat_pmu_execute. rewrite Hz.
  set (w0 := local_request p cmd [] 0 w).
  destruct (execute_loop_returns p fuel 0 (pcat_pmu_execute_begin w0 p)
              ltac:(lia) ltac:(lia)) as (ret & w1 & He).
  rewrite He.
  assert (Hun : ret <> 0 -> req_received (req_at w1 p) = 0 ->
                reply_data (req_at w1 p) = None).
  { apply (execute_loop_unanswered p fuel 0 (pcat_pmu_execute_begin w0 p));
      [|exact He].
    left. by destruct (execute_begin_frame w0 p) as (_ & _ & _ & Hpend). }
  assert (Hzl : length (zeros len) = length str)
    by (rewrite length_zeros; lia).
  rewrite (to_size_t_small (len - 1)) by lia.
  destruct (reply_data (req_at w1 p)) as [d|] eqn:Ed.
  - eexists _, _, _. split; [reflexivity|].
    assert (Hb : forall i, 0 <= i < len ->
                   byte_at (memcpy (zeros len) 0 d
                              (Z.min (len - 1) (reply_size (req_at w1 p)))) i
                   = if i <? Z.min (len - 1) (reply_size (req_at w1 p))
                     then byte_at d i else 0).
    { intros i Hi. rewrite byte_at_memcpy by (rewrite Hzl; lia).
      replace (0 <=? i) with true by (symmetry; apply Z.leb_le; lia).
      rewrite Z.add_0_l, Z.sub_0_r, byte_at_zeros. reflexivity. }
    split; [by rewrite memcpy_length|].
    split.
    { rewrite Hb by lia.
      replace (len - 1 <? _) with false by (symmetry; apply Z.ltb_ge; lia).
      reflexivity. }
    split; [intros d' Hd'; rewrite Ed in Hd'; injection Hd' as <-; exact Hb|].
    split; [intros Hn; congruence|].
    intros Hr H0. specialize (Hun Hr H0). congruence.
  - eexists _, _, _. split; [reflexivity|].
    split; [exact Hzl|]. split; [apply byte_at_zeros|].
    split; [intros d' Hd'; congruence|]. done.
Qed.

Lemma read_string_nul_terminated_witness :
  (4 <= 4)%nat /\ 1 <= 3 < 2 ^ 64 /\ 3 = Z.of_nat (length [9; 9; 9])
  /\ exists ret w',
       pcat_pmu_read_string 4 version_world 100 0x03 [9; 9; 9] 3
       = Some (ret, [65; 66; 0], w').
Proof.
  assert (H1 : (4 <= 4)%nat) by lia.
  assert (H2 : 1 <= 3 < 2 ^ 64) by lia.
  assert (H3 : 3 = Z.of_nat (length [9; 9; 9])) by reflexivity.
  split; [exact H1|]. split; [exact H2|]. split; [exact H3|].
  destruct (read_string_nul_terminated 4 version_world 100 0x03 [9; 9; 9] 3
              H1 H2 H3) as (_ & ret & str' & w' & He & _).
  exists ret, w'. rewrite He. do 2 f_equal.
  assert (Hc : snd <$> (fst <$> pcat_pmu_read_string 4 version_world 100 0x03 [9; 9; 9] 3)
               = Some [65; 66; 0]) by (vm_compute; reflexivity).
  rewrite He in Hc. cbn in Hc. injection Hc as ->. reflexivity.
Defined.

(** C9 as stated fails in its last part: on a link where the reply lands
    when the fourth wait has timed out, before the caller reaches the
    [fail] label, the exchange fails with -ETIMEDOUT and the string holds
    the payload, not zero bytes. *)
Lemma failed_exchange_leaves_payload :
  (fun r => (fst (fst r), snd (fst r)))
    <$> pcat_pmu_read_string 4 late_world 100 0x03 [9; 9; 9; 9] 4
  = Some (- ETIMEDOUT, [65; 66; 67; 0])
  /\ [65; 66; 67; 0] <> zeros 4.
Proof.
  split; [vm_compute; reflexivity|].
  vm_compute. discriminate.
Qed.

(** * Further properties of the engine *)

(** ** Writes that fail *)

Lemma serdev_write_cases w buf :
  let '(r, w') := serdev_device_write_buf w buf in
  (r = Z.of_nat (length buf) /\ w_tx w' = w_tx w ++ buf
   /\ w_tx_ret w' = tl (w_tx_ret w))
  \/ (r < 0 /\ w_tx w' = w_tx w
      /\ exists rest, w_tx_ret w = r :: rest /\ w_tx_ret w' = rest).
Proof.
  unfold serdev_device_write_buf.
  destruct (w_tx_ret w) as [|r rest] eqn:E; cbn; [left; done|].
  destruct (r <? 0) eqn:Er.
  - right. apply Z.ltb_lt in Er. eauto.
  - left. done.
Qed.

Lemma In_tl {A} (x : A) l : In x (tl l) -> In x l.
Proof. destruct l; cbn; auto. Qed.

(** X1: [pcat_pmu_raw_write] either sends the whole frame and returns 4,
    the size of the foot, or returns the negative code of the write that
    failed, which is an entry of the transport's script, having sent
    nothing, the head alone, or the head and the body: a failed write
    leaves a truncated frame on the wire and nothing follows it. *)
Theorem raw_write_outcome (w : world) (frame_id cmd : Z) (need_ack : bool)
    (data : list Z) (len : Z) :
  let head := head_bytes (raw_write_head frame_id cmd len) in
  let body := bytes_at data 0 len in
  let '(ret, w') := pcat_pmu_raw_write w frame_id cmd need_ack data len in
  (ret = 4
   /\ w_tx w' = w_tx w ++ frame_bytes (raw_write_head frame_id cmd len) body need_ack)
  \/ (ret < 0 /\ In ret (w_tx_ret w)
      /\ (w_tx w' = w_tx w \/ w_tx w' = w_tx w ++ head
          \/ w_tx w' = w_tx w ++ head ++ body)).
Proof.
  intros head body. unfold pcat_pmu_raw_write. fold head body.
  pose proof (serdev_write_cases w head) as H1.
  destruct (serdev_device_write_buf w head) as [r1 w1].
  destruct H1 as [(Hr1 & Ht1 & Hs1) | (Hr1 & Ht1 & rest1 & Hs1 & _)].
  2:{ replace (r1 <? 0) with true by (symmetry; apply Z.ltb_lt; lia).
      right. split; [done|]. split; [rewrite Hs1; by left | by left]. }
  replace (r1 <? 0) with false by (symmetry; apply Z.ltb_ge; lia).
  pose proof (serdev_write_cases w1 body) as H2.
  destruct (serdev_device_write_buf w1 body) as [r2 w2].
  destruct H2 as [(Hr2 & Ht2 & Hs2) | (Hr2 & Ht2 & rest2 & Hs2 & _)].
  2:{ replace (r2 <? 0) with true by (symmetry; apply Z.ltb_lt; lia).
      right. split; [done|]. split.
      - apply In_tl. rewrite <- Hs1, Hs2. by left.
      - right. left. congruence. }
  replace (r2 <? 0) with false by (symmetry; apply Z.ltb_ge; lia).
  set (foot := foot_bytes _).
  pose proof (serdev_write_cases w2 foot) as H3.
  destruct (serdev_device_write_buf w2 foot) as [r3 w3].
  destruct H3 as [(Hr3 & Ht3 & Hs3) | (Hr3 & Ht3 & rest3 & Hs3 & _)].
  - left. split; [exact Hr3|].
    rewrite Ht3, Ht2, Ht1. unfold frame_bytes. fold head foot.
    by rewrite <- !app_assoc.
  - right. split; [done|]. split.
    + apply In_tl, In_tl. rewrite <- Hs1, <- Hs2, Hs3. by left.
    + right. right. rewrite Ht3, Ht2, Ht1. by rewrite <- app_assoc.
Qed.

(** ** pcat_pmu_send *)

Lemma to_u16_to_int v : to_u16 (to_int v) = to_u16 v.
Proof.
  unfold to_u16, to_int.
  Z.to_euclidean_division_equations. lia.
Qed.

Lemma raw_write_head_counter i cmd len :
  raw_write_head (to_u16 (to_int i)) cmd len = raw_write_head i cmd len.
Proof.
  unfold raw_write_head. f_equal.
  rewrite <- (to_u16_to_int i). unfold to_u16. apply Z.mod_mod. lia.
Qed.

Lemma raw_write_head_next i cmd len :
  raw_write_head (to_int (i + 1) + 1) cmd len = raw_write_head (i + 2) cmd len.
Proof.
  unfold raw_write_head. f_equal.
  unfold to_u16, to_int. Z.to_euclidean_division_equations. lia.
Qed.

Lemma frame_bytes_length head body need_ack :
  Z.of_nat (length (frame_bytes head body need_ack))
  = Z.of_nat (length body) + 13.
Proof.
  unfold frame_bytes.
  rewrite !length_app, head_bytes_length, foot_bytes_length. lia.
Qed.

Lemma frame_bytes_need_ack head body need_ack :
  byte_at (frame_bytes head body need_ack) (9 + Z.of_nat (length body))
  = Z.b2z need_ack.
Proof.
  unfold frame_bytes.
  change 9 with (Z.of_nat (length (head_bytes head))).
  rewrite byte_at_app_r' by lia.
  rewrite <- (Z.add_0_r (Z.of_nat (length body))).
  rewrite byte_at_app_r' by lia.
  by destruct need_ack.
Qed.

Lemma frame_bytes_frame_id frame_id cmd len body need_ack :
  u16_at (frame_bytes (raw_write_head frame_id cmd len) body need_ack) 3
  = frame_id mod 65536.
Proof.
  unfold frame_bytes.
  change (u16_at ?x 3) with (head_frame_id (head_of_bytes x)).
  rewrite head_of_head_bytes. cbn [head_frame_id raw_write_head].
  unfold to_u16. by rewrite Z.mod_mod by lia.
Qed.

(** X2: [pcat_pmu_send] registers nothing and waits for nothing: the
    pending slot, the request memory, the receive script and the
    subscriber record stay as they are whatever the transport does, and
    the counter advances by one, as a 32-bit int, even when a write fails.
    When the transport takes every write, two sends in a row put exactly
    two whole frames on the wire, each of head, body (the first len bytes
    of its data) and foot, 13 bytes more than its body; their frame ids
    are the counter plus one and plus two, modulo 65536, and both have
    need_ack 0. *)
Theorem send_fire_and_forget (w : world) (cmd1 cmd2 : Z) (data1 data2 : list Z)
    (len1 len2 : Z) :
  let w1 := snd (pcat_pmu_send w cmd1 data1 len1) in
  let w2 := snd (pcat_pmu_send w1 cmd2 data2 len2) in
  (pmu_reply (w_pmu w1) = pmu_reply (w_pmu w)
   /\ w_requests w1 = w_requests w /\ w_rx w1 = w_rx w
   /\ w_notified w1 = w_notified w
   /\ pmu_frame (w_pmu w1) = to_int (pmu_frame (w_pmu w) + 1))
  /\ (w_tx_ret w = [] ->
      let c := pmu_frame (w_pmu w) in
      let body1 := bytes_at data1 0 len1 in
      let body2 := bytes_at data2 0 len2 in
      let f1 := frame_bytes (raw_write_head (c + 1) cmd1 len1) body1 false in
      let f2 := frame_bytes (raw_write_head (c + 2) cmd2 len2) body2 false in
      w_tx w2 = w_tx w ++ f1 ++ f2
      /\ Z.of_nat (length f1) = Z.of_nat (length body1) + 13
      /\ Z.of_nat (length f2) = Z.of_nat (length body2) + 13
      /\ u16_at f1 3 = (c + 1) mod 65536
      /\ u16_at f2 3 = (c + 2) mod 65536
      /\ byte_at f1 (9 + Z.of_nat (length body1)) = 0
      /\ byte_at f2 (9 + Z.of_nat (length body2)) = 0).
Proof.
  intros w1 w2. split.
  { unfold w1, pcat_pmu_send, atomic_inc_return_frame.
    match goal with
    | |- context [pcat_pmu_raw_write ?a ?b ?c ?d ?e ?f] =>
        pose proof (raw_write_frame a b c d e f) as Hf;
        destruct (pcat_pmu_raw_write a b c d e f) as [r x]
    end.
    cbn [snd] in *. destruct Hf as (Hp & Hrq & _ & Hrx & Hn).
    rewrite Hp, Hrq, Hrx, Hn. done. }
  intros Hret c body1 body2 f1 f2.
  assert (Hsend : forall x cmd d l,
             w_tx_ret x = [] ->
             pcat_pmu_send x cmd d l =
             (4, tx_append
                   (frame_bytes (raw_write_head (pmu_frame (w_pmu x) + 1) cmd l)
                      (bytes_at d 0 l) false)
                   (set_pmu (set_frame (to_int (pmu_frame (w_pmu x) + 1))) x))).
  { intros x cmd d l Hx. unfold pcat_pmu_send, atomic_inc_return_frame.
    rewrite raw_write_ok by done. by rewrite raw_write_head_counter. }
  split.
  { unfold w2, w1. rewrite (Hsend w) by done. cbn [snd].
    rewrite Hsend by done. cbn [snd].
    cbn [tx_append w_tx set_pmu w_pmu pmu_frame set_frame].
    rewrite raw_write_head_next, <- app_assoc. reflexivity. }
  split; [apply frame_bytes_length|]. split; [apply frame_bytes_length|].
  split; [apply frame_bytes_frame_id|]. split; [apply frame_bytes_frame_id|].
  split; apply (frame_bytes_need_ack _ _ false).
Qed.

Lemma send_fire_and_forget_witness :
  w_tx_ret probe_world = []
  /\ w_tx (snd (pcat_pmu_send
                  (snd (pcat_pmu_send probe_world PCAT_CMD_HEARTBEAT [] 0))
                  PCAT_CMD_HEARTBEAT [7] 1))
     = w_tx probe_world
       ++ frame_bytes (raw_write_head 1 PCAT_CMD_HEARTBEAT 0) [] false
       ++ frame_bytes (raw_write_head 2 PCAT_CMD_HEARTBEAT 1) [7] false.
Proof.
  assert (H1 : w_tx_ret probe_world = []) by reflexivity.
  split; [exact H1|].
  destruct (send_fire_and_forget probe_world PCAT_CMD_HEARTBEAT
              PCAT_CMD_HEARTBEAT [] [7] 0 1) as (_ & H).
  destruct (H H1) as (Htx & _). exact Htx.
Defined.

(** ** The checks and the bytes they read *)

Lemma byte_at_take (data : list Z) (n : nat) (i : Z) :
  0 <= i < Z.of_nat n -> byte_at (take n data) i = byte_at data i.
Proof.
  intros Hi. unfold byte_at. rewrite !nth_lookup.
  rewrite lookup_take_lt by lia. reflexivity.
Qed.

Lemma bytes_at_take (data : list Z) (n : nat) (off k : Z) :
  0 <= off -> 0 <= k -> off + k <= Z.of_nat n ->
  bytes_at (take n data) off k = bytes_at data off k.
Proof.
  intros Hoff Hk Hn. unfold bytes_at. apply list_eq. intros i.
  destruct (decide (i < Z.to_nat k)%nat) as [Hlt | Hge].
  - rewrite !lookup_take_lt, !lookup_drop by lia.
    rewrite lookup_take_lt by lia. reflexivity.
  - rewrite !lookup_take_ge by lia. reflexivity.
Qed.

Lemma u16_at_take (data : list Z) (n : nat) (i : Z) :
  0 <= i -> i + 1 < Z.of_nat n -> u16_at (take n data) i = u16_at data i.
Proof.
  intros. unfold u16_at. by rewrite !byte_at_take by lia.
Qed.

Lemma check_take (data : list Z) (len : Z) :
  pcat_process_data_check (take (Z.to_nat len) data) len
  = pcat_process_data_check data len.
Proof.
  unfold pcat_process_data_check.
  destruct (len <? sizeof_head) eqn:E1; [reflexivity|].
  apply Z.ltb_ge in E1. unfold sizeof_head, sizeof_foot, U16_MAX in *.
  assert (Hh : head_of_bytes (take (Z.to_nat len) data) = head_of_bytes data).
  { unfold head_of_bytes.
    rewrite !u16_at_take, !byte_at_take by lia. reflexivity. }
  rewrite Hh.
  repeat match goal with
         | |- (if ?c then _ else _) = (if ?c then _ else _) =>
             destruct c eqn:?; [reflexivity|]
         end.
  set (L := head_length (head_of_bytes data)) in *.
  repeat match goal with
         | H : _ || _ = false |- _ => apply orb_false_iff in H; destruct H
         | H : (_ <? _) = false |- _ => apply Z.ltb_ge in H
         | H : (_ >=? _) = false |- _ => rewrite Z.geb_leb in H; apply Z.leb_gt in H
         | H : (_ >? _) = false |- _ => rewrite Z.gtb_ltb in H; apply Z.ltb_ge in H
         end.
  assert (Hf : foot_of_bytes (take (Z.to_nat len) data) (L + 1 - 4 + 9)
               = foot_of_bytes data (L + 1 - 4 + 9)).
  { unfold foot_of_bytes.
    rewrite !u16_at_take, !byte_at_take by lia. reflexivity. }
  rewrite Hf.
  rewrite (bytes_at_take data _ 1 (L + 6)) by lia.
  rewrite (bytes_at_take data _ 9 (L + 1 - 4)) by lia.
  reflexivity.
Qed.

(** X3: the checks read only the first [len] bytes they are given: on two
    buffers that agree on those bytes they give the same outcome, so what
    lies behind them (the remains of earlier frames) has no influence. *)
Theorem check_reads_within_len (data1 data2 : list Z) (len : Z) :
  take (Z.to_nat len) data1 = take (Z.to_nat len) data2 ->
  pcat_process_data_check data1 len = pcat_process_data_check data2 len.
Proof.
  intros H.
  rewrite <- (check_take data1), <- (check_take data2), H. reflexivity.
Qed.

Lemma check_reads_within_len_witness :
  take (Z.to_nat 13) (status_bytes ++ [1; 2; 3])
  = take (Z.to_nat 13) (status_bytes ++ [9])
  /\ pcat_process_data_check (status_bytes ++ [1; 2; 3]) 13
     = pcat_process_data_check (status_bytes ++ [9]) 13.
Proof.
  assert (H : take (Z.to_nat 13) (status_bytes ++ [1; 2; 3])
              = take (Z.to_nat 13) (status_bytes ++ [9]))
    by (vm_compute; reflexivity).
  split; [exact H|].
  exact (check_reads_within_len (status_bytes ++ [1; 2; 3])
           (status_bytes ++ [9]) 13 H).
Defined.

Lemma head_of_frame_bytes head body need_ack rest n :
  pmu_head_for head n ->
  head_of_bytes (frame_bytes head body need_ack ++ rest) = head.
Proof.
  intros (Hm & Hs & Hd & Hid & Hcmd & Hlen & Hn).
  unfold frame_bytes. rewrite <- app_assoc. rewrite head_of_head_bytes.
  destruct head as [m s d i l c]; cbn in *; subst m s l.
  rewrite (to_u16_small i), (to_u16_small c) by lia.
  rewrite (to_u16_small (_ + 3)) by (unfold U16_MAX in *; lia).
  f_equal. destruct Hd as [-> | [-> | ->]]; reflexivity.
Qed.

(** X4: of a frame that the PMU sends to the host, every proper prefix
    makes the checks ask for more bytes; none of them is taken for a
    frame or rejected. *)
Theorem frame_prefix_need_more (head : pcat_data_head) (body : list Z)
    (need_ack : bool) (rest : list Z) (n : Z) :
  pmu_head_for head (Z.of_nat (length body)) ->
  n < Z.of_nat (length body) + 13 ->
  need_more (pcat_process_data_check (frame_bytes head body need_ack ++ rest) n).
Proof.
  intros Hhead Hn. unfold pcat_process_data_check.
  destruct (n <? sizeof_head) eqn:E1; [unfold need_more; by left|].
  apply Z.ltb_ge in E1. unfold sizeof_head in E1.
  rewrite (head_of_frame_bytes _ _ _ _ _ Hhead).
  destruct Hhead as (Hm & Hs & Hd & Hid & Hcmd & Hlen & Hr).
  rewrite Hm, Hs, Hlen.
  assert (Hdest : negb (head_dest head =? PCAT_ADDR_CPU)
           && negb (head_dest head =? PCAT_ADDR_CPU_ALL)
           && negb (head_dest head =? PCAT_ADDR_ALL) = false)
    by (destruct Hd as [-> | [-> | ->]]; reflexivity).
  rewrite Hdest. unfold sizeof_head, sizeof_foot, U16_MAX in *.
  rewrite !Z.eqb_refl. cbn [negb].
  zbool. cbn [orb]. unfold need_more. by right.
Qed.

Lemma status_head_ok : pmu_head_for status_head 0.
Proof.
  unfold pmu_head_for, status_head, U16_MAX.
  split; [reflexivity|]. split; [reflexivity|].
  split; [left; reflexivity|]. cbn. unfold PCAT_CMD_STATUS_REPORT. lia.
Defined.

Lemma frame_prefix_need_more_witness :
  pmu_head_for status_head (Z.of_nat (length (@nil Z)))
  /\ 12 < Z.of_nat (length (@nil Z)) + 13
  /\ need_more (pcat_process_data_check (frame_bytes status_head [] true ++ []) 12).
Proof.
  assert (H2 : 12 < Z.of_nat (length (@nil Z)) + 13) by (cbn; lia).
  split; [exact status_head_ok|]. split; [exact H2|].
  exact (frame_prefix_need_more status_head [] true [] 12 status_head_ok H2).
Defined.

(** ** Feeding the reassembly buffer *)

Lemma with_buffer_id w :
  with_buffer (pmu_buffer (w_pmu w)) (pmu_length (w_pmu w)) w = w.
Proof. destruct w as [[] ? ? ? ? ? ?]. reflexivity. Qed.

Lemma with_buffer_twice b l b' l' w :
  with_buffer b l (with_buffer b' l' w) = with_buffer b l w.
Proof. reflexivity. Qed.

Lemma set_length_with_buffer l b l' w :
  set_pmu (set_length l) (with_buffer b l' w) = with_buffer b l w.
Proof. reflexivity. Qed.

(** The outcome of [pcat_process_data] depends on the bytes only through
    the checks. *)
Lemma process_data_by_check w data len data' len' :
  pcat_process_data_check data len = pcat_process_data_check data' len' ->
  pcat_process_data w data len = pcat_process_data w data' len'.
Proof. unfold pcat_process_data. by intros ->. Qed.

Lemma req_at_with_buffer b l w p : req_at (with_buffer b l w) p = req_at w p.
Proof. reflexivity. Qed.

Lemma upd_req_with_buffer b l p f w :
  upd_req p f (with_buffer b l w) = with_buffer b l (upd_req p f w).
Proof. reflexivity. Qed.

Lemma devm_kzalloc_with_buffer b l w n :
  devm_kzalloc (with_buffer b l w) n
  = (fst (devm_kzalloc w n), with_buffer b l (snd (devm_kzalloc w n))).
Proof.
  unfold devm_kzalloc.
  change (w_kzalloc (with_buffer b l w)) with (w_kzalloc w).
  destruct (w_kzalloc w) as [|[] ?]; reflexivity.
Qed.

Lemma process_reply_with_buffer b l w frame :
  pcat_process_reply (with_buffer b l w) frame
  = (fst (pcat_process_reply w frame),
     with_buffer b l (snd (pcat_process_reply w frame))).
Proof.
  unfold pcat_process_reply.
  change (pmu_reply (w_pmu (with_buffer b l w))) with (pmu_reply (w_pmu w)).
  destruct (pmu_reply (w_pmu w)) as [rp|]; [|reflexivity].
  rewrite req_at_with_buffer.
  destruct (negb _); [reflexivity|].
  set (w1 := if req_want (req_at w rp) =? 0 then _ else w).
  assert (H1 : (if req_want (req_at w rp) =? 0
                then upd_req rp (fun r => set_req_want (to_u16 (req_cmd r + 1)) r)
                       (with_buffer b l w)
                else with_buffer b l w) = with_buffer b l w1).
  { unfold w1. destruct (_ =? _); reflexivity. }
  rewrite H1. clearbody w1. rewrite req_at_with_buffer.
  destruct (negb _); [reflexivity|].
  destruct (completion_done _); [reflexivity|].
  rewrite upd_req_with_buffer.
  destruct (0 <? d_size frame); [|reflexivity].
  rewrite devm_kzalloc_with_buffer.
  destruct (devm_kzalloc _ _) as [buf wk]. cbn [fst snd].
  rewrite upd_req_with_buffer, req_at_with_buffer.
  destruct (reply_data _); reflexivity.
Qed.

Lemma serdev_write_with_buffer b l w buf :
  serdev_device_write_buf (with_buffer b l w) buf
  = (fst (serdev_device_write_buf w buf),
     with_buffer b l (snd (serdev_device_write_buf w buf))).
Proof.
  unfold serdev_device_write_buf.
  change (w_tx_ret (with_buffer b l w)) with (w_tx_ret w).
  destruct (w_tx_ret w) as [|r rest]; [reflexivity|].
  destruct (r <? 0); reflexivity.
Qed.

Lemma raw_write_with_buffer b l w frame_id cmd need_ack data len :
  pcat_pmu_raw_write (with_buffer b l w) frame_id cmd need_ack data len
  = (fst (pcat_pmu_raw_write w frame_id cmd need_ack data len),
     with_buffer b l (snd (pcat_pmu_raw_write w frame_id cmd need_ack data len))).
Proof.
  unfold pcat_pmu_raw_write.
  rewrite serdev_write_with_buffer.
  destruct (serdev_device_write_buf w _) as [r1 w1]. cbn [fst snd].
  destruct (r1 <? 0); [reflexivity|].
  rewrite serdev_write_with_buffer.
  destruct (serdev_device_write_buf w1 _) as [r2 w2]. cbn [fst snd].
  destruct (r2 <? 0); [reflexivity|].
  rewrite serdev_write_with_buffer.
  destruct (serdev_device_write_buf w2 _) as [r3 w3]. reflexivity.
Qed.

(** Dispatch does not look at the reassembly buffer. *)
Lemma process_data_with_buffer b l w data len :
  pcat_process_data (with_buffer b l w) data len
  = (fst (pcat_process_data w data len),
     with_buffer b l (snd (pcat_process_data w data len))).
Proof.
  unfold pcat_process_data.
  destruct (pcat_process_data_check data len) as [| | | | | | | |frame];
    try reflexivity.
  rewrite process_reply_with_buffer.
  destruct (pcat_process_reply w frame) as [[] w1]; cbn [fst snd];
    [reflexivity|].
  unfold blocking_notifier_call_chain.
  change (pmu_notifier_list (w_pmu (with_buffer b l w1)))
    with (pmu_notifier_list (w_pmu w1)).
  destruct (_ && _); [|reflexivity].
  match goal with
  | |- context [pcat_pmu_raw_write (mk_world ?p ?r ?t ?tr ?k ?x ?n) ?i ?c ?a ?d ?e] =>
      change (mk_world p r t tr k x n)
        with (with_buffer b l (mk_world (w_pmu w1) r t tr k x n))
  end.
  rewrite raw_write_with_buffer.
  destruct (pcat_pmu_raw_write _ _ _ _ _ _) as [r3 w3]. reflexivity.
Qed.

(** [pcat_pmu_receive_buf] in terms of the buffer it builds, while the
    driver's invariant holds. *)
Lemma receive_buf_spec w buf :
  buf <> [] ->
  buffer_ok w ->
  Z.of_nat (length buf) < 2 ^ 63 ->
  let length0 := pmu_length (w_pmu w) in
  let processed := Z.min (Z.of_nat (length buf)) (sizeof_buffer - length0) in
  let b := take (Z.to_nat length0) (pmu_buffer (w_pmu w))
           ++ take (Z.to_nat processed) buf
           ++ drop (Z.to_nat (length0 + processed)) (pmu_buffer (w_pmu w)) in
  let r := pcat_process_data w b (length0 + processed) in
  pcat_pmu_receive_buf w buf
  = (processed,
     with_buffer b (if negb (fst r =? - EAGAIN) then 0 else length0 + processed)
       (snd r)).
Proof.
  intros Hne Hok Hsize length0 processed b r.
  unfold pcat_pmu_receive_buf.
  replace (Z.of_nat (length buf) <=? 0) with false
    by (symmetry; apply Z.leb_gt; destruct buf; [done | cbn; lia]).
  pose proof (receive_buf_copy_spec w buf Hok Hsize) as Hcopy.
  cbv zeta in Hcopy. fold length0 processed b in Hcopy. rewrite Hcopy.
  cbv beta iota.
  match goal with
  | |- context [set_pmu ?f w] =>
      change (set_pmu f w) with (with_buffer b (length0 + processed) w)
  end.
  change (pmu_buffer (w_pmu (with_buffer b (length0 + processed) w))) with b.
  change (pmu_length (w_pmu (with_buffer b (length0 + processed) w)))
    with (length0 + processed).
  rewrite process_data_with_buffer. fold r.
  destruct (negb (fst r =? - EAGAIN)); [|reflexivity].
  apply f_equal. apply set_length_with_buffer.
Qed.

(** X5: when the bytes stored so far followed by a chunk [a] still make
    the checks ask for more, feeding [a] and then a chunk [b] ends in the
    same world as feeding [a ++ b] at once, and takes as many bytes: how
    the transport cuts a frame into chunks does not matter. *)
Theorem receive_buf_split (w : world) (a b : list Z) :
  buffer_ok w ->
  a <> [] -> b <> [] ->
  pmu_length (w_pmu w) + Z.of_nat (length a) + Z.of_nat (length b)
    <= sizeof_buffer ->
  need_more (pcat_process_data_check (stored w ++ a)
               (pmu_length (w_pmu w) + Z.of_nat (length a))) ->
  let '(na, wa) := pcat_pmu_receive_buf w a in
  let '(nb, wb) := pcat_pmu_receive_buf wa b in
  na = Z.of_nat (length a) /\ nb = Z.of_nat (length b)
  /\ pcat_pmu_receive_buf w (a ++ b) = (na + nb, wb).
Proof.
  intros Hok Ha Hb Hfit Hmore.
  pose proof Hok as [HB HL]. unfold sizeof_buffer in Hfit, HB, HL.
  set (B := pmu_buffer (w_pmu w)) in *. set (L := pmu_length (w_pmu w)) in *.
  remember (Z.of_nat (length a)) as la eqn:Ela.
  remember (Z.of_nat (length b)) as lb eqn:Elb.
  assert (Hla : 0 < la) by (subst la; destruct a; [done | cbn; lia]).
  assert (Hlb : 0 < lb) by (subst lb; destruct b; [done | cbn; lia]).
  (* the first feed *)
  rewrite (receive_buf_spec w a Ha Hok) by lia.
  fold B L. rewrite <- Ela. unfold sizeof_buffer.
  replace (Z.min la (8192 - L)) with la by lia.
  replace (take (Z.to_nat la) a) with a
    by (symmetry; apply take_ge; lia).
  set (ba := take (Z.to_nat L) B ++ a ++ drop (Z.to_nat (L + la)) B).
  assert (Hlen_ba : length ba = Z.to_nat 8192).
  { unfold ba. rewrite !length_app, length_take, length_drop.
    lia. }
  assert (Hca : pcat_process_data_check ba (L + la)
                = pcat_process_data_check (stored w ++ a) (L + la)).
  { rewrite <- (check_take ba). rewrite <- (check_take (stored w ++ a)).
    f_equal. unfold ba, stored. fold B L.
    rewrite !app_assoc.
    assert (Hl : length (take (Z.to_nat L) B ++ a) = Z.to_nat (L + la))
      by (rewrite length_app, length_take; lia).
    rewrite <- Hl, take_app_length.
    rewrite firstn_all. reflexivity. }
  rewrite <- Hca in Hmore.
  rewrite (process_data_need_more w ba (L + la) Hmore). cbn [fst snd].
  change (negb (- EAGAIN =? - EAGAIN)) with false. cbv iota.
  set (wa := with_buffer ba (L + la) w).
  assert (Hoka : buffer_ok wa).
  { split; [exact Hlen_ba|]. cbn. unfold sizeof_buffer. lia. }
  (* the second feed *)
  rewrite (receive_buf_spec wa b Hb Hoka) by lia.
  change (pmu_length (w_pmu wa)) with (L + la).
  change (pmu_buffer (w_pmu wa)) with ba.
  rewrite <- Elb. unfold sizeof_buffer.
  replace (Z.min lb (8192 - (L + la))) with lb by lia.
  replace (take (Z.to_nat lb) b) with b
    by (symmetry; apply take_ge; lia).
  (* the feed of both *)
  assert (Hab : a ++ b <> []) by (destruct a; done).
  rewrite (receive_buf_spec w (a ++ b) Hab Hok)
    by (rewrite length_app; lia).
  fold B L. rewrite length_app, Nat2Z.inj_add, <- Ela, <- Elb.
  unfold sizeof_buffer.
  replace (Z.min (la + lb) (8192 - L)) with (la + lb) by lia.
  replace (take (Z.to_nat (la + lb)) (a ++ b)) with (a ++ b)
    by (symmetry; apply take_ge; rewrite length_app; lia).
  assert (Hbuf : take (Z.to_nat (L + la)) ba ++ b
                   ++ drop (Z.to_nat (L + la + lb)) ba
                 = take (Z.to_nat L) B ++ (a ++ b)
                   ++ drop (Z.to_nat (L + (la + lb))) B).
  { unfold ba. rewrite !app_assoc.
    assert (Hl : length (take (Z.to_nat L) B ++ a) = Z.to_nat (L + la))
      by (rewrite length_app, length_take; lia).
    rewrite <- Hl at 1. rewrite take_app_length.
    replace (Z.to_nat (L + la + lb))
      with (length (take (Z.to_nat L) B ++ a) + Z.to_nat lb)%nat by lia.
    rewrite drop_app_add'; [|reflexivity].
    rewrite drop_drop. do 2 f_equal. lia. }
  rewrite Hbuf. replace (L + la + lb) with (L + (la + lb)) by lia.
  set (bab := take (Z.to_nat L) B ++ (a ++ b) ++ drop (Z.to_nat (L + (la + lb))) B).
  unfold wa. rewrite process_data_with_buffer. cbn [fst snd].
  rewrite with_buffer_twice.
  split; [reflexivity|]. split; reflexivity.
Qed.

Lemma probe_world_ok : buffer_ok probe_world.
Proof. split; [vm_compute; reflexivity | cbn; unfold sizeof_buffer; lia]. Defined.

Lemma receive_buf_split_witness :
  buffer_ok probe_world
  /\ take 5 status_bytes <> [] /\ drop 5 status_bytes <> []
  /\ pmu_length (w_pmu probe_world) + Z.of_nat (length (take 5 status_bytes))
       + Z.of_nat (length (drop 5 status_bytes)) <= sizeof_buffer
  /\ need_more (pcat_process_data_check
                  (stored probe_world ++ take 5 status_bytes)
                  (pmu_length (w_pmu probe_world)
                   + Z.of_nat (length (take 5 status_bytes))))
  /\ fst (pcat_pmu_receive_buf probe_world
            (take 5 status_bytes ++ drop 5 status_bytes)) = 13.
Proof.
  assert (H2 : take 5 status_bytes <> []) by (vm_compute; discriminate).
  assert (H3 : drop 5 status_bytes <> []) by (vm_compute; discriminate).
  assert (H4 : pmu_length (w_pmu probe_world)
               + Z.of_nat (length (take 5 status_bytes))
               + Z.of_nat (length (drop 5 status_bytes)) <= sizeof_buffer)
    by (vm_compute; discriminate).
  assert (H5 : need_more (pcat_process_data_check
                  (stored probe_world ++ take 5 status_bytes)
                  (pmu_length (w_pmu probe_world)
                   + Z.of_nat (length (take 5 status_bytes)))))
    by (left; vm_compute; reflexivity).
  split; [exact probe_world_ok|]. split; [exact H2|]. split; [exact H3|].
  split; [exact H4|]. split; [exact H5|].
  pose proof (receive_buf_split probe_world (take 5 status_bytes)
                (drop 5 status_bytes) probe_world_ok H2 H3 H4 H5) as H.
  destruct (pcat_pmu_receive_buf probe_world (take 5 status_bytes)) as [na wa].
  destruct (pcat_pmu_receive_buf wa (drop 5 status_bytes)) as [nb wb].
  destruct H as (-> & -> & ->). reflexivity.
Defined.

(** X6: when a feed into the empty buffer holds a whole frame from the
    PMU and more bytes behind it, the frame is handled exactly as if it
    had come alone, every byte of the feed is reported as taken and the
    buffer is emptied: the bytes behind the first frame, a second frame
    for instance, are dropped unseen. *)
Theorem bytes_behind_frame_dropped (w : world) (head : pcat_data_head)
    (body : list Z) (need_ack : bool) (extra : list Z) :
  buffer_ok w ->
  pmu_length (w_pmu w) = 0 ->
  pmu_head_for head (Z.of_nat (length body)) ->
  Z.of_nat (length body) + 13 + Z.of_nat (length extra) <= sizeof_buffer ->
  let frame := frame_bytes head body need_ack in
  let '(n1, w1) := pcat_pmu_receive_buf w frame in
  let '(n2, w2) := pcat_pmu_receive_buf w (frame ++ extra) in
  n1 = Z.of_nat (length body) + 13
  /\ n2 = Z.of_nat (length body) + 13 + Z.of_nat (length extra)
  /\ pmu_length (w_pmu w1) = 0
  /\ pmu_length (w_pmu w2) = 0
  /\ same_but_buffer w1 w2.
Proof.
  intros Hok HL Hhead Hfit frame.
  pose proof Hok as [HB _]. unfold sizeof_buffer in Hfit, HB.
  assert (Hlf : Z.of_nat (length frame) = Z.of_nat (length body) + 13).
  { unfold frame, frame_bytes.
    rewrite !length_app, head_bytes_length, foot_bytes_length. lia. }
  assert (Hf : frame <> []) by (intros E; rewrite E in Hlf; cbn in Hlf; lia).
  assert (Hfe : frame ++ extra <> []) by (destruct frame; done).
  assert (Hcheck : forall rest len,
             Z.of_nat (length body) + 13 <= len ->
             pcat_process_data_check (frame ++ rest) len
             = CheckOk (mk_data head (raw_write_foot head body need_ack) body
                          (Z.of_nat (length body)))).
  { intros rest len Hlen.
    destruct Hhead as (Hm & Hs & Hd & Hid & Hcmd & Hlen' & Hr).
    apply check_frame_bytes; try done; lia. }
  assert (Hlfe : Z.of_nat (length (frame ++ extra))
                 = Z.of_nat (length body) + 13 + Z.of_nat (length extra))
    by (rewrite length_app; lia).
  pose proof (receive_buf_spec w frame Hf Hok ltac:(lia)) as E1.
  pose proof (receive_buf_spec w (frame ++ extra) Hfe Hok ltac:(lia)) as E2.
  cbv zeta in E1, E2. rewrite HL, !Z.add_0_l in E1, E2.
  rewrite Hlf in E1. rewrite Hlfe in E2. unfold sizeof_buffer in E1, E2.
  rewrite Z.min_l in E1 by lia. rewrite Z.min_l in E2 by lia.
  change (Z.to_nat 0) with 0%nat in E1, E2.
  rewrite take_0 in E1, E2. cbn [app] in E1, E2.
  rewrite (take_ge frame) in E1 by lia.
  rewrite (take_ge (frame ++ extra)) in E2 by lia.
  rewrite <- (app_assoc frame extra) in E2.
  set (len1 := Z.of_nat (length body) + 13) in *.
  set (len2 := len1 + Z.of_nat (length extra)) in *.
  set (d1 := frame ++ drop _ _) in E1.
  set (d2 := frame ++ extra ++ _) in E2.
  assert (Hd : pcat_process_data w d2 len2 = pcat_process_data w d1 len1).
  { apply process_data_by_check. unfold d1, d2.
    rewrite !Hcheck by (unfold len2, len1; lia). reflexivity. }
  rewrite Hd in E2.
  assert (Hr : fst (pcat_process_data w d1 len1) = 0).
  { rewrite process_data_ret. unfold d1.
    rewrite Hcheck by (unfold len1; lia). reflexivity. }
  rewrite Hr in E1, E2. change (negb (0 =? - EAGAIN)) with true in E1, E2.
  cbv iota in E1, E2. rewrite E1, E2.
  split; [reflexivity|]. split; [reflexivity|].
  split; [reflexivity|]. split; [reflexivity|].
  unfold same_but_buffer. by rewrite !with_buffer_twice.
Qed.

Lemma bytes_behind_frame_dropped_witness :
  buffer_ok probe_world
  /\ pmu_length (w_pmu probe_world) = 0
  /\ pmu_head_for status_head (Z.of_nat (length (@nil Z)))
  /\ Z.of_nat (length (@nil Z)) + 13 + Z.of_nat (length status_bytes)
       <= sizeof_buffer
  /\ fst (pcat_pmu_receive_buf probe_world (status_bytes ++ status_bytes)) = 26.
Proof.
  assert (H2 : pmu_length (w_pmu probe_world) = 0) by reflexivity.
  assert (H4 : Z.of_nat (length (@nil Z)) + 13 + Z.of_nat (length status_bytes)
               <= sizeof_buffer) by (vm_compute; discriminate).
  split; [exact probe_world_ok|]. split; [exact H2|].
  split; [exact status_head_ok|]. split; [exact H4|].
  pose proof (bytes_behind_frame_dropped probe_world status_head [] true
                status_bytes probe_world_ok H2 status_head_ok H4) as H.
  cbv zeta in H. fold status_bytes in H.
  destruct (pcat_pmu_receive_buf probe_world status_bytes) as [n1 w1].
  destruct (pcat_pmu_receive_buf probe_world (status_bytes ++ status_bytes))
    as [n2 w2].
  destruct H as (_ & -> & _). reflexivity.
Defined.

Lemma head_of_bytes_app (buf rest : list Z) :
  9 <= Z.of_nat (length buf) ->
  head_of_bytes (buf ++ rest) = head_of_bytes buf.
Proof.
  intros H. unfold head_of_bytes, u16_at.
  rewrite !(byte_at_app_l buf rest) by lia. reflexivity.
Qed.

(** X7: when the bytes held in the buffer, followed by a feed of at least
    one byte, make at least 9 and at most 8192 bytes that start with the
    start magic but come from another source than the PMU, or go to a
    destination the host does not accept, the feed is taken whole and all
    of it is thrown away together with what was held, whatever the length
    field, the end magic and the CRC are: nothing is sent, nobody is
    notified, no request is touched, and the buffer is empty again. *)
Theorem foreign_frame_dropped (w : world) (buf : list Z) :
  buffer_ok w ->
  buf <> [] ->
  let held := stored w ++ buf in
  9 <= Z.of_nat (length held) <= sizeof_buffer ->
  to_u8 (byte_at held 0) = PCAT_MAGIC_HEAD ->
  to_u8 (byte_at held 1) <> PCAT_ADDR_PMU
  \/ ~ accepted_dest (to_u8 (byte_at held 2)) ->
  let '(n, w') := pcat_pmu_receive_buf w buf in
  n = Z.of_nat (length buf)
  /\ pmu_length (w_pmu w') = 0
  /\ same_but_buffer w w'.
Proof.
  intros Hok Hne held Hlen Hmagic Haddr. unfold sizeof_buffer in Hlen.
  pose proof Hok as [HB HL]. unfold sizeof_buffer in HB, HL.
  assert (Hls : Z.of_nat (length (stored w)) = pmu_length (w_pmu w)).
  { unfold stored. rewrite length_take. lia. }
  assert (Hlh : Z.of_nat (length held)
                = pmu_length (w_pmu w) + Z.of_nat (length buf))
    by (unfold held; rewrite length_app; lia).
  pose proof (receive_buf_spec w buf Hne Hok ltac:(lia)) as E.
  cbv zeta in E. unfold sizeof_buffer in E.
  rewrite Z.min_l in E by lia.
  rewrite Nat2Z.id, firstn_all in E. fold (stored w) in E.
  rewrite app_assoc in E. fold held in E.
  rewrite <- Hlh in E.
  set (d := held ++ _) in E. set (len := Z.of_nat (length held)) in *.
  assert (Hc : pcat_process_data_check d len = CheckUnknownSource
               \/ pcat_process_data_check d len = CheckNotDest).
  { unfold pcat_process_data_check, d.
    rewrite head_of_bytes_app by (fold len; lia).
    replace (len <? sizeof_head) with false
      by (symmetry; apply Z.ltb_ge; unfold sizeof_head; lia).
    cbn [head_of_bytes head_magic_head head_source head_dest].
    rewrite Hmagic, Z.eqb_refl. cbn [negb].
    destruct (Z.eqb_spec (to_u8 (byte_at held 1)) PCAT_ADDR_PMU) as [Es|Es];
      cbn [negb]; [|by left].
    destruct Haddr as [Hs|Hd]; [done|].
    destruct (Z.eqb_spec (to_u8 (byte_at held 2)) PCAT_ADDR_CPU) as [E1|E1];
      [exfalso; apply Hd; by left|].
    destruct (Z.eqb_spec (to_u8 (byte_at held 2)) PCAT_ADDR_CPU_ALL) as [E2|E2];
      [exfalso; apply Hd; right; by left|].
    destruct (Z.eqb_spec (to_u8 (byte_at held 2)) PCAT_ADDR_ALL) as [E3|E3];
      [exfalso; apply Hd; right; by right|].
    by right. }
  assert (Hp : pcat_process_data w d len = (0, w)).
  { unfold pcat_process_data. destruct Hc as [-> | ->]; reflexivity. }
  rewrite Hp in E. cbn [fst snd] in E.
  change (negb (0 =? - EAGAIN)) with true in E. cbv iota in E.
  rewrite E. split; [reflexivity|]. split; [reflexivity|].
  unfold same_but_buffer. by rewrite with_buffer_twice.
Qed.

Lemma foreign_frame_dropped_witness :
  buffer_ok probe_world
  /\ frame_bytes (raw_write_head 1 1 0) [] true <> []
  /\ 9 <= Z.of_nat (length (stored probe_world
                             ++ frame_bytes (raw_write_head 1 1 0) [] true))
       <= sizeof_buffer
  /\ fst (pcat_pmu_receive_buf probe_world
            (frame_bytes (raw_write_head 1 1 0) [] true)) = 13.
Proof.
  assert (H2 : frame_bytes (raw_write_head 1 1 0) [] true <> [])
    by (vm_compute; discriminate).
  assert (H3 : 9 <= Z.of_nat (length (stored probe_world
                                        ++ frame_bytes (raw_write_head 1 1 0) [] true))
               <= sizeof_buffer) by (vm_compute; split; discriminate).
  assert (H4 : to_u8 (byte_at (stored probe_world
                                 ++ frame_bytes (raw_write_head 1 1 0) [] true) 0)
               = PCAT_MAGIC_HEAD) by (vm_compute; reflexivity).
  assert (H5 : to_u8 (byte_at (stored probe_world
                                 ++ frame_bytes (raw_write_head 1 1 0) [] true) 1)
               <> PCAT_ADDR_PMU
               \/ ~ accepted_dest
                     (to_u8 (byte_at (stored probe_world
                                        ++ frame_bytes (raw_write_head 1 1 0) [] true) 2)))
    by (left; vm_compute; discriminate).
  split; [exact probe_world_ok|]. split; [exact H2|]. split; [exact H3|].
  pose proof (foreign_frame_dropped probe_world _ probe_world_ok H2 H3 H4 H5) as H.
  destruct (pcat_pmu_receive_buf probe_world
              (frame_bytes (raw_write_head 1 1 0) [] true)) as [n w'].
  destruct H as (-> & _). vm_compute. reflexivity.
Defined.

(** X8: once the buffer is full and what it holds still asks for more
    bytes (a head that announces a frame longer than the buffer), every
    later feed takes no byte and changes nothing: the state is a fixed
    point of the receive path. *)
Theorem full_buffer_wedged (w : world) (buf : list Z) :
  buffer_ok w ->
  pmu_length (w_pmu w) = sizeof_buffer ->
  need_more (pcat_process_data_check (pmu_buffer (w_pmu w)) sizeof_buffer) ->
  buf <> [] ->
  Z.of_nat (length buf) < 2 ^ 63 ->
  pcat_pmu_receive_buf w buf = (0, w).
Proof.
  intros Hok HL Hnm Hne Hsize. pose proof Hok as [HB _].
  pose proof (receive_buf_spec w buf Hne Hok Hsize) as E.
  cbv zeta in E. rewrite HL in E. rewrite Z.sub_diag in E.
  assert (Hlb : 0 < Z.of_nat (length buf)) by (destruct buf; [done|cbn; lia]).
  rewrite Z.min_r in E by lia. rewrite Z.add_0_r in E.
  change (Z.to_nat 0) with 0%nat in E. rewrite take_0 in E.
  rewrite drop_ge in E by lia. rewrite take_ge in E by lia.
  cbn [app] in E. rewrite app_nil_r in E.
  rewrite (process_data_need_more _ _ _ Hnm) in E. cbn [fst snd] in E.
  rewrite Z.eqb_refl in E. cbn [negb] in E.
  rewrite E. f_equal. rewrite <- HL. apply with_buffer_id.
Qed.

Lemma wedged_world_ok : buffer_ok wedged_world.
Proof. split; [vm_compute; reflexivity | cbn; unfold sizeof_buffer; lia]. Defined.

Lemma full_buffer_wedged_witness :
  buffer_ok wedged_world
  /\ pmu_length (w_pmu wedged_world) = sizeof_buffer
  /\ need_more (pcat_process_data_check (pmu_buffer (w_pmu wedged_world))
                  sizeof_buffer)
  /\ status_bytes <> []
  /\ Z.of_nat (length status_bytes) < 2 ^ 63
  /\ pcat_pmu_receive_buf wedged_world status_bytes = (0, wedged_world).
Proof.
  assert (H2 : pmu_length (w_pmu wedged_world) = sizeof_buffer) by reflexivity.
  assert (H3 : need_more (pcat_process_data_check
                            (pmu_buffer (w_pmu wedged_world)) sizeof_buffer))
    by (right; vm_compute; reflexivity).
  assert (H4 : status_bytes <> []) by (vm_compute; discriminate).
  assert (H5 : Z.of_nat (length status_bytes) < 2 ^ 63)
    by (vm_compute; reflexivity).
  split; [exact wedged_world_ok|]. split; [exact H2|]. split; [exact H3|].
  split; [exact H4|]. split; [exact H5|].
  exact (full_buffer_wedged wedged_world status_bytes wedged_world_ok H2 H3 H4 H5).
Defined.

(** ** Completing a request *)

Lemma process_reply_complete w frame rp :
  pmu_reply (w_pmu w) = Some rp ->
  let request := req_at w rp in
  req_frame_id request = head_frame_id (d_head frame) ->
  expected_reply request = head_command (d_head frame) ->
  completion_done request = false ->
  let w' := snd (pcat_process_reply w frame) in
  let sr := stored_reply (hd false (w_kzalloc w)) frame request in
  fst (pcat_process_reply w frame) = true
  /\ req_at w' rp
     = mk_request (req_frame_id request) (req_received request + 1)
         (req_cmd request) (expected_reply request) (req_data request)
         (req_size request) (d_head frame) (d_foot frame) (fst sr) (snd sr)
  /\ w_kzalloc w' = (if 0 <? d_size frame then tl (w_kzalloc w) else w_kzalloc w).
Proof.
  intros Hrp request Hid Hcmd Hdone w' sr. subst w'.
  set (w1 := if req_want request =? 0
             then upd_req rp (fun r => set_req_want (to_u16 (req_cmd r + 1)) r) w
             else w).
  assert (Hw1 : req_at w1 rp
                = set_req_want (expected_reply request) request
                /\ w_kzalloc w1 = w_kzalloc w).
  { unfold w1, expected_reply. fold request.
    destruct (req_want request =? 0) eqn:E.
    - rewrite req_at_upd_req. done.
    - split; [|done]. fold request. by destruct request. }
  destruct Hw1 as (Hat1 & Hkz1).
  unfold pcat_process_reply. rewrite Hrp. fold request.
  rewrite Hid, Z.eqb_refl. cbn [negb]. fold w1.
  rewrite Hat1. cbn [req_want set_req_want].
  rewrite Hcmd, Z.eqb_refl. cbn [negb].
  replace (completion_done (set_req_want _ request)) with false
    by (symmetry; exact Hdone).
  cbn [fst snd]. split; [reflexivity|].
  rewrite req_at_set_pmu, req_at_upd_req.
  unfold sr, stored_reply.
  destruct (0 <? d_size frame).
  - set (w2 := upd_req rp _ w1).
    assert (Hk : fst (devm_kzalloc w2 (d_size frame + 1))
                 = (if hd false (w_kzalloc w) then None
                    else Some (zeros (d_size frame + 1)))
                 /\ req_at (snd (devm_kzalloc w2 (d_size frame + 1))) rp
                    = req_at w2 rp
                 /\ w_kzalloc (snd (devm_kzalloc w2 (d_size frame + 1)))
                    = tl (w_kzalloc w)).
    { split; [|split].
      - unfold devm_kzalloc. change (w_kzalloc w2) with (w_kzalloc w1).
        rewrite Hkz1. by destruct (w_kzalloc w) as [|[] kz].
      - apply req_at_same_requests. apply devm_kzalloc_frame.
      - unfold devm_kzalloc. change (w_kzalloc w2) with (w_kzalloc w1).
        rewrite Hkz1. by destruct (w_kzalloc w) as [|[] kz]. }
    destruct (devm_kzalloc w2 (d_size frame + 1)) as [buf wk].
    cbn [fst snd] in Hk. destruct Hk as (-> & Hatk & Hkzk).
    assert (Hat2 : req_at w2 rp
                   = set_reply_head_foot (d_head frame) (d_foot frame)
                       (set_req_want (expected_reply request) request))
      by (unfold w2; by rewrite req_at_upd_req, Hat1).
    rewrite req_at_upd_req, Hatk, Hat2.
    destruct (hd false (w_kzalloc w)); cbn [reply_data set_reply_data].
    + rewrite req_at_upd_req, Hatk, Hat2. unfold complete. cbn.
      rewrite <- Hcmd, <- Hid. done.
    + rewrite !req_at_upd_req, Hatk, Hat2. unfold complete. cbn.
      rewrite <- Hcmd, <- Hid. done.
  - rewrite req_at_upd_req, Hat1. unfold complete. cbn.
    rewrite <- Hcmd, <- Hid, Hkz1. done.
Qed.

Lemma memcpy_into_zeros (src : list Z) :
  memcpy (zeros (Z.of_nat (length src) + 1)) 0 src (Z.of_nat (length src))
  = src ++ [0].
Proof.
  pose proof (memcpy_spec (zeros (Z.of_nat (length src) + 1)) src 0 (length src))
    as H.
  rewrite length_zeros in H. change (Z.of_nat 0) with 0 in H.
  rewrite H by lia. rewrite take_0, firstn_all. cbn [app Nat.add].
  unfold zeros. rewrite drop_replicate.
  replace (Z.to_nat (Z.of_nat (length src) + 1) - length src)%nat with 1%nat
    by lia.
  reflexivity.
Qed.

(** X9: a frame that completes the pending request and carries a payload
    gives the request a fresh buffer that holds the payload followed by
    one zero byte, and the size of the payload. When the allocation fails
    the request is completed all the same, without a buffer and with its
    size field untouched: the waiting caller is woken and sees no data. *)
Theorem reply_payload_stored (w : world) (frame : pcat_data) (rp : Z) :
  pmu_reply (w_pmu w) = Some rp ->
  req_frame_id (req_at w rp) = head_frame_id (d_head frame) ->
  expected_reply (req_at w rp) = head_command (d_head frame) ->
  completion_done (req_at w rp) = false ->
  0 < d_size frame ->
  d_size frame = Z.of_nat (length (d_data frame)) ->
  let '(processed, w') := pcat_process_reply w frame in
  processed = true
  /\ completion_done (req_at w' rp) = true
  /\ (hd false (w_kzalloc w) = false ->
      reply_data (req_at w' rp) = Some (d_data frame ++ [0])
      /\ reply_size (req_at w' rp) = d_size frame)
  /\ (hd false (w_kzalloc w) = true ->
      reply_data (req_at w' rp) = None
      /\ reply_size (req_at w' rp) = reply_size (req_at w rp)).
Proof.
  intros Hrp Hid Hcmd Hdone Hsize Hlen.
  pose proof (process_reply_complete w frame rp Hrp Hid Hcmd Hdone) as H.
  cbv zeta in H. destruct (pcat_process_reply w frame) as [processed w'].
  cbn [fst snd] in H. destruct H as (-> & Hat & _).
  split; [reflexivity|]. rewrite Hat. cbn [reply_data reply_size].
  split.
  { unfold completion_done in *. cbn [req_received].
    apply negb_false_iff, Z.eqb_eq in Hdone. rewrite Hdone. reflexivity. }
  unfold stored_reply.
  replace (0 <? d_size frame) with true by (symmetry; apply Z.ltb_lt; lia).
  split; intros ->; cbn [fst snd]; [|done].
  split; [|done]. rewrite Hlen, memcpy_into_zeros. reflexivity.
Qed.

Lemma reply_payload_stored_witness :
  pmu_reply (w_pmu pending_world) = Some 100
  /\ 0 < d_size version_reply
  /\ reply_data (req_at (snd (pcat_process_reply pending_world version_reply)) 100)
     = Some [65; 66; 67; 0].
Proof.
  assert (H1 : pmu_reply (w_pmu pending_world) = Some 100) by reflexivity.
  assert (H2 : req_frame_id (req_at pending_world 100)
               = head_frame_id (d_head version_reply)) by reflexivity.
  assert (H3 : expected_reply (req_at pending_world 100)
               = head_command (d_head version_reply)) by reflexivity.
  assert (H4 : completion_done (req_at pending_world 100) = false)
    by reflexivity.
  assert (H5 : 0 < d_size version_reply) by reflexivity.
  assert (H6 : d_size version_reply = Z.of_nat (length (d_data version_reply)))
    by reflexivity.
  split; [exact H1|]. split; [exact H5|].
  pose proof (reply_payload_stored pending_world version_reply 100
                H1 H2 H3 H4 H5 H6) as H.
  destruct (pcat_process_reply pending_world version_reply) as [processed w'].
  destruct H as (_ & _ & H & _). cbn [snd]. apply H. reflexivity.
Defined.

(** ** What the receive path can do to a request *)

Section ReceivePreserves.
Variable p : Z.
Variable Q : option Z -> pcat_request -> Prop.
Hypothesis reply_keeps : forall w frame,
  Q (pmu_reply (w_pmu w)) (req_at w p) ->
  Q (pmu_reply (w_pmu (snd (pcat_process_reply w frame))))
    (req_at (snd (pcat_process_reply w frame)) p).

Lemma process_data_keeps w data len :
  Q (pmu_reply (w_pmu w)) (req_at w p) ->
  Q (pmu_reply (w_pmu (snd (pcat_process_data w data len))))
    (req_at (snd (pcat_process_data w data len)) p).
Proof.
  intros Hw. unfold pcat_process_data.
  destruct (pcat_process_data_check data len) as [| | | | | | | |frame];
    try done.
  pose proof (reply_keeps w frame Hw) as H1.
  destruct (pcat_process_reply w frame) as [[] w1]; cbn [snd] in *; [done|].
  unfold blocking_notifier_call_chain.
  assert (H2 : forall w2, w_pmu w2 = w_pmu w1 ->
                          w_requests w2 = w_requests w1 ->
                          Q (pmu_reply (w_pmu w2)) (req_at w2 p)).
  { intros w2 Hp Hr. rewrite (req_at_same_requests _ _ p Hr), Hp. exact H1. }
  destruct (_ && _); [|by apply H2].
  match goal with
  | |- context [pcat_pmu_raw_write ?a ?b ?c ?d ?e ?f] =>
      pose proof (raw_write_frame a b c d e f) as Hf;
      destruct (pcat_pmu_raw_write a b c d e f) as [r3 w3]
  end.
  cbn [snd] in *. destruct Hf as (Hp & Hr & _). by apply H2.
Qed.

Lemma receive_buf_keeps w buf :
  Q (pmu_reply (w_pmu w)) (req_at w p) ->
  Q (pmu_reply (w_pmu (snd (pcat_pmu_receive_buf w buf))))
    (req_at (snd (pcat_pmu_receive_buf w buf)) p).
Proof.
  intros Hw. unfold pcat_pmu_receive_buf.
  destruct (_ <=? 0); [done|].
  pose proof (receive_buf_copy_frame w buf) as Hc.
  destruct (pcat_pmu_receive_buf_copy w buf) as [processed w1].
  cbn [snd] in Hc. destruct Hc as (Hslot & _ & _ & Hrq & _).
  assert (H1 : Q (pmu_reply (w_pmu w1)) (req_at w1 p))
    by (rewrite (req_at_same_requests _ _ p Hrq), Hslot; exact Hw).
  pose proof (process_data_keeps w1 (pmu_buffer (w_pmu w1))
                (pmu_length (w_pmu w1)) H1) as H2.
  destruct (pcat_process_data w1 _ _) as [ret w2]. cbn [snd] in *.
  destruct (negb _); cbn [snd]; [|exact H2].
  rewrite req_at_set_pmu. exact H2.
Qed.

Lemma rx_deliver_keeps w :
  Q (pmu_reply (w_pmu w)) (req_at w p) ->
  Q (pmu_reply (w_pmu (rx_deliver w))) (req_at (rx_deliver w) p).
Proof.
  intros Hw. unfold rx_deliver.
  set (w0 := mk_world _ _ _ _ _ _ _).
  assert (H0 : Q (pmu_reply (w_pmu w0)) (req_at w0 p)) by exact Hw.
  clearbody w0. revert w0 H0.
  induction (hd [] (w_rx w)) as [|buf feeds IH]; intros w0 H0;
    cbn [fold_left].
  - exact H0.
  - apply IH. by apply receive_buf_keeps.
Qed.
End ReceivePreserves.

(** ** The outcome of pcat_pmu_execute *)

Lemma process_reply_in_exchange p f c w frame :
  in_exchange p f c (pmu_reply (w_pmu w)) (req_at w p) ->
  in_exchange p f c (pmu_reply (w_pmu (snd (pcat_process_reply w frame))))
    (req_at (snd (pcat_process_reply w frame)) p).
Proof.
  intros (Hf & [(Hslot & Hrecv & Hexp) | (Hslot & Hrest)]).
  - pose proof (process_reply_cases w frame p Hslot) as Hc. cbv zeta in Hc.
    destruct Hc as [(_ & ->) | [(_ & _ & ->) | (Hid & Hcmd & Hdone & _)]];
      cbn [snd].
    + split; [exact Hf|]. left. done.
    + unfold expected_reply in Hexp.
      destruct (req_want (req_at w p) =? 0) eqn:E.
      * rewrite req_at_upd_req. split; [exact Hf|]. left.
        split; [exact Hslot|]. split; [exact Hrecv|].
        unfold expected_reply. cbn [req_want set_req_want req_cmd].
        destruct (to_u16 _ =? 0); exact Hexp.
      * split; [exact Hf|]. left. unfold expected_reply. rewrite E. done.
    + pose proof (process_reply_complete w frame p Hslot Hid Hcmd Hdone) as H.
      cbv zeta in H. destruct H as (_ & Hat & _).
      pose proof (process_reply_cases w frame p Hslot) as Hc. cbv zeta in Hc.
      destruct Hc as [(Hne & _) | [(_ & Hno & _) | (_ & _ & _ & w' & Hw' & Hs & _)]].
      * congruence.
      * destruct Hno; congruence.
      * rewrite Hw' in *. cbn [snd] in *. rewrite Hat.
        split; [exact Hf|]. right. cbn. rewrite Hrecv. split; [exact Hs|].
        split; [reflexivity|]. split; [exact Hexp|]. split; congruence.
  - unfold pcat_process_reply. rewrite Hslot. cbn [snd].
    split; [exact Hf|]. right. split; [exact Hslot | exact Hrest].
Qed.

Lemma execute_begin_in_exchange w p :
  let w0 := pcat_pmu_execute_begin w p in
  req_frame_id (req_at w0 p) = execute_frame_id w p
  /\ pmu_reply (w_pmu w0) = Some p
  /\ req_received (req_at w0 p) = 0
  /\ expected_reply (req_at w0 p) = expected_reply (req_at w p)
  /\ req_want (req_at w0 p) = expected_reply (req_at w p)
  /\ req_cmd (req_at w0 p) = req_cmd (req_at w p)
  /\ req_data (req_at w0 p) = req_data (req_at w p)
  /\ req_size (req_at w0 p) = req_size (req_at w p)
  /\ w_kzalloc w0 = w_kzalloc w
  /\ pmu_buffer (w_pmu w0) = pmu_buffer (w_pmu w)
  /\ pmu_length (w_pmu w0) = pmu_length (w_pmu w).
Proof.
  unfold pcat_pmu_execute_begin, execute_frame_id.
  set (r := req_at w p).
  set (w1 := upd_req p _ w).
  assert (H1 : req_at w1 p = zero_reply (init_completion r)
               /\ w_pmu w1 = w_pmu w /\ w_kzalloc w1 = w_kzalloc w)
    by (unfold w1; rewrite req_at_upd_req; done).
  destruct H1 as (Hat1 & Hp1 & Hk1). clearbody w1.
  set (w2 := if req_frame_id (req_at w1 p) =? 0 then _ else w1).
  assert (H2 : req_at w2 p
               = set_req_frame_id
                   (if req_frame_id r =? 0
                    then to_u16 (to_int (pmu_frame (w_pmu w) + 1))
                    else req_frame_id r)
                   (zero_reply (init_completion r))
               /\ w_kzalloc w2 = w_kzalloc w
               /\ pmu_buffer (w_pmu w2) = pmu_buffer (w_pmu w)
               /\ pmu_length (w_pmu w2) = pmu_length (w_pmu w)).
  { unfold w2. rewrite Hat1. cbn [req_frame_id zero_reply init_completion
                                   set_req_received].
    destruct (req_frame_id r =? 0) eqn:E.
    - unfold atomic_inc_return_frame. rewrite req_at_upd_req, req_at_set_pmu.
      rewrite Hat1, Hp1. cbn. rewrite Hk1, Hp1. done.
    - rewrite Hat1, Hk1, Hp1. split; [|done]. by destruct r. }
  destruct H2 as (Hat2 & Hk2 & Hb2 & Hl2). clearbody w2.
  set (w3 := set_pmu (set_reply (Some p)) w2).
  assert (Hat3 : req_at w3 p = req_at w2 p) by apply req_at_set_pmu.
  unfold expected_reply.
  destruct (req_want (req_at w3 p) =? 0) eqn:E.
  - rewrite req_at_upd_req, Hat3, Hat2. rewrite Hat3, Hat2 in E. cbn in E.
    fold r. rewrite E. cbn.
    destruct (to_u16 (req_cmd r + 1) =? 0); done.
  - rewrite Hat3, Hat2. rewrite Hat3, Hat2 in E. cbn in E.
    fold r. rewrite E. cbn. rewrite E. done.
Qed.

Lemma execute_loop_outcome p f c :
  forall fuel retries w,
    0 <= retries <= 3 -> (Z.to_nat (4 - retries) <= fuel)%nat ->
    in_exchange p f c (pmu_reply (w_pmu w)) (req_at w p) ->
    exists ret w',
      pcat_pmu_execute_loop fuel retries w p = Some (ret, w')
      /\ pmu_reply (w_pmu w') = None
      /\ ret <= 0
      /\ req_frame_id (req_at w' p) = f
      /\ (ret = 0 ->
          req_received (req_at w' p) = 0
          /\ req_want (req_at w' p) = c
          /\ head_frame_id (reply_head (req_at w' p)) = f
          /\ head_command (reply_head (req_at w' p)) = c)
      /\ (ret < 0 ->
          req_received (req_at w' p) = 0
          \/ (req_received (req_at w' p) = 1
              /\ req_want (req_at w' p) = c
              /\ head_frame_id (reply_head (req_at w' p)) = f
              /\ head_command (reply_head (req_at w' p)) = c)).
Proof.
  assert (Hfail : forall ret w,
            ret < 0 ->
            in_exchange p f c (pmu_reply (w_pmu w)) (req_at w p) ->
            exists ret' w',
              Some (pcat_pmu_execute_fail ret w) = Some (ret', w')
              /\ pmu_reply (w_pmu w') = None
              /\ ret' <= 0
              /\ req_frame_id (req_at w' p) = f
              /\ (ret' = 0 ->
                  req_received (req_at w' p) = 0
                  /\ req_want (req_at w' p) = c
                  /\ head_frame_id (reply_head (req_at w' p)) = f
                  /\ head_command (reply_head (req_at w' p)) = c)
              /\ (ret' < 0 ->
                  req_received (req_at w' p) = 0
                  \/ (req_received (req_at w' p) = 1
                      /\ req_want (req_at w' p) = c
                      /\ head_frame_id (reply_head (req_at w' p)) = f
                      /\ head_command (reply_head (req_at w' p)) = c))).
  { intros ret w Hret (Hf & Hcase).
    eexists _, _. split; [reflexivity|].
    rewrite req_at_set_pmu.
    split; [reflexivity|]. split; [lia|]. split; [exact Hf|].
    split; [lia|]. intros _.
    destruct Hcase as [(_ & Hr & _) | (_ & Hr & Hrest)];
      [by left | by right]. }
  assert (Hdone : forall w,
            pmu_reply (w_pmu w) = None ->
            req_frame_id (req_at w p) = f ->
            req_received (req_at w p) = 1 ->
            req_want (req_at w p) = c
            /\ head_frame_id (reply_head (req_at w p)) = f
            /\ head_command (reply_head (req_at w p)) = c ->
            exists ret' w',
              Some (0, upd_req p (fun r => set_req_received (req_received r - 1) r) w)
              = Some (ret', w')
              /\ pmu_reply (w_pmu w') = None
              /\ ret' <= 0
              /\ req_frame_id (req_at w' p) = f
              /\ (ret' = 0 ->
                  req_received (req_at w' p) = 0
                  /\ req_want (req_at w' p) = c
                  /\ head_frame_id (reply_head (req_at w' p)) = f
                  /\ head_command (reply_head (req_at w' p)) = c)
              /\ (ret' < 0 ->
                  req_received (req_at w' p) = 0
                  \/ (req_received (req_at w' p) = 1
                      /\ req_want (req_at w' p) = c
                      /\ head_frame_id (reply_head (req_at w' p)) = f
                      /\ head_command (reply_head (req_at w' p)) = c))).
  { intros w Hslot Hf Hr Hrest.
    eexists _, _. split; [reflexivity|].
    rewrite req_at_upd_req. cbn. rewrite Hr.
    split; [exact Hslot|]. split; [lia|]. split; [exact Hf|].
    split; [|lia]. intros _. split; [reflexivity | exact Hrest]. }
  induction fuel as [|fuel IH]; intros retries w Hr Hfuel Hin; [lia|].
  cbn [pcat_pmu_execute_loop].
  match goal with
  | |- context [pcat_pmu_raw_write ?a ?b ?c ?d ?e ?f] =>
      pose proof (raw_write_frame a b c d e f) as Hw;
      destruct (pcat_pmu_raw_write a b c d e f) as [r1 w1]
  end.
  cbn [snd] in Hw. destruct Hw as (Hp & Hrq & _).
  assert (H1 : in_exchange p f c (pmu_reply (w_pmu w1)) (req_at w1 p))
    by (by rewrite (req_at_same_requests _ _ p Hrq), Hp).
  clear Hin Hp Hrq.
  destruct (r1 <? 0) eqn:Er.
  { apply Z.ltb_lt in Er. by apply Hfail. }
  unfold wait_for_completion_timeout.
  destruct H1 as (Hf1 & [(Hslot1 & Hrecv1 & Hexp1) | (Hslot1 & Hrecv1 & Hrest1)]).
  2:{ unfold completion_done. rewrite Hrecv1.
      change (negb (1 =? 0)) with true. cbv iota.
      change (1 =? 0) with false. cbv iota. by apply Hdone. }
  unfold completion_done at 1. rewrite Hrecv1.
  change (negb (0 =? 0)) with false. cbv iota.
  pose proof (rx_deliver_keeps p (in_exchange p f c)
                (process_reply_in_exchange p f c) w1
                (conj Hf1 (or_introl (conj Hslot1 (conj Hrecv1 Hexp1)))))
    as H2.
  destruct H2 as (Hf2 & [(Hslot2 & Hrecv2 & Hexp2) | (Hslot2 & Hrecv2 & Hrest2)]).
  2:{ unfold completion_done. rewrite Hrecv2.
      change (negb (1 =? 0)) with true. cbv iota.
      change (1 =? 0) with false. cbv iota. by apply Hdone. }
  unfold completion_done. rewrite Hrecv2.
  change (negb (0 =? 0)) with false. cbv iota.
  change (0 =? 0) with true. cbv iota.
  pose proof (rx_deliver_keeps p (in_exchange p f c)
                (process_reply_in_exchange p f c) (rx_deliver w1)
                (conj Hf2 (or_introl (conj Hslot2 (conj Hrecv2 Hexp2)))))
    as H3.
  destruct (retries <? 3) eqn:E3.
  - apply Z.ltb_lt in E3. apply IH; [lia | lia | exact H3].
  - apply Hfail; [unfold ETIMEDOUT; lia | exact H3].
Qed.

(** X10: [pcat_pmu_execute] returns within four passes of its loop, in
    every state and whatever the transport and the PMU do; it returns 0 or
    a negative code, and when it returns the pending slot is empty, so the
    slot never keeps the address of a request whose caller has gone on.
    When it returns 0 the completion has been consumed and the request
    holds the head of a frame whose id is the request's and whose command
    is the reply that the request expected. When it returns a negative
    code, either the completion has not fired, or the request has been
    completed all the same, by a frame with that id and command that the
    receive path took after the last wait had timed out, and the
    completion is left signalled. *)
Theorem execute_outcome (fuel : nat) (w : world) (p : Z) :
  (4 <= fuel)%nat ->
  exists ret w',
    pcat_pmu_execute fuel w p = Some (ret, w')
    /\ pmu_reply (w_pmu w') = None
    /\ ret <= 0
    /\ req_frame_id (req_at w' p) = execute_frame_id w p
    /\ (ret = 0 ->
        req_received (req_at w' p) = 0
        /\ head_frame_id (reply_head (req_at w' p)) = execute_frame_id w p
        /\ head_command (reply_head (req_at w' p)) = expected_reply (req_at w p))
    /\ (ret < 0 ->
        req_received (req_at w' p) = 0
        \/ (req_received (req_at w' p) = 1
            /\ head_frame_id (reply_head (req_at w' p)) = execute_frame_id w p
            /\ head_command (reply_head (req_at w' p))
               = expected_reply (req_at w p))).
Proof.
  intros Hfuel. unfold pcat_pmu_execute.
  pose proof (execute_begin_in_exchange w p) as Hb. cbv zeta in Hb.
  destruct Hb as (Hf & Hslot & Hrecv & Hexp & _).
  destruct (execute_loop_outcome p (execute_frame_id w p)
              (expected_reply (req_at w p)) fuel 0
              (pcat_pmu_execute_begin w p) ltac:(lia) ltac:(lia)
              (conj Hf (or_introl (conj Hslot (conj Hrecv Hexp)))))
    as (ret & w' & He & Hs & Hret & Hf' & Hok & Hbad).
  exists ret, w'. repeat (split; [done|]). split.
  - intros H0. destruct (Hok H0) as (H1 & _ & H2 & H3). done.
  - intros H0. destruct (Hbad H0) as [H1 | (H1 & _ & H2 & H3)];
      [by left | by right].
Qed.

Lemma execute_outcome_witness :
  (4 <= 4)%nat
  /\ exists ret w',
       pcat_pmu_execute 4 (local_request 100 0x03 [] 0 late_world) 100
       = Some (ret, w')
       /\ pmu_reply (w_pmu w') = None /\ ret <= 0.
Proof.
  assert (H1 : (4 <= 4)%nat) by lia.
  split; [exact H1|].
  destruct (execute_outcome 4 (local_request 100 0x03 [] 0 late_world) 100 H1)
    as (ret & w' & He & Hs & Hr & _).
  exists ret, w'. split; [exact He|]. split; [exact Hs | exact Hr].
Defined.

(** The second case of a negative return happens: the reply that lands
    when the fourth wait has timed out completes the request, and
    [pcat_pmu_execute] returns -ETIMEDOUT with the completion signalled
    and the reply buffer attached. *)
Example late_reply_completes_failed_request :
  (fun r => (fst r, req_received (req_at (snd r) 100),
             reply_data (req_at (snd r) 100)))
    <$> pcat_pmu_execute 4 (local_request 100 0x03 [] 0 late_world) 100
  = Some (- ETIMEDOUT, 1, Some [65; 66; 67; 0]).
Proof. vm_compute. reflexivity. Qed.

Lemma raw_write_refused w frame_id cmd need_ack data len r rest :
  w_tx_ret w = r :: rest ->
  r < 0 ->
  pcat_pmu_raw_write w frame_id cmd need_ack data len
  = (r, mk_world (w_pmu w) (w_requests w) (w_tx w) rest (w_kzalloc w)
          (w_rx w) (w_notified w)).
Proof.
  intros Hret Hr. unfold pcat_pmu_raw_write.
  assert (E : (r <? 0) = true) by (apply Z.ltb_lt; lia).
  unfold serdev_device_write_buf at 1. rewrite Hret, E.
  cbv beta iota. rewrite E. reflexivity.
Qed.

(** X11: when the transport refuses the first write of the request frame,
    [pcat_pmu_execute] returns the transport's code at once: nothing is on
    the wire, the loop does not wait and does not try again (the receive
    script is untouched and one entry of the write script is used), and
    the pending slot is empty. *)
Theorem execute_write_failure (fuel : nat) (w : world) (p r : Z)
    (rest : list Z) :
  w_tx_ret w = r :: rest ->
  r < 0 ->
  exists w',
    pcat_pmu_execute (S fuel) w p = Some (r, w')
    /\ w_tx w' = w_tx w /\ w_tx_ret w' = rest /\ w_rx w' = w_rx w
    /\ w_notified w' = w_notified w
    /\ pmu_reply (w_pmu w') = None.
Proof.
  intros Hret Hr. unfold pcat_pmu_execute.
  destruct (execute_begin_frame w p) as (Htx & Htr & Hrx & _).
  assert (Hnot : w_notified (pcat_pmu_execute_begin w p) = w_notified w).
  { unfold pcat_pmu_execute_begin.
    repeat match goal with
           | |- context [if ?b then _ else _] => destruct b
           end; reflexivity. }
  set (w0 := pcat_pmu_execute_begin w p) in *. clearbody w0.
  cbn [pcat_pmu_execute_loop].
  rewrite (raw_write_refused w0 _ _ _ _ _ r rest) by congruence.
  replace (r <? 0) with true by (symmetry; apply Z.ltb_lt; lia).
  eexists. split; [reflexivity|].
  unfold pcat_pmu_execute_fail. cbn. done.
Qed.

Lemma execute_write_failure_witness :
  w_tx_ret (mk_world probe_pmu ∅ [] [-5] [] [] []) = [-5]
  /\ -5 < 0
  /\ exists w', pcat_pmu_execute 1 (mk_world probe_pmu ∅ [] [-5] [] [] []) 100
                = Some (-5, w')
                /\ w_tx w' = [].
Proof.
  assert (H1 : w_tx_ret (mk_world probe_pmu ∅ [] [-5] [] [] []) = [-5])
    by reflexivity.
  assert (H2 : -5 < 0) by lia.
  split; [exact H1|]. split; [exact H2|].
  destruct (execute_write_failure 0 (mk_world probe_pmu ∅ [] [-5] [] [] []) 100
              (-5) [] H1 H2) as (w' & He & Htx & _).
  exists w'. split; [exact He | exact Htx].
Defined.

(** ** An exchange that succeeds at the first wait *)

Lemma process_data_reply w data len frame :
  pcat_process_data_check data len = CheckOk frame ->
  fst (pcat_process_reply w frame) = true ->
  pcat_process_data w data len = (0, snd (pcat_process_reply w frame)).
Proof.
  intros Hc Hp. unfold pcat_process_data. rewrite Hc.
  destruct (pcat_process_reply w frame) as [b w1]. cbn [fst snd] in *.
  by subst b.
Qed.

Lemma receive_buf_reply w p head body need_ack :
  buffer_ok w ->
  pmu_length (w_pmu w) = 0 ->
  pmu_head_for head (Z.of_nat (length body)) ->
  Z.of_nat (length body) + 13 <= sizeof_buffer ->
  pmu_reply (w_pmu w) = Some p ->
  req_frame_id (req_at w p) = head_frame_id head ->
  expected_reply (req_at w p) = head_command head ->
  completion_done (req_at w p) = false ->
  let frame := mk_data head (raw_write_foot head body need_ack) body
                 (Z.of_nat (length body)) in
  exists b,
    pcat_pmu_receive_buf w (frame_bytes head body need_ack)
    = (Z.of_nat (length body) + 13,
       with_buffer b 0 (snd (pcat_process_reply w frame))).
Proof.
  intros Hok HL Hhead Hfit Hslot Hid Hcmd Hdone frame.
  pose proof Hok as [HB _]. unfold sizeof_buffer in Hfit, HB.
  set (fb := frame_bytes head body need_ack).
  assert (Hlf : Z.of_nat (length fb) = Z.of_nat (length body) + 13).
  { unfold fb, frame_bytes.
    rewrite !length_app, head_bytes_length, foot_bytes_length. lia. }
  assert (Hf : fb <> []) by (intros E; rewrite E in Hlf; cbn in Hlf; lia).
  pose proof (receive_buf_spec w fb Hf Hok ltac:(lia)) as E.
  cbv zeta in E. rewrite HL, !Z.add_0_l in E. rewrite Hlf in E.
  unfold sizeof_buffer in E. rewrite Z.min_l in E by lia.
  change (Z.to_nat 0) with 0%nat in E. rewrite take_0 in E. cbn [app] in E.
  rewrite (take_ge fb) in E by lia.
  set (d := fb ++ drop _ _) in E.
  assert (Hc : pcat_process_data_check d (Z.of_nat (length body) + 13)
               = CheckOk frame).
  { destruct Hhead as (Hm & Hs & Hd & Hi & Hcm & Hlen' & Hr).
    apply check_frame_bytes; try done; lia. }
  pose proof (process_reply_complete w frame p Hslot Hid Hcmd Hdone) as Hp.
  cbv zeta in Hp. destruct Hp as (Hp & _).
  rewrite (process_data_reply w d _ frame Hc Hp) in E. cbn [fst snd] in E.
  change (negb (0 =? - EAGAIN)) with true in E. cbv iota in E.
  exists d. exact E.
Qed.

Lemma execute_begin_record w p :
  let r := req_at w p in
  req_at (pcat_pmu_execute_begin w p) p
  = mk_request (execute_frame_id w p) 0 (req_cmd r) (expected_reply r)
      (req_data r) (req_size r) zero_head zero_foot None 0.
Proof.
  intros r.
  pose proof (execute_begin_in_exchange w p) as H. cbv zeta in H.
  destruct H as (Hf & _ & Hrecv & _ & Hwant & Hcmd & Hdata & Hsize & _).
  destruct (execute_begin_frame w p) as (_ & _ & _ & _ & _ & Hrd).
  assert (Hz : reply_head (req_at (pcat_pmu_execute_begin w p) p) = zero_head
               /\ reply_foot (req_at (pcat_pmu_execute_begin w p) p) = zero_foot
               /\ reply_size (req_at (pcat_pmu_execute_begin w p) p) = 0).
  { unfold pcat_pmu_execute_begin.
    set (w1 := upd_req p _ w).
    assert (H1 : reply_head (req_at w1 p) = zero_head
                 /\ reply_foot (req_at w1 p) = zero_foot
                 /\ reply_size (req_at w1 p) = 0)
      by (unfold w1; rewrite req_at_upd_req; done).
    clearbody w1.
    set (w2 := if req_frame_id (req_at w1 p) =? 0 then _ else w1).
    assert (H2 : reply_head (req_at w2 p) = zero_head
                 /\ reply_foot (req_at w2 p) = zero_foot
                 /\ reply_size (req_at w2 p) = 0).
    { unfold w2. destruct (_ =? 0); [|done].
      unfold atomic_inc_return_frame. rewrite req_at_upd_req, req_at_set_pmu.
      done. }
    clearbody w2.
    destruct (_ =? 0);
      rewrite ?req_at_upd_req, req_at_set_pmu; done. }
  destruct Hz as (Hh & Hft & Hs).
  fold r in Hwant, Hcmd, Hdata, Hsize.
  destruct (req_at (pcat_pmu_execute_begin w p) p); cbn in *. by subst.
Qed.

Lemma process_reply_tx w frame :
  w_tx (snd (pcat_process_reply w frame)) = w_tx w.
Proof.
  destruct (pmu_reply (w_pmu w)) as [rp|] eqn:Hrp.
  - pose proof (process_reply_cases w frame rp Hrp) as Hc. cbv zeta in Hc.
    destruct Hc as [(_ & ->) | [(_ & _ & ->) | (_ & _ & _ & w' & -> & _ & _ & _ & _ & Htx & _)]];
      cbn [snd]; [done| |done].
    by destruct (_ =? 0).
  - unfold pcat_process_reply. by rewrite Hrp.
Qed.

Lemma process_reply_notified w frame :
  w_notified (snd (pcat_process_reply w frame)) = w_notified w
  /\ w_tx_ret (snd (pcat_process_reply w frame)) = w_tx_ret w.
Proof.
  destruct (pmu_reply (w_pmu w)) as [rp|] eqn:Hrp.
  - pose proof (process_reply_cases w frame rp Hrp) as Hc. cbv zeta in Hc.
    destruct Hc as [(_ & ->) | [(_ & _ & ->) | (_ & _ & _ & w' & -> & _ & _ & _ & _ & _ & Htr & Hn)]];
      cbn [snd]; [done| |done].
    by destruct (_ =? 0).
  - unfold pcat_process_reply. by rewrite Hrp.
Qed.

Lemma expected_reply_default r :
  (if expected_reply r =? 0 then to_u16 (req_cmd r + 1) else expected_reply r)
  = expected_reply r.
Proof.
  destruct (expected_reply r =? 0) eqn:E; [|done].
  apply Z.eqb_eq in E. rewrite E. unfold expected_reply in E.
  destruct (req_want r =? 0) eqn:E2; [done|].
  apply Z.eqb_neq in E2. congruence.
Qed.

Lemma execute_first_reply fuel w p head body need_ack rest :
  w_tx_ret w = [] ->
  w_rx w = [frame_bytes head body need_ack] :: rest ->
  buffer_ok w ->
  pmu_length (w_pmu w) = 0 ->
  pmu_head_for head (Z.of_nat (length body)) ->
  Z.of_nat (length body) + 13 <= sizeof_buffer ->
  head_frame_id head = execute_frame_id w p ->
  head_command head = expected_reply (req_at w p) ->
  let r := req_at w p in
  let frame := mk_data head (raw_write_foot head body need_ack) body
                 (Z.of_nat (length body)) in
  let sr := stored_reply (hd false (w_kzalloc w)) frame zero_request in
  exists w',
    pcat_pmu_execute (S fuel) w p = Some (0, w')
    /\ req_at w' p
       = mk_request (execute_frame_id w p) 0 (req_cmd r) (expected_reply r)
           (req_data r) (req_size r) head (raw_write_foot head body need_ack)
           (fst sr) (snd sr)
    /\ w_tx w' = w_tx w ++ request_frame (req_at (pcat_pmu_execute_begin w p) p)
    /\ w_rx w' = rest
    /\ pmu_reply (w_pmu w') = None.
Proof.
  intros Hret Hrx Hok HL Hhead Hfit Hid Hcmd r frame sr.
  pose proof (execute_begin_record w p) as Hrec. cbv zeta in Hrec. fold r in Hrec.
  pose proof (execute_begin_in_exchange w p) as Hb. cbv zeta in Hb.
  destruct Hb as (_ & Hslot & _ & _ & _ & _ & _ & _ & Hkz & Hbuf & Hlen).
  destruct (execute_begin_frame w p) as (Htx & Htr & Hrx0 & _).
  unfold pcat_pmu_execute. unfold sr. clear sr.
  set (wb := pcat_pmu_execute_begin w p) in *. clearbody wb.
  cbn [pcat_pmu_execute_loop].
  rewrite raw_write_ok by congruence.
  change (4 <? 0) with false. cbv iota.
  fold (request_frame (req_at wb p)).
  set (F := request_frame (req_at wb p)).
  unfold wait_for_completion_timeout.
  replace (completion_done (req_at (tx_append F wb) p)) with false
    by (change (req_at (tx_append F wb) p) with (req_at wb p);
        by rewrite Hrec).
  unfold rx_deliver.
  rewrite w_rx_tx_append, Hrx0, Hrx. cbn [hd tl fold_left].
  set (w1 := mk_world _ _ _ _ _ _ _).
  assert (Hw1 : w_pmu w1 = w_pmu wb /\ req_at w1 p = req_at wb p
                /\ w_kzalloc w1 = w_kzalloc wb /\ w_tx w1 = w_tx wb ++ F
                /\ w_rx w1 = rest) by done.
  destruct Hw1 as (Hp1 & Hat1 & Hkz1 & Htx1 & Hrx1). clearbody w1.
  assert (Hok1 : buffer_ok w1).
  { unfold buffer_ok. rewrite Hp1, Hbuf, Hlen. exact Hok. }
  assert (Hdone1 : completion_done (req_at w1 p) = false)
    by (rewrite Hat1, Hrec; reflexivity).
  assert (Hid1 : req_frame_id (req_at w1 p) = head_frame_id head)
    by (rewrite Hat1, Hrec; cbn; congruence).
  assert (Hcmd1 : expected_reply (req_at w1 p) = head_command head).
  { rewrite Hat1, Hrec, Hcmd. unfold expected_reply at 1. cbn.
    apply expected_reply_default. }
  assert (Hslot1 : pmu_reply (w_pmu w1) = Some p) by (by rewrite Hp1).
  destruct (receive_buf_reply w1 p head body need_ack Hok1
              ltac:(rewrite Hp1; congruence) Hhead Hfit Hslot1 Hid1 Hcmd1 Hdone1)
    as (b & Erb).
  fold frame in Erb. rewrite Erb. cbn [snd].
  pose proof (process_reply_complete w1 frame p Hslot1 Hid1 Hcmd1 Hdone1) as Hpc.
  cbv zeta in Hpc. destruct Hpc as (_ & Hat2 & _).
  pose proof (process_reply_tx w1 frame) as Htx2.
  pose proof (process_reply_pmu_rest w1 frame) as [_ Hrx2].
  pose proof (process_reply_cases w1 frame p Hslot1) as Hc. cbv zeta in Hc.
  assert (Hs2 : pmu_reply (w_pmu (snd (pcat_process_reply w1 frame))) = None).
  { destruct Hc as [(Hne & _) | [(_ & Hno & _) | (_ & _ & _ & w' & -> & Hs & _)]].
    - cbn in Hne. congruence.
    - cbn in Hno. destruct Hno; congruence.
    - exact Hs. }
  set (w2 := snd (pcat_process_reply w1 frame)) in *. clearbody w2.
  rewrite req_at_with_buffer.
  assert (Hd2 : completion_done (req_at w2 p) = true).
  { rewrite Hat2. unfold completion_done. cbn [req_received].
    rewrite Hat1, Hrec. reflexivity. }
  rewrite Hd2. change (1 =? 0) with false. cbv iota.
  eexists. split; [reflexivity|].
  rewrite req_at_upd_req, req_at_with_buffer, Hat2, Hat1, Hrec.
  cbn [req_received set_req_received req_frame_id req_cmd req_want req_data
       req_size reply_head reply_foot reply_data reply_size].
  rewrite Hkz1, Hkz.
  split.
  { unfold frame at 1 2. cbn [d_head d_foot].
    unfold expected_reply at 1. cbn [req_want req_cmd].
    rewrite expected_reply_default.
    unfold stored_reply. cbn [reply_data reply_size zero_request].
    reflexivity. }
  cbn. rewrite Htx2, Htx1, Htx, Hrx2, Hrx1, Hs2. done.
Qed.

Lemma take_min_length {A} (l : list A) (n : nat) :
  take (n `min` length l) l = take n l.
Proof.
  destruct (decide (n <= length l)%nat).
  - by rewrite Nat.min_l by lia.
  - rewrite Nat.min_r by lia. rewrite firstn_all. symmetry. apply take_ge. lia.
Qed.

Lemma raw_write_head_to_u16 frame_id cmd len :
  raw_write_head frame_id (to_u16 cmd) len = raw_write_head frame_id cmd len.
Proof.
  unfold raw_write_head. f_equal. unfold to_u16. apply Z.mod_mod. lia.
Qed.

(** X12: the whole exchange of [pcat_pmu_read_string], for a string of
    len >= 1 bytes. On a link that takes every write, the reassembly
    buffer being empty, when the first wait brings in one feed a whole
    frame from the PMU, addressed to the host and of at most 8192 bytes,
    whose id is the one the request drew from the counter and whose
    command is the command sent plus one, the call returns 0; it has put
    one frame on the wire, the request with that id, an empty body and
    need_ack set, and has left the pending slot empty. The string then
    holds the first len - 1 bytes of the payload and zero bytes behind
    them when the allocation of the reply buffer succeeds, and zero bytes
    only when it fails: the caller cannot tell that from an empty
    payload. *)
Theorem read_string_round_trip (fuel : nat) (w : world) (p cmd : Z)
    (str : list Z) (len : Z) (head : pcat_data_head) (body : list Z)
    (need_ack : bool) (rest : list (list (list Z))) :
  w_tx_ret w = [] ->
  w_rx w = [frame_bytes head body need_ack] :: rest ->
  buffer_ok w ->
  pmu_length (w_pmu w) = 0 ->
  pmu_head_for head (Z.of_nat (length body)) ->
  Z.of_nat (length body) + 13 <= sizeof_buffer ->
  head_frame_id head = to_u16 (to_int (pmu_frame (w_pmu w) + 1)) ->
  head_command head = to_u16 (to_u16 cmd + 1) ->
  1 <= len < 2 ^ 64 ->
  len = Z.of_nat (length str) ->
  exists w',
    pcat_pmu_read_string (S fuel) w p cmd str len
    = Some (0,
            (if hd false (w_kzalloc w) then zeros len
             else take (Z.to_nat (len - 1)) body
                    ++ zeros (len - Z.min (len - 1) (Z.of_nat (length body)))),
            w')
    /\ w_tx w'
       = w_tx w ++ frame_bytes (raw_write_head (head_frame_id head) cmd 0) [] true
    /\ w_rx w' = rest
    /\ pmu_reply (w_pmu w') = None.
Proof.
  intros Hret Hrx Hok HL Hhead Hfit Hid Hcmd Hlen Hstr.
  unfold pcat_pmu_read_string.
  set (w0 := local_request p cmd [] 0 w).
  assert (Hat0 : req_at w0 p
                 = mk_request 0 0 (to_u16 cmd) 0 [] 0 zero_head zero_foot None 0)
    by (unfold w0, local_request; by rewrite req_at_upd_req).
  assert (Hw0 : w_pmu w0 = w_pmu w /\ w_tx_ret w0 = w_tx_ret w
                /\ w_rx w0 = w_rx w /\ w_kzalloc w0 = w_kzalloc w
                /\ w_tx w0 = w_tx w) by done.
  destruct Hw0 as (Hp0 & Htr0 & Hrx0 & Hkz0 & Htx0).
  assert (Hfid : execute_frame_id w0 p = head_frame_id head).
  { unfold execute_frame_id. rewrite Hat0, Hp0. cbn. congruence. }
  assert (Hexp : expected_reply (req_at w0 p) = head_command head).
  { rewrite Hat0. unfold expected_reply. cbn. congruence. }
  destruct (execute_first_reply fuel w0 p head body need_ack rest
              ltac:(congruence) ltac:(congruence)
              ltac:(unfold buffer_ok; rewrite Hp0; exact Hok)
              ltac:(rewrite Hp0; exact HL) Hhead Hfit
              ltac:(congruence) ltac:(congruence))
    as (w' & He & Hat & Htx & Hrx' & Hslot).
  rewrite (execute_begin_record w0 p) in Htx. cbv zeta in Htx.
  rewrite Hat0, Hkz0 in Hat. rewrite Hat0 in Htx.
  cbn [req_cmd req_data req_size] in Hat, Htx.
  clearbody w0. rewrite He. rewrite Hat.
  cbn [reply_data reply_size].
  assert (Hz : memset0 str len = zeros len) by (subst len; apply memset0_all).
  rewrite Hz. unfold stored_reply. cbn [d_size d_data].
  assert (Htxw : w_tx w'
                 = w_tx w ++ frame_bytes (raw_write_head (head_frame_id head) cmd 0)
                              [] true).
  { rewrite Htx, Htx0. unfold request_frame.
    cbn [req_frame_id req_cmd req_size req_data].
    rewrite Hfid, raw_write_head_to_u16. reflexivity. }
  destruct (0 <? Z.of_nat (length body)) eqn:Eb; cbn [fst snd].
  - destruct (hd false (w_kzalloc w)); cbn [fst snd];
      [exists w'; by split|].
    apply Z.ltb_lt in Eb. rewrite memcpy_into_zeros.
    rewrite (to_size_t_small (len - 1)) by lia.
    exists w'. split; [|done]. f_equal. f_equal. f_equal.
    remember (Z.min (len - 1) (Z.of_nat (length body))) as k eqn:Ek.
    pose proof (memcpy_spec (zeros len) (body ++ [0]) 0 (Z.to_nat k)) as Hm.
    rewrite length_zeros, length_app in Hm. cbn [length] in Hm.
    change (Z.of_nat 0) with 0 in Hm. rewrite Z2Nat.id in Hm by lia.
    rewrite Hm by lia. rewrite take_0. cbn [app Nat.add].
    rewrite take_app_le by lia.
    unfold zeros. rewrite drop_replicate.
    f_equal.
    + rewrite <- (take_min_length body (Z.to_nat (len - 1))). f_equal. lia.
    + f_equal. lia.
  - apply Z.ltb_ge in Eb.
    exists w'. split; [|done]. f_equal. f_equal. f_equal.
    destruct (hd false (w_kzalloc w)); [reflexivity|].
    assert (body = []) by (destruct body; [done | cbn in Eb; lia]). subst body.
    rewrite take_nil. cbn [app length]. f_equal. lia.
Qed.

Lemma version_reply_head_ok :
  pmu_head_for version_reply_head (Z.of_nat (length [65; 66; 67])).
Proof.
  unfold pmu_head_for, version_reply_head, accepted_dest. cbn.
  unfold PCAT_MAGIC_HEAD, PCAT_ADDR_PMU, PCAT_ADDR_CPU, U16_MAX.
  split; [reflexivity|]. split; [reflexivity|]. split; [by left|]. lia.
Defined.

Lemma read_string_round_trip_witness :
  w_tx_ret prompt_world = []
  /\ w_rx prompt_world = [frame_bytes version_reply_head [65; 66; 67] false] :: []
  /\ buffer_ok prompt_world
  /\ 1 <= 8 < 2 ^ 64
  /\ exists w',
       pcat_pmu_read_string 1 prompt_world 100 0x03 [1; 2; 3; 4; 5; 6; 7; 8] 8
       = Some (0, [65; 66; 67; 0; 0; 0; 0; 0], w').
Proof.
  assert (H1 : w_tx_ret prompt_world = []) by reflexivity.
  assert (H2 : w_rx prompt_world
               = [frame_bytes version_reply_head [65; 66; 67] false] :: [])
    by reflexivity.
  assert (H3 : buffer_ok prompt_world) by exact probe_world_ok.
  assert (H4 : pmu_length (w_pmu prompt_world) = 0) by reflexivity.
  assert (H6 : Z.of_nat (length [65; 66; 67]) + 13 <= sizeof_buffer)
    by (vm_compute; discriminate).
  assert (H7 : head_frame_id version_reply_head
               = to_u16 (to_int (pmu_frame (w_pmu prompt_world) + 1)))
    by reflexivity.
  assert (H8 : head_command version_reply_head = to_u16 (to_u16 0x03 + 1))
    by reflexivity.
  assert (H9 : 1 <= 8 < 2 ^ 64) by lia.
  assert (H10 : 8 = Z.of_nat (length [1; 2; 3; 4; 5; 6; 7; 8])) by reflexivity.
  split; [exact H1|]. split; [exact H2|]. split; [exact H3|]. split; [exact H9|].
  destruct (read_string_round_trip 0 prompt_world 100 0x03
              [1; 2; 3; 4; 5; 6; 7; 8] 8 version_reply_head [65; 66; 67] false []
              H1 H2 H3 H4 version_reply_head_ok H6 H7 H8 H9 H10)
    as (w' & He & _).
  exists w'. exact He.
Defined.

(** * The callers of the engine *)

(** ** pcat_pmu_write_data *)

Lemma write_data_first_reply fuel w p cmd data size head body need_ack rest :
  w_tx_ret w = [] ->
  w_rx w = [frame_bytes head body need_ack] :: rest ->
  buffer_ok w ->
  pmu_length (w_pmu w) = 0 ->
  pmu_head_for head (Z.of_nat (length body)) ->
  Z.of_nat (length body) + 13 <= sizeof_buffer ->
  head_frame_id head = to_u16 (to_int (pmu_frame (w_pmu w) + 1)) ->
  head_command head = to_u16 (to_u16 cmd + 1) ->
  exists w',
    pcat_pmu_write_data (S fuel) w p cmd data size = Some (0, w')
    /\ w_tx w'
       = w_tx w ++ frame_bytes (raw_write_head (head_frame_id head) cmd size)
                     (bytes_at data 0 size) true
    /\ w_rx w' = rest
    /\ pmu_reply (w_pmu w') = None.
Proof.
  intros Hret Hrx Hok HL Hhead Hfit Hid Hcmd.
  unfold pcat_pmu_write_data.
  set (w0 := local_request p cmd data size w).
  assert (Hat0 : req_at w0 p
                 = mk_request 0 0 (to_u16 cmd) 0 data size zero_head zero_foot
                     None 0)
    by (unfold w0, local_request; by rewrite req_at_upd_req).
  assert (Hw0 : w_pmu w0 = w_pmu w /\ w_tx_ret w0 = w_tx_ret w
                /\ w_rx w0 = w_rx w /\ w_tx w0 = w_tx w) by done.
  destruct Hw0 as (Hp0 & Htr0 & Hrx0 & Htx0).
  assert (Hfid : execute_frame_id w0 p = head_frame_id head).
  { unfold execute_frame_id. rewrite Hat0, Hp0. cbn. congruence. }
  assert (Hexp : expected_reply (req_at w0 p) = head_command head).
  { rewrite Hat0. unfold expected_reply. cbn. congruence. }
  destruct (execute_first_reply fuel w0 p head body need_ack rest
              ltac:(congruence) ltac:(congruence)
              ltac:(unfold buffer_ok; rewrite Hp0; exact Hok)
              ltac:(rewrite Hp0; exact HL) Hhead Hfit
              ltac:(congruence) ltac:(congruence))
    as (w' & He & _ & Htx & Hrx' & Hslot).
  rewrite (execute_begin_record w0 p) in Htx. cbv zeta in Htx.
  rewrite Hat0 in Htx. cbn [req_cmd req_data req_size] in Htx.
  clearbody w0. exists w'. split; [exact He|]. split; [|done].
  rewrite Htx, Htx0. unfold request_frame.
  cbn [req_frame_id req_cmd req_size req_data].
  rewrite Hfid, raw_write_head_to_u16. reflexivity.
Qed.

(** X13: the whole exchange of [pcat_pmu_write_data]. On a link that
    takes every write, the reassembly buffer being empty, when the first
    wait brings in one feed a whole frame from the PMU, addressed to the
    host and of at most 8192 bytes, whose id is the one the request drew
    from the counter and whose command is the command sent plus one, the
    call returns 0 having put exactly one frame on the wire: that id, the
    command, the first [size] bytes of the data as the body, and need_ack
    set; the pending slot is empty again. *)
Theorem write_data_round_trip (fuel : nat) (w : world) (p cmd : Z)
    (data : list Z) (size : Z) (head : pcat_data_head) (body : list Z)
    (need_ack : bool) (rest : list (list (list Z))) :
  w_tx_ret w = [] ->
  w_rx w = [frame_bytes head body need_ack] :: rest ->
  buffer_ok w ->
  pmu_length (w_pmu w) = 0 ->
  pmu_head_for head (Z.of_nat (length body)) ->
  Z.of_nat (length body) + 13 <= sizeof_buffer ->
  head_frame_id head = to_u16 (to_int (pmu_frame (w_pmu w) + 1)) ->
  head_command head = to_u16 (to_u16 cmd + 1) ->
  exists w' request,
    pcat_pmu_write_data (S fuel) w p cmd data size = Some (0, w')
    /\ w_tx w' = w_tx w ++ request
    /\ request = frame_bytes (raw_write_head (head_frame_id head) cmd size)
                   (bytes_at data 0 size) true
    /\ bytes_at request 9 (Z.of_nat (length (bytes_at data 0 size)))
       = bytes_at data 0 size
    /\ byte_at request (9 + Z.of_nat (length (bytes_at data 0 size))) = 1
    /\ pmu_reply (w_pmu w') = None.
Proof.
  intros Hret Hrx Hok HL Hhead Hfit Hid Hcmd.
  destruct (write_data_first_reply fuel w p cmd data size head body need_ack
              rest Hret Hrx Hok HL Hhead Hfit Hid Hcmd)
    as (w' & He & Htx & _ & Hslot).
  exists w', (frame_bytes (raw_write_head (head_frame_id head) cmd size)
                (bytes_at data 0 size) true).
  split; [exact He|]. split; [exact Htx|]. split; [reflexivity|].
  split; [|split; [|exact Hslot]].
  - unfold frame_bytes.
    change 9 with (Z.of_nat (length (head_bytes
                     (raw_write_head (head_frame_id head) cmd size)))).
    apply bytes_at_app_exact.
  - unfold frame_bytes.
    change 9 with (Z.of_nat (length (head_bytes
                     (raw_write_head (head_frame_id head) cmd size)))).
    rewrite byte_at_app_r' by lia.
    rewrite <- (Z.add_0_r (Z.of_nat (length (bytes_at data 0 size)))).
    rewrite byte_at_app_r' by lia. reflexivity.
Qed.

Lemma write_data_round_trip_witness :
  w_tx_ret prompt_world = []
  /\ buffer_ok prompt_world
  /\ exists w',
       pcat_pmu_write_data 1 prompt_world 100 0x03 [7; 8; 9] 2 = Some (0, w')
       /\ bytes_at (w_tx w') 9 2 = [7; 8].
Proof.
  assert (H1 : w_tx_ret prompt_world = []) by reflexivity.
  assert (H2 : w_rx prompt_world
               = [frame_bytes version_reply_head [65; 66; 67] false] :: [])
    by reflexivity.
  assert (H3 : buffer_ok prompt_world) by exact probe_world_ok.
  assert (H4 : pmu_length (w_pmu prompt_world) = 0) by reflexivity.
  assert (H6 : Z.of_nat (length [65; 66; 67]) + 13 <= sizeof_buffer)
    by (vm_compute; discriminate).
  assert (H7 : head_frame_id version_reply_head
               = to_u16 (to_int (pmu_frame (w_pmu prompt_world) + 1)))
    by reflexivity.
  assert (H8 : head_command version_reply_head = to_u16 (to_u16 0x03 + 1))
    by reflexivity.
  split; [exact H1|]. split; [exact H3|].
  destruct (write_data_round_trip 0 prompt_world 100 0x03 [7; 8; 9] 2
              version_reply_head [65; 66; 67] false []
              H1 H2 H3 H4 version_reply_head_ok H6 H7 H8)
    as (w' & request & He & Htx & _ & Hb & _).
  exists w'. split; [exact He|]. rewrite Htx. exact Hb.
Defined.

(** ** What reaches the wire during an exchange *)









(** ** The watchdog *)




(** ** The real-time clock *)

Lemma time_to_rtc_time_accepts year_days t tm0 :
  fst (pcat_time_to_rtc_time year_days t tm0) = true ->
  dt_second t < 60 /\ dt_minute t < 60 /\ dt_hour t < 24
  /\ 1 <= dt_day t <= 31 /\ 1 <= dt_month t <= 12
  /\ 1900 <= dt_year t <= 9999.
Proof.
  unfold pcat_time_to_rtc_time.
  destruct (_ || _) eqn:E; [discriminate|]. intros _.
  repeat (apply orb_false_iff in E; destruct E as [E ?]).
  repeat match goal with
         | H : (_ >=? _) = false |- _ => rewrite Z.geb_leb in H; apply Z.leb_gt in H
         | H : (_ >? _) = false |- _ => rewrite Z.gtb_ltb in H; apply Z.ltb_ge in H
         | H : (_ <=? _) = false |- _ => apply Z.leb_gt in H
         | H : (_ <? _) = false |- _ => apply Z.ltb_ge in H
         end.
  lia.
Qed.

Lemma time_to_rtc_time_in_range year_days t tm0 :
  dt_second t < 60 -> dt_minute t < 60 -> dt_hour t < 24 ->
  1 <= dt_day t <= 31 -> 1 <= dt_month t <= 12 -> 1900 <= dt_year t <= 9999 ->
  exists wday yday,
    pcat_time_to_rtc_time year_days t tm0
    = (true, mk_rtc_time (dt_second t) (dt_minute t) (dt_hour t) (dt_day t)
               (dt_month t - 1) (dt_year t - 1900) wday yday (tm_isdst tm0)).
Proof.
  intros. unfold pcat_time_to_rtc_time.
  replace (dt_second t >=? 60) with false by (symmetry; rewrite Z.geb_leb; apply Z.leb_gt; lia).
  replace (dt_minute t >=? 60) with false by (symmetry; rewrite Z.geb_leb; apply Z.leb_gt; lia).
  replace (dt_hour t >=? 24) with false by (symmetry; rewrite Z.geb_leb; apply Z.leb_gt; lia).
  replace (dt_day t <=? 0) with false by (symmetry; apply Z.leb_gt; lia).
  replace (dt_day t >? 31) with false by (symmetry; rewrite Z.gtb_ltb; apply Z.ltb_ge; lia).
  replace (dt_month t <=? 0) with false by (symmetry; apply Z.leb_gt; lia).
  replace (dt_month t >? 12) with false by (symmetry; rewrite Z.gtb_ltb; apply Z.ltb_ge; lia).
  replace (dt_year t <? 1900) with false by (symmetry; apply Z.ltb_ge; lia).
  replace (dt_year t >? 9999) with false by (symmetry; rewrite Z.gtb_ltb; apply Z.ltb_ge; lia).
  cbn [orb]. eexists _, _. reflexivity.
Qed.

(** X15: the two time conversions of the clock undo each other. A wire
    time that [pcat_time_to_rtc_time] accepts comes back unchanged from
    [pcat_time_from_rtc_time]; and a [struct rtc_time] within the ranges
    of a date, sent through [pcat_time_from_rtc_time], is accepted and
    gives back its second, minute, hour, day, month and year. The day is
    only checked against 31, whatever the month. *)
Theorem rtc_time_round_trip (rtc_year_days : Z -> Z -> Z -> Z)
    (t : pcat_data_cmd_date_time) (tm tm0 : rtc_time) :
  date_time_wf t ->
  tm_in_range tm ->
  (forall tm', pcat_time_to_rtc_time rtc_year_days t tm0 = (true, tm') ->
               pcat_time_from_rtc_time tm' = t)
  /\ (exists tm', pcat_time_to_rtc_time rtc_year_days
                    (pcat_time_from_rtc_time tm) tm0 = (true, tm')
                  /\ tm_fields tm' = tm_fields tm)
  /\ (dt_day t = 31 -> dt_month t = 2 -> 1900 <= dt_year t <= 9999 ->
      dt_hour t < 24 -> dt_minute t < 60 -> dt_second t < 60 ->
      fst (pcat_time_to_rtc_time rtc_year_days t tm0) = true).
Proof.
  intros Hwf Hin. split; [|split].
  - intros tm' E.
    pose proof (time_to_rtc_time_accepts rtc_year_days t tm0) as Ha.
    rewrite E in Ha. specialize (Ha eq_refl).
    destruct Hwf as (? & ? & ? & ? & ? & ?).
    destruct Ha as (? & ? & ? & ? & ? & ?).
    destruct (time_to_rtc_time_in_range rtc_year_days t tm0)
      as (wday & yday & E'); try lia.
    rewrite E' in E. injection E as <-.
    unfold pcat_time_from_rtc_time. cbn.
    destruct t as [y mo d h mi s]. cbn in *. f_equal.
    + replace (y - 1900 + 1900) with y by lia. apply to_u16_small. lia.
    + replace (mo - 1 + 1) with mo by lia. apply to_u8_small. lia.
    + apply to_u8_small. lia.
    + apply to_u8_small. lia.
    + apply to_u8_small. lia.
    + apply to_u8_small. lia.
  - destruct Hin as (? & ? & ? & ? & ? & ?).
    destruct tm as [s mi h d mo y wd yd dst]. cbn in *.
    destruct (time_to_rtc_time_in_range rtc_year_days
                (pcat_time_from_rtc_time
                   (mk_rtc_time s mi h d mo y wd yd dst)) tm0)
      as (wday & yday & E);
      unfold pcat_time_from_rtc_time; cbn;
      rewrite ?(to_u8_small s), ?(to_u8_small mi), ?(to_u8_small h),
        ?(to_u8_small d), ?(to_u8_small (mo + 1)), ?(to_u16_small (y + 1900))
        by lia; try lia.
    unfold pcat_time_from_rtc_time in E. cbn in E.
    rewrite ?(to_u8_small s), ?(to_u8_small mi), ?(to_u8_small h),
      ?(to_u8_small d), ?(to_u8_small (mo + 1)), ?(to_u16_small (y + 1900)) in E
      by lia.
    eexists. split; [exact E|]. unfold tm_fields. cbn.
    repeat f_equal; lia.
  - intros. 
    destruct (time_to_rtc_time_in_range rtc_year_days t tm0)
      as (wday & yday & E); try lia.
    by rewrite E.
Qed.

Lemma rtc_time_round_trip_witness :
  date_time_wf (mk_date_time 2024 2 29 23 59 58)
  /\ tm_in_range (mk_rtc_time 58 59 23 29 1 124 0 0 0)
  /\ pcat_time_from_rtc_time (mk_rtc_time 58 59 23 29 1 124 0 0 0)
     = mk_date_time 2024 2 29 23 59 58
  /\ exists tm', pcat_time_to_rtc_time (fun _ _ _ => 59)
                   (pcat_time_from_rtc_time (mk_rtc_time 58 59 23 29 1 124 0 0 0))
                   zero_rtc_time = (true, tm')
                 /\ tm_fields tm' = [58; 59; 23; 29; 1; 124].
Proof.
  assert (H1 : date_time_wf (mk_date_time 2024 2 29 23 59 58))
    by (unfold date_time_wf; cbn; lia).
  assert (H2 : tm_in_range (mk_rtc_time 58 59 23 29 1 124 0 0 0))
    by (unfold tm_in_range; cbn; lia).
  split; [exact H1|]. split; [exact H2|]. split; [reflexivity|].
  destruct (rtc_time_round_trip (fun _ _ _ => 59)
              (mk_date_time 2024 2 29 23 59 58)
              (mk_rtc_time 58 59 23 29 1 124 0 0 0) zero_rtc_time H1 H2)
    as (_ & (tm' & E & Hf) & _).
  exists tm'. split; [exact E | exact Hf].
Defined.


(** *** The frames handed to the chain during an exchange *)











(** A status report that arrives during an exchange that fails: the clock
    holds the time of the report, not the one it held before and not the
    one that was sent. *)
Example report_during_failed_set_time :
  (fun r => (fst (fst r), snd (fst r)))
    <$> pcat_rtc_set_time 4 reporting_world 100
          (mk_rtc (mk_date_time 2000 1 1 0 0 0) 1)
          (mk_rtc_time 0 0 12 15 5 125 0 0 0)
  = Some (- ETIMEDOUT, mk_rtc (mk_date_time 2024 2 29 23 59 58) 2).
Proof. vm_compute. reflexivity. Qed.

(** ** The temperature sensor *)

Lemma to_int_small v : -2147483648 <= v < 2147483648 -> to_int v = v.
Proof.
  intros H. unfold to_int.
  change (2 ^ 31) with 2147483648. change (2 ^ 32) with 4294967296.
  rewrite Z.mod_small by lia. lia.
Qed.

(** X17: after [pcat_hwmon_notify] has seen a status report of at least
    18 bytes, [pcat_hwmon_read] gives, for the temperature input, a
    thousand times the byte at offset 17 of the report less 40, a value
    from -40000 to 215000; any other command leaves the stored temperature
    alone, and any other sensor type or attribute is answered with
    -EOPNOTSUPP and leaves the value alone. *)
Theorem hwmon_report_then_read (hwmon : pcat_hwmon) (action : Z)
    (frame : pcat_data) (val : Z) :
  let hwmon' := snd (pcat_hwmon_notify hwmon action frame) in
  (action = PCAT_CMD_STATUS_REPORT ->
   18 <= Z.of_nat (length (d_data frame)) ->
   pcat_hwmon_read hwmon' hwmon_temp hwmon_temp_input val
   = (0, (status_temp (d_data frame) - 40) * 1000)
   /\ -40000 <= (status_temp (d_data frame) - 40) * 1000 <= 215000)
  /\ (action <> PCAT_CMD_STATUS_REPORT -> hwmon' = hwmon)
  /\ (forall type attr,
        type <> hwmon_temp \/ attr <> hwmon_temp_input ->
        pcat_hwmon_read hwmon' type attr val = (- EOPNOTSUPP, val)).
Proof.
  intros hwmon'. split; [|split].
  - intros -> _. unfold hwmon', pcat_hwmon_notify, pcat_hwmon_read.
    rewrite Z.eqb_refl. cbn [negb snd hwmon_temperature].
    rewrite !Z.eqb_refl.
    pose proof (to_u8_range (byte_at (d_data frame) 17)) as Hr.
    unfold status_temp. split; [|lia].
    f_equal. apply to_int_small. lia.
  - intros Hne. unfold hwmon', pcat_hwmon_notify.
    replace (action =? PCAT_CMD_STATUS_REPORT) with false
      by (symmetry; by apply Z.eqb_neq).
    reflexivity.
  - intros type attr Hne. unfold pcat_hwmon_read.
    destruct (Z.eqb_spec type hwmon_temp); [|reflexivity].
    destruct (Z.eqb_spec attr hwmon_temp_input); [|reflexivity].
    destruct Hne; done.
Qed.

Lemma hwmon_report_then_read_witness :
  18 <= Z.of_nat (length (d_data (mk_data status_head zero_foot
                                    (zeros 17 ++ [65]) 18)))
  /\ pcat_hwmon_read
       (snd (pcat_hwmon_notify (mk_hwmon 0 0) PCAT_CMD_STATUS_REPORT
               (mk_data status_head zero_foot (zeros 17 ++ [65]) 18)))
       hwmon_temp hwmon_temp_input 0
     = (0, 25000).
Proof.
  assert (H : 18 <= Z.of_nat (length (d_data (mk_data status_head zero_foot
                                                (zeros 17 ++ [65]) 18))))
    by (vm_compute; discriminate).
  split; [exact H|].
  exact (proj1 (proj1 (hwmon_report_then_read (mk_hwmon 0 0)
                         PCAT_CMD_STATUS_REPORT
                         (mk_data status_head zero_foot (zeros 17 ++ [65]) 18) 0)
                  eq_refl H)).
Defined.

(** ** Subscribers and the acknowledgment *)

Lemma repo_subscriber_done nb val v : repo_subscriber nb -> nb val v = NOTIFY_DONE.
Proof.
  intros []; cbn.
  - unfold pcat_rtc_notify. by destruct (negb _).
  - unfold pcat_hwmon_notify. by destruct (negb _).
  - unfold pcat_supply_notify. by destruct (negb _).
  - unfold pcat_poweroff_notify. by destruct (negb _).
Qed.

Lemma repo_chain_done nl val v :
  Forall repo_subscriber nl ->
  notifier_call_chain nl NOTIFY_DONE val v = NOTIFY_DONE.
Proof.
  induction 1 as [|nb nl Hnb _ IH]; cbn [notifier_call_chain]; [done|].
  rewrite (repo_subscriber_done nb val v Hnb). exact IH.
Qed.

Lemma process_data_unclaimed w data len frame :
  pcat_process_data_check data len = CheckOk frame ->
  pmu_reply (w_pmu w) = None ->
  notifier_call_chain (pmu_notifier_list (w_pmu w)) NOTIFY_DONE
    (head_command (d_head frame)) frame = NOTIFY_DONE ->
  foot_need_ack (d_foot frame) <> 0 ->
  w_tx_ret w = [] ->
  let w' := snd (pcat_process_data w data len) in
  fst (pcat_process_data w data len) = 0
  /\ w_tx w'
     = w_tx w ++ frame_bytes (raw_write_head (head_frame_id (d_head frame))
                                (head_command (d_head frame) + 1) 0) [] false
  /\ w_notified w' = w_notified w ++ [(head_command (d_head frame), frame)]
  /\ w_pmu w' = w_pmu w /\ w_requests w' = w_requests w.
Proof.
  intros Hc Hslot Hchain Hack Hret w'. subst w'.
  unfold pcat_process_data. rewrite Hc.
  unfold pcat_process_reply. rewrite Hslot.
  unfold blocking_notifier_call_chain. rewrite Hchain, Z.eqb_refl.
  replace (foot_need_ack (d_foot frame) =? 0) with false
    by (symmetry; by apply Z.eqb_neq).
  cbn [negb andb]. rewrite raw_write_ok by done. cbn. done.
Qed.

(** X18: none of the subscribers of the repository (clock, temperature
    sensor, power supply, power-off) ever claims a frame: each returns
    NOTIFY_DONE for every command and payload, in every state. So with
    only such subscribers registered, no request pending, the reassembly
    buffer empty and a link that takes every write, a feed that is one
    whole frame from the PMU, addressed to the host, of at most 8192
    bytes and asking for an acknowledgment, is taken whole, handed to the
    chain once and acknowledged with its own id and its command plus one;
    the buffer is empty again. *)
Theorem repo_subscribers_never_claim (w : world) (head : pcat_data_head)
    (body : list Z) :
  Forall repo_subscriber (pmu_notifier_list (w_pmu w)) ->
  buffer_ok w ->
  pmu_length (w_pmu w) = 0 ->
  pmu_reply (w_pmu w) = None ->
  w_tx_ret w = [] ->
  pmu_head_for head (Z.of_nat (length body)) ->
  Z.of_nat (length body) + 13 <= sizeof_buffer ->
  let frame := mk_data head (raw_write_foot head body true) body
                 (Z.of_nat (length body)) in
  (forall nb action v, repo_subscriber nb -> nb action v = NOTIFY_DONE)
  /\ let '(n, w') := pcat_pmu_receive_buf w (frame_bytes head body true) in
     n = Z.of_nat (length body) + 13
     /\ w_notified w' = w_notified w ++ [(head_command head, frame)]
     /\ w_tx w'
        = w_tx w ++ frame_bytes (raw_write_head (head_frame_id head)
                                   (head_command head + 1) 0) [] false
     /\ pmu_length (w_pmu w') = 0.
Proof.
  intros Hsubs Hok HL Hslot Hret Hhead Hfit frame.
  split; [intros nb action v; apply repo_subscriber_done|].
  pose proof Hok as [HB _]. unfold sizeof_buffer in Hfit, HB.
  set (fb := frame_bytes head body true).
  assert (Hlf : Z.of_nat (length fb) = Z.of_nat (length body) + 13).
  { unfold fb, frame_bytes.
    rewrite !length_app, head_bytes_length, foot_bytes_length. lia. }
  assert (Hf : fb <> []) by (intros E; rewrite E in Hlf; cbn in Hlf; lia).
  pose proof (receive_buf_spec w fb Hf Hok ltac:(lia)) as E.
  cbv zeta in E. rewrite HL, !Z.add_0_l in E. rewrite Hlf in E.
  unfold sizeof_buffer in E. rewrite Z.min_l in E by lia.
  change (Z.to_nat 0) with 0%nat in E. rewrite take_0 in E. cbn [app] in E.
  rewrite (take_ge fb) in E by lia.
  set (d := fb ++ drop _ _) in E.
  assert (Hc : pcat_process_data_check d (Z.of_nat (length body) + 13)
               = CheckOk frame).
  { destruct Hhead as (Hm & Hs & Hd & Hi & Hcm & Hlen' & Hr).
    apply check_frame_bytes; try done; lia. }
  destruct (process_data_unclaimed w d _ frame Hc Hslot
              (repo_chain_done _ _ _ Hsubs) ltac:(cbn; lia) Hret)
    as (H0 & Htx & Hnot & _).
  rewrite H0 in E. change (negb (0 =? - EAGAIN)) with true in E.
  cbv iota in E. rewrite E. split; [reflexivity|].
  set (w2 := snd (pcat_process_data w d (Z.of_nat (length body) + 13))) in *.
  clearbody w2.
  split; [exact Hnot|]. split; [exact Htx|]. reflexivity.
Qed.

Lemma subscribed_world_ok : buffer_ok subscribed_world.
Proof. split; [vm_compute; reflexivity | cbn; unfold sizeof_buffer; lia]. Defined.

Lemma repo_subscribers_never_claim_witness :
  Forall repo_subscriber (pmu_notifier_list (w_pmu subscribed_world))
  /\ buffer_ok subscribed_world
  /\ pmu_reply (w_pmu subscribed_world) = None
  /\ w_tx_ret subscribed_world = []
  /\ fst (pcat_pmu_receive_buf subscribed_world (frame_bytes status_head [] true))
     = 13.
Proof.
  assert (H1 : Forall repo_subscriber (pmu_notifier_list (w_pmu subscribed_world))).
  { unfold subscribed_world. cbn [w_pmu pmu_notifier_list].
    constructor; [apply sub_rtc|].
    constructor; [apply sub_hwmon|].
    constructor; [apply sub_supply|].
    constructor; [apply sub_poweroff|].
    constructor. }
  assert (H2 : buffer_ok subscribed_world) by exact subscribed_world_ok.
  assert (H3 : pmu_length (w_pmu subscribed_world) = 0) by reflexivity.
  assert (H4 : pmu_reply (w_pmu subscribed_world) = None) by reflexivity.
  assert (H5 : w_tx_ret subscribed_world = []) by reflexivity.
  assert (H7 : Z.of_nat (length (@nil Z)) + 13 <= sizeof_buffer)
    by (vm_compute; discriminate).
  split; [exact H1|]. split; [exact H2|]. split; [exact H4|]. split; [exact H5|].
  pose proof (repo_subscribers_never_claim subscribed_world status_head []
                H1 H2 H3 H4 H5 status_head_ok H7) as H.
  cbv zeta in H. destruct H as [_ H].
  destruct (pcat_pmu_receive_buf subscribed_world (frame_bytes status_head [] true))
    as [n w'].
  destruct H as (-> & _). reflexivity.
Defined.

(** ** What the CRC detects *)

Lemma forall_bytes (P : Z -> bool) :
  forallb P all_bytes = true -> forall x, 0 <= x < 256 -> P x = true.
Proof.
  intros H x Hx. rewrite forallb_forall in H. apply H.
  apply list_elem_of_In, elem_of_seqZ. lia.
Qed.

Lemma crc16_table_range x : 0 <= x < 256 -> 0 <= crc16_table x < 65536.
Proof.
  intros Hx.
  pose proof (forall_bytes
                (fun x => (0 <=? crc16_table x) && (crc16_table x <? 65536))
                ltac:(vm_compute; reflexivity) x Hx) as H.
  cbv beta in H. apply andb_true_iff in H as [H1 H2].
  apply Z.leb_le in H1. apply Z.ltb_lt in H2. lia.
Qed.

Lemma crc16_table_high_inj x y :
  0 <= x < 256 -> 0 <= y < 256 ->
  Z.shiftr (crc16_table x) 8 = Z.shiftr (crc16_table y) 8 -> x = y.
Proof.
  intros Hx Hy E.
  pose proof (forall_bytes
                (fun x => forallb
                            (fun y => implb (Z.shiftr (crc16_table x) 8
                                             =? Z.shiftr (crc16_table y) 8)
                                        (x =? y)) all_bytes)
                ltac:(vm_compute; reflexivity) x Hx) as H.
  cbv beta in H.
  pose proof (forall_bytes _ H y Hy) as H2. cbv beta in H2.
  rewrite E, Z.eqb_refl in H2. cbn [implb] in H2. by apply Z.eqb_eq.
Qed.

Lemma lxor_cancel_l a b c : Z.lxor a b = Z.lxor a c -> b = c.
Proof.
  intros E. apply (f_equal (Z.lxor a)) in E.
  by rewrite <- !Z.lxor_assoc, !Z.lxor_nilpotent, !Z.lxor_0_l in E.
Qed.

Lemma lxor_cancel_r a b c : Z.lxor b a = Z.lxor c a -> b = c.
Proof. rewrite !(Z.lxor_comm _ a). apply lxor_cancel_l. Qed.

Lemma land_lxor_distr a b m :
  Z.land (Z.lxor a b) m = Z.lxor (Z.land a m) (Z.land b m).
Proof.
  apply Z.bits_inj'. intros i Hi.
  rewrite Z.lxor_spec, !Z.land_spec, Z.lxor_spec.
  by destruct (Z.testbit a i), (Z.testbit b i), (Z.testbit m i).
Qed.

Lemma shiftr_lxor_distr a b n :
  0 <= n -> Z.shiftr (Z.lxor a b) n = Z.lxor (Z.shiftr a n) (Z.shiftr b n).
Proof.
  intros Hn. apply Z.bits_inj'. intros i Hi.
  by rewrite Z.lxor_spec, !Z.shiftr_spec, Z.lxor_spec by lia.
Qed.

Lemma land_255 v : Z.land v 255 = v mod 256.
Proof. change 255 with (Z.ones 8). by rewrite Z.land_ones by lia. Qed.

Lemma land_65535 v : Z.land v 65535 = v mod 65536.
Proof. change 65535 with (Z.ones 16). by rewrite Z.land_ones by lia. Qed.

Lemma crc16_index_range c d : 0 <= Z.land (Z.lxor c d) 255 < 256.
Proof. rewrite land_255. apply Z.mod_pos_bound. lia. Qed.

(** The value before the final truncation already fits 16 bits. *)
Lemma crc16_byte_eq c1 d1 c2 d2 :
  0 <= c1 < 65536 -> 0 <= c2 < 65536 ->
  crc16_byte c1 d1 = crc16_byte c2 d2 ->
  Z.lxor (Z.shiftr c1 8) (crc16_table (Z.land (Z.lxor c1 d1) 255))
  = Z.lxor (Z.shiftr c2 8) (crc16_table (Z.land (Z.lxor c2 d2) 255)).
Proof.
  intros H1 H2. unfold crc16_byte, to_u16.
  pose proof (crc16_index_range c1 d1) as Hx1.
  pose proof (crc16_index_range c2 d2) as Hx2.
  set (x1 := Z.land (Z.lxor c1 d1) 255) in *.
  set (x2 := Z.land (Z.lxor c2 d2) 255) in *. clearbody x1 x2.
  rewrite <- !land_65535, !land_lxor_distr.
  assert (Hs : forall c, 0 <= c < 65536 ->
                         Z.land (Z.shiftr c 8) 65535 = Z.shiftr c 8).
  { intros c Hc. rewrite land_65535. apply Z.mod_small.
    rewrite Z.shiftr_div_pow2 by lia. change (2 ^ 8) with 256.
    Z.to_euclidean_division_equations. lia. }
  assert (Ht : forall x, 0 <= x < 256 ->
                         Z.land (crc16_table x) 65535 = crc16_table x).
  { intros x Hx. rewrite land_65535. apply Z.mod_small.
    by apply crc16_table_range. }
  rewrite !Hs by done.
  rewrite !Ht by done. done.
Qed.

Lemma crc16_byte_inj_data c d1 d2 :
  0 <= c < 65536 -> 0 <= d1 < 256 -> 0 <= d2 < 256 ->
  crc16_byte c d1 = crc16_byte c d2 -> d1 = d2.
Proof.
  intros Hc H1 H2 E.
  apply crc16_byte_eq in E; [|done|done].
  apply lxor_cancel_l in E.
  assert (Ex : Z.land (Z.lxor c d1) 255 = Z.land (Z.lxor c d2) 255).
  { apply crc16_table_high_inj; [apply crc16_index_range..|]. by rewrite E. }
  rewrite !land_lxor_distr in Ex. apply lxor_cancel_l in Ex.
  rewrite !land_255, !Z.mod_small in Ex by lia. exact Ex.
Qed.

Lemma crc16_byte_inj_crc c1 c2 d :
  0 <= c1 < 65536 -> 0 <= c2 < 65536 ->
  crc16_byte c1 d = crc16_byte c2 d -> c1 = c2.
Proof.
  intros H1 H2 E.
  apply crc16_byte_eq in E; [|done|done].
  assert (Hhi : forall c, 0 <= c < 65536 -> Z.shiftr (Z.shiftr c 8) 8 = 0).
  { intros c Hc. rewrite Z.shiftr_shiftr by lia.
    rewrite Z.shiftr_div_pow2 by lia. change (2 ^ (8 + 8)) with 65536.
    apply Z.div_small. lia. }
  assert (Ex : Z.land (Z.lxor c1 d) 255 = Z.land (Z.lxor c2 d) 255).
  { apply crc16_table_high_inj; [apply crc16_index_range..|].
    apply (f_equal (fun v => Z.shiftr v 8)) in E.
    by rewrite !shiftr_lxor_distr, !Hhi, !Z.lxor_0_l in E by lia. }
  rewrite Ex in E. apply lxor_cancel_r in E.
  rewrite !land_lxor_distr in Ex. apply lxor_cancel_r in Ex.
  rewrite !land_255 in Ex. rewrite !Z.shiftr_div_pow2 in E by lia.
  change (2 ^ 8) with 256 in E.
  rewrite (Z.div_mod c1 256), (Z.div_mod c2 256) by lia. congruence.
Qed.

Lemma crc16_inj_crc l : forall c1 c2,
  0 <= c1 < 65536 -> 0 <= c2 < 65536 ->
  crc16 c1 l = crc16 c2 l -> c1 = c2.
Proof.
  induction l as [|x l IH]; intros c1 c2 H1 H2 E; [exact E|].
  unfold crc16 in E. cbn [fold_left] in E.
  apply IH in E; [|apply crc16_byte_range..].
  by apply crc16_byte_inj_crc in E.
Qed.

(** One wrong byte changes the CRC, wherever it is. *)
Lemma crc16_single_byte c pre b b' post :
  0 <= c < 65536 -> 0 <= b < 256 -> 0 <= b' < 256 -> b <> b' ->
  crc16 c (pre ++ b :: post) <> crc16 c (pre ++ b' :: post).
Proof.
  intros Hc Hb Hb' Hne E.
  rewrite !crc16_app in E.
  unfold crc16 at 1 3 in E. cbn [fold_left] in E.
  fold (crc16 (crc16_byte (crc16 c pre) b) post) in E.
  fold (crc16 (crc16_byte (crc16 c pre) b') post) in E.
  apply crc16_inj_crc in E; [|apply crc16_byte_range..].
  apply crc16_byte_inj_data in E; [done| |done|done].
  by apply crc16_range.
Qed.

Lemma crc_region head body foot rest :
  bytes_at (head_bytes head ++ body ++ foot_bytes foot ++ rest) 1
    (Z.of_nat (length body) + 9)
  = bytes_at (head_bytes head) 1 (sizeof_head - 1) ++ body
    ++ [to_u8 (foot_need_ack foot)].
Proof.
  unfold foot_bytes.
  unfold bytes_at, head_bytes, u16_bytes, sizeof_head. norm_to_nat.
  cbn [app drop take].
  replace (Z.to_nat (Z.of_nat (length body) + 9))
    with (8 + (length body + 1))%nat by lia.
  cbn [take Nat.add]. do 8 f_equal.
  rewrite take_app_add'; [|reflexivity]. f_equal.
Qed.

Lemma check_frame_foot head body foot rest len :
  pmu_head_for head (Z.of_nat (length body)) ->
  0 <= foot_need_ack foot < 256 ->
  0 <= foot_crc16 foot < 65536 ->
  0 <= foot_magic_end foot < 256 ->
  Z.of_nat (length body) + 13 <= len ->
  pcat_process_data_check
    (head_bytes head ++ body ++ foot_bytes foot ++ rest) len
  = if negb (foot_magic_end foot =? PCAT_MAGIC_END) then CheckBadFootMagic
    else if negb (foot_crc16 foot
                  =? crc16 0xFFFF (bytes_at (head_bytes head) 1 (sizeof_head - 1)
                                     ++ body ++ [foot_need_ack foot]))
         then CheckCrcMismatch
         else CheckOk (mk_data head foot body (Z.of_nat (length body))).
Proof.
  intros (Hm & Hs & Hd & Hid & Hcmd & Hlen & Hsmall) Hack Hcrc Hend Hfit.
  set (data := head_bytes head ++ body ++ foot_bytes foot ++ rest).
  assert (Hnorm : head_of_bytes data = head).
  { unfold data. rewrite head_of_head_bytes.
    destruct head as [m s d i l c]; cbn in *; subst m s l.
    rewrite (to_u16_small i), (to_u16_small c) by lia.
    rewrite (to_u16_small (_ + 3)) by (unfold U16_MAX in *; lia).
    f_equal. destruct Hd as [-> | [-> | ->]]; reflexivity. }
  unfold pcat_process_data_check. rewrite Hnorm.
  unfold sizeof_head, sizeof_foot, U16_MAX in *.
  rewrite Hm, Hs, Hlen.
  assert (Hdest : negb (head_dest head =? PCAT_ADDR_CPU)
           && negb (head_dest head =? PCAT_ADDR_CPU_ALL)
           && negb (head_dest head =? PCAT_ADDR_ALL) = false)
    by (destruct Hd as [-> | [-> | ->]]; reflexivity).
  rewrite Hdest. rewrite !Z.eqb_refl. cbn [negb orb].
  replace (len <? 9) with false by (symmetry; apply Z.ltb_ge; lia).
  replace (Z.of_nat (length body) + 3 <? 4 - 1) with false
    by (symmetry; apply Z.ltb_ge; lia).
  replace (Z.of_nat (length body) + 3 >=? 65535 - 4) with false
    by (symmetry; rewrite Z.geb_leb; apply Z.leb_gt; lia).
  replace (9 + (Z.of_nat (length body) + 3) + 1 >? len) with false
    by (symmetry; rewrite Z.gtb_ltb; apply Z.ltb_ge; lia).
  cbn [orb].
  assert (Hfoot : foot_of_bytes data (Z.of_nat (length body) + 3 + 1 - 4 + 9)
                  = foot).
  { unfold data.
    replace (head_bytes head ++ body ++ foot_bytes foot ++ rest)
      with ((head_bytes head ++ body) ++ foot_bytes foot ++ rest)
      by (rewrite <- !app_assoc; reflexivity).
    rewrite foot_of_foot_bytes
      by (rewrite length_app, head_bytes_length; lia).
    destruct foot as [a c e]. cbn in *.
    by rewrite (to_u8_small a), (to_u8_small e), (to_u16_small c) by lia. }
  rewrite Hfoot.
  destruct (negb (foot_magic_end foot =? PCAT_MAGIC_END)); [reflexivity|].
  replace (Z.of_nat (length body) + 3 + 6) with (Z.of_nat (length body) + 9)
    by lia.
  unfold data at 1. rewrite crc_region. unfold sizeof_head.
  rewrite (to_u8_small (foot_need_ack foot)) by lia.
  destruct (negb (foot_crc16 foot =? _)); [reflexivity|].
  do 2 f_equal.
  - unfold data.
    replace (Z.of_nat (length body) + 3 + 1 - 4) with (Z.of_nat (length body))
      by lia.
    change 9 with (Z.of_nat (length (head_bytes head))).
    apply bytes_at_app_exact.
  - lia.
Qed.

(** X19: a frame from the PMU that arrives with one byte of its body
    changed, head and foot intact, never passes: the CRC check fails
    whatever the byte, its place and the rest of the frame are, and
    [pcat_process_data] returns -EBADMSG without touching the state. *)
Theorem corrupted_byte_rejected (w : world) (head : pcat_data_head)
    (pre post : list Z) (b b' : Z) (need_ack : bool) (rest : list Z) (len : Z) :
  let body := pre ++ b :: post in
  let received := pre ++ b' :: post in
  pmu_head_for head (Z.of_nat (length body)) ->
  0 <= b < 256 -> 0 <= b' < 256 -> b <> b' ->
  Z.of_nat (length body) + 13 <= len ->
  let data := head_bytes head ++ received
              ++ foot_bytes (raw_write_foot head body need_ack) ++ rest in
  pcat_process_data_check data len = CheckCrcMismatch
  /\ pcat_process_data w data len = (- EBADMSG, w).
Proof.
  intros body received Hhead Hb Hb' Hne Hfit data.
  assert (Hl : length received = length body)
    by (unfold received, body; rewrite !length_app; reflexivity).
  assert (Hc : pcat_process_data_check data len = CheckCrcMismatch).
  { unfold data. rewrite check_frame_foot.
    - cbn [foot_magic_end raw_write_foot]. rewrite Z.eqb_refl. cbn [negb].
      replace (_ =? _) with false; [reflexivity|].
      symmetry. apply Z.eqb_neq.
      unfold raw_write_foot. cbn [foot_crc16 foot_need_ack].
      rewrite <- !crc16_app. unfold received, body.
      rewrite !app_assoc. rewrite <- !(app_assoc _ (_ :: post)).
      cbn [app]. apply crc16_single_byte; try done; lia.
    - by rewrite Hl.
    - cbn. by destruct need_ack.
    - unfold raw_write_foot. cbn [foot_crc16]. rewrite <- !crc16_app.
      apply crc16_range. lia.
    - cbn. unfold PCAT_MAGIC_END. lia.
    - by rewrite Hl. }
  split; [exact Hc|].
  apply process_data_malformed. unfold malformed. rewrite Hc. tauto.
Qed.

Lemma corrupted_byte_rejected_witness :
  pmu_head_for version_reply_head (Z.of_nat (length ([65] ++ 66 :: [67])))
  /\ 0 <= 66 < 256 /\ 0 <= 98 < 256 /\ 66 <> 98
  /\ Z.of_nat (length ([65] ++ 66 :: [67])) + 13 <= 16
  /\ pcat_process_data_check
       (head_bytes version_reply_head ++ ([65] ++ 98 :: [67])
        ++ foot_bytes (raw_write_foot version_reply_head ([65] ++ 66 :: [67]) false)
        ++ []) 16
     = CheckCrcMismatch.
Proof.
  assert (H2 : 0 <= 66 < 256) by lia.
  assert (H3 : 0 <= 98 < 256) by lia.
  assert (H4 : 66 <> 98) by lia.
  assert (H5 : Z.of_nat (length ([65] ++ 66 :: [67])) + 13 <= 16)
    by (vm_compute; discriminate).
  split; [exact version_reply_head_ok|]. split; [exact H2|].
  split; [exact H3|]. split; [exact H4|]. split; [exact H5|].
  exact (proj1 (corrupted_byte_rejected probe_world version_reply_head
                  [65] [67] 66 98 false [] 16
                  version_reply_head_ok H2 H3 H4 H5)).
Defined.

(** ** A reply that finds its request *)

(** X20: a frame that completes the pending request goes no further:
    the subscriber chain does not see it and it is not acknowledged, even
    when it asks for an acknowledgment. *)
Theorem matched_reply_not_forwarded (w : world) (data : list Z) (len : Z)
    (frame : pcat_data) (rp : Z) :
  pcat_process_data_check data len = CheckOk frame ->
  pmu_reply (w_pmu w) = Some rp ->
  req_frame_id (req_at w rp) = head_frame_id (d_head frame) ->
  expected_reply (req_at w rp) = head_command (d_head frame) ->
  completion_done (req_at w rp) = false ->
  let '(ret, w') := pcat_process_data w data len in
  ret = 0
  /\ w_tx w' = w_tx w
  /\ w_tx_ret w' = w_tx_ret w
  /\ w_notified w' = w_notified w
  /\ completion_done (req_at w' rp) = true.
Proof.
  intros Hc Hslot Hid Hcmd Hdone.
  pose proof (process_reply_complete w frame rp Hslot Hid Hcmd Hdone) as Hp.
  cbv zeta in Hp. destruct Hp as (Hp & Hat & _).
  rewrite (process_data_reply w data len frame Hc Hp).
  pose proof (process_reply_tx w frame) as Htx.
  pose proof (process_reply_notified w frame) as [Hn Htr].
  split; [reflexivity|]. split; [exact Htx|]. split; [exact Htr|].
  split; [exact Hn|]. rewrite Hat. unfold completion_done in *.
  cbn [req_received]. apply negb_false_iff, Z.eqb_eq in Hdone.
  rewrite Hdone. reflexivity.
Qed.

Lemma matched_reply_not_forwarded_witness :
  pcat_process_data_check (frame_bytes version_reply_head [65; 66; 67] true) 16
  = CheckOk (mk_data version_reply_head
               (raw_write_foot version_reply_head [65; 66; 67] true)
               [65; 66; 67] 3)
  /\ pmu_reply (w_pmu pending_world) = Some 100
  /\ completion_done (req_at pending_world 100) = false
  /\ w_tx (snd (pcat_process_data pending_world
                  (frame_bytes version_reply_head [65; 66; 67] true) 16))
     = w_tx pending_world.
Proof.
  assert (H1 : pcat_process_data_check
                 (frame_bytes version_reply_head [65; 66; 67] true) 16
               = CheckOk (mk_data version_reply_head
                            (raw_write_foot version_reply_head [65; 66; 67] true)
                            [65; 66; 67] 3))
    by (vm_compute; reflexivity).
  assert (H2 : pmu_reply (w_pmu pending_world) = Some 100) by reflexivity.
  assert (H3 : req_frame_id (req_at pending_world 100)
               = head_frame_id (d_head (mk_data version_reply_head
                            (raw_write_foot version_reply_head [65; 66; 67] true)
                            [65; 66; 67] 3))) by reflexivity.
  assert (H4 : expected_reply (req_at pending_world 100)
               = head_command (d_head (mk_data version_reply_head
                            (raw_write_foot version_reply_head [65; 66; 67] true)
                            [65; 66; 67] 3))) by reflexivity.
  assert (H5 : completion_done (req_at pending_world 100) = false)
    by reflexivity.
  split; [exact H1|]. split; [exact H2|]. split; [exact H5|].
  pose proof (matched_reply_not_forwarded pending_world _ 16 _ 100
                H1 H2 H3 H4 H5) as H.
  destruct (pcat_process_data pending_world
              (frame_bytes version_reply_head [65; 66; 67] true) 16) as [ret w'].
  destruct H as (_ & Htx & _). exact Htx.
Defined.
